(** * Nike catalogue crawler: a shallow embedding of [extract_nike_data.py]

    The development follows the script top to bottom: the values the script
    handles (JSON payloads, Python exceptions, data frames, SQLite rows),
    then [update_database], [extract_concept_ids], [parse_response],
    [fetch_nike_products], [process_single_url] and the fan-in loop of the
    module body, and finally the properties of each.

    Conventions.
    - A Python expression that may raise is an [outcome]: [Return v] or
      [Raise e].  A [try ... except Exception] block is [try_except].
    - JSON numbers are integers ([Z]); a payload with a fractional number is
      outside the model, and so is the change of an integer column to floats
      that pandas makes when the column also holds NaN.
    - Console output (print, logging) is left out; what a worker does on the
      network and on its progress bar is kept as a list of events.
    - Library behaviour the script relies on (pandas, sqlite3, urllib, bs4)
      is modelled in the modules [Py], [Pandas] and [Sqlite]; the functions
      of the script keep their Python names. *)

From Stdlib Require Import ZArith List String Ascii Bool Lia PeanoNat.
From Stdlib Require Import Sorted Permutation.
From Stdlib Require DecimalString.
Import ListNotations.

Set Implicit Arguments.
Set Warnings "-register-all".
Local Open Scope string_scope.
Local Open Scope list_scope.

(** ** Exceptions and outcomes *)

Inductive exn : Type :=
| KeyError | TypeError | AttributeError | IndexError | ValueError
| OverflowError
| RequestsError        (* curl_cffi transport failure *)
| JSONDecodeError      (* response.json() on a body that is not JSON *)
| InterfaceError       (* sqlite3: parameter of an unsupported type *)
| OperationalError.    (* sqlite3: the engine refused the statement *)

Inductive outcome (A : Type) : Type :=
| Return (a : A)
| Raise (e : exn).

Arguments Return {A} a.
Arguments Raise {A} e.

Definition bind {A B} (m : outcome A) (k : A -> outcome B) : outcome B :=
  match m with
  | Return a => k a
  | Raise e => Raise e
  end.

Notation "x <- m ;; k" := (bind m (fun x => k))
  (at level 61, m at next level, right associativity).

(** [try: body except Exception: handler]. *)
Definition try_except {A} (body : outcome A) (handler : exn -> A) : A :=
  match body with
  | Return a => a
  | Raise e => handler e
  end.

Definition raises {A} (m : outcome A) : bool :=
  match m with Return _ => false | Raise _ => true end.

(** ** JSON values and the Python operations the script applies to them *)

Inductive json : Type :=
| JNull                                   (* None *)
| JBool (b : bool)
| JNum (n : Z)
| JStr (s : string)
| JArr (l : list json)
| JObj (items : list (string * json)).    (* a dict, items in insertion order *)

Module Py.

(** A dict with string keys, in insertion order; keys are distinct. *)
Definition dict (V : Type) := list (string * V).

Fixpoint dict_get {V} (k : string) (d : dict V) : option V :=
  match d with
  | [] => None
  | (k', v) :: rest => if String.eqb k k' then Some v else dict_get k rest
  end.

Definition dict_has {V} (k : string) (d : dict V) : bool :=
  match dict_get k d with Some _ => true | None => false end.

(** [d[k] = v]: overwrite in place, or append a new item. *)
Fixpoint dict_set {V} (k : string) (v : V) (d : dict V) : dict V :=
  match d with
  | [] => [(k, v)]
  | (k', v') :: rest =>
      if String.eqb k k' then (k', v) :: rest
      else (k', v') :: dict_set k v rest
  end.

(** [{**a, **b}]. *)
Definition dict_merge {V} (a b : dict V) : dict V :=
  fold_left (fun acc kv => dict_set (fst kv) (snd kv) acc) b a.

(** [bool(v)]. *)
Definition truthy (v : json) : bool :=
  match v with
  | JNull => false
  | JBool b => b
  | JNum n => negb (Z.eqb n 0)
  | JStr s => negb (String.eqb s "")
  | JArr l => match l with [] => false | _ => true end
  | JObj items => match items with [] => false | _ => true end
  end.

(** [v[k]] for a string key [k]. *)
Definition getitem (v : json) (k : string) : outcome json :=
  match v with
  | JObj items =>
      match dict_get k items with
      | Some x => Return x
      | None => Raise KeyError
      end
  | _ => Raise TypeError
  end.

(** [v.get(k)]: only dicts have the method; a missing key gives [None]. *)
Definition get (v : json) (k : string) : outcome json :=
  match v with
  | JObj items =>
      match dict_get k items with
      | Some x => Return x
      | None => Return JNull
      end
  | _ => Raise AttributeError
  end.

(** [v[0]]. *)
Definition first (v : json) : outcome json :=
  match v with
  | JArr (x :: _) => Return x
  | JArr [] => Raise IndexError
  | JStr (String c _) => Return (JStr (String c ""))
  | JStr EmptyString => Raise IndexError
  | JObj _ => Raise KeyError
  | _ => Raise TypeError
  end.

Fixpoint chars (s : string) : list json :=
  match s with
  | EmptyString => []
  | String c rest => JStr (String c "") :: chars rest
  end.

(** The items a [for] loop or comprehension draws from [v]. *)
Definition iter (v : json) : outcome (list json) :=
  match v with
  | JArr l => Return l
  | JObj items => Return (map (fun kv => JStr (fst kv)) items)
  | JStr s => Return (chars s)
  | _ => Raise TypeError
  end.

Definition is_dict (v : json) : bool :=
  match v with JObj _ => true | _ => false end.

End Py.

(** ** pandas: [json_normalize] and column selection *)

(** A data-frame cell: [None] is NaN, the filler pandas puts where a record
    has no value for a column. *)
Definition cell := option json.

Module Pandas.

(** [f"{key_string}{separator}{key}"], with the leading separator removed
    at the top level. *)
Definition new_key (key_string key : string) : string :=
  if String.eqb key_string "" then key else key_string ++ "." ++ key.

(** [_normalise_json]: walk nested dicts, writing every leaf under its
    dotted path. *)
Fixpoint normalise_json (data : json) (key_string : string)
         (normalized_dict : Py.dict json) : Py.dict json :=
  match data with
  | JObj items =>
      (fix walk (items : list (string * json)) (acc : Py.dict json) :=
         match items with
         | [] => acc
         | (key, value) :: rest =>
             walk rest (normalise_json value (new_key key_string key) acc)
         end) items normalized_dict
  | _ => Py.dict_set key_string data normalized_dict
  end.

(** [_normalise_json_ordered]: top-level scalars first, then the flattened
    nested dicts. *)
Definition normalise_json_ordered (items : list (string * json))
  : Py.dict json :=
  let top_dict := filter (fun kv => negb (Py.is_dict (snd kv))) items in
  let nested_dict :=
    normalise_json (JObj (filter (fun kv => Py.is_dict (snd kv)) items))
                   "" [] in
  Py.dict_merge top_dict nested_dict.

(** [_simple_json_normalize] on one element of the list: a dict is
    flattened, a scalar gives the empty record.  An element that is itself
    a list makes the [DataFrame] constructor fail. *)
Definition simple_json_normalize (row : json) : outcome (Py.dict json) :=
  match row with
  | JObj items => Return (normalise_json_ordered items)
  | JArr _ => Raise AttributeError
  | _ => Return []
  end.

(** [pd.json_normalize(data)] for a list [data]: the frame is kept as its
    list of flat records; its columns are the keys that occur in some
    record, and a record without a key holds NaN there. *)
Fixpoint json_normalize (data : list json) : outcome (list (Py.dict json)) :=
  match data with
  | [] => Return []
  | row :: rest =>
      r <- simple_json_normalize row ;;
      rs <- json_normalize rest ;;
      Return (r :: rs)
  end.

Definition has_column (c : string) (df : list (Py.dict json)) : bool :=
  existsb (Py.dict_has c) df.

End Pandas.

(** ** Rows of the frames the crawler builds *)

(** The eight columns [parse_response] selects. *)
Record product_row : Type := mkProductRow {
  productCode : cell;
  badgeLabel : cell;
  copy_title : cell;
  copy_subTitle : cell;
  prices_currency : cell;
  prices_currentPrice : cell;
  pdpUrl_url : cell;
  colorwayImages_portraitURL : cell
}.

Definition parse_columns : list string :=
  [ "productCode"; "badgeLabel"; "copy.title"; "copy.subTitle";
    "prices.currency"; "prices.currentPrice"; "pdpUrl.url";
    "colorwayImages.portraitURL" ].

Definition row_of_record (d : Py.dict json) : product_row :=
  {| productCode := Py.dict_get "productCode" d;
     badgeLabel := Py.dict_get "badgeLabel" d;
     copy_title := Py.dict_get "copy.title" d;
     copy_subTitle := Py.dict_get "copy.subTitle" d;
     prices_currency := Py.dict_get "prices.currency" d;
     prices_currentPrice := Py.dict_get "prices.currentPrice" d;
     pdpUrl_url := Py.dict_get "pdpUrl.url" d;
     colorwayImages_portraitURL := Py.dict_get "colorwayImages.portraitURL" d |}.

(** [row[c]]: the cell of a row under a column label. *)
Definition column (c : string) (row : product_row) : outcome cell :=
  if String.eqb c "productCode" then Return (productCode row)
  else if String.eqb c "badgeLabel" then Return (badgeLabel row)
  else if String.eqb c "copy.title" then Return (copy_title row)
  else if String.eqb c "copy.subTitle" then Return (copy_subTitle row)
  else if String.eqb c "prices.currency" then Return (prices_currency row)
  else if String.eqb c "prices.currentPrice"
       then Return (prices_currentPrice row)
  else if String.eqb c "pdpUrl.url" then Return (pdpUrl_url row)
  else if String.eqb c "colorwayImages.portraitURL"
       then Return (colorwayImages_portraitURL row)
  else Raise KeyError.

(** [df[[...]]] with the eight labels: pandas raises [KeyError] as soon as one
    label is not a column of the frame. *)
Definition select_parse_columns (df : list (Py.dict json))
  : outcome (list product_row) :=
  if forallb (fun c => Pandas.has_column c df) parse_columns
  then Return (map row_of_record df)
  else Raise KeyError.

(** ** [parse_response] *)

(** The comprehension
    [[i.get("products")[0] for i in ... if i.get("products")]]. *)
Fixpoint first_variants (groupings : list json) : outcome (list json) :=
  match groupings with
  | [] => Return []
  | i :: rest =>
      products <- Py.get i "products" ;;
      if Py.truthy products then
        p <- Py.first products ;;
        ps <- first_variants rest ;;
        Return (p :: ps)
      else first_variants rest
  end.

Definition parse_response_body (response_json : json)
  : outcome (list (list product_row)) :=
  groupings <- Py.getitem response_json "productGroupings" ;;
  items <- Py.iter groupings ;;
  firsts <- first_variants items ;;
  df <- Pandas.json_normalize firsts ;;
  products_df <- select_parse_columns df ;;
  Return [products_df].

(** Returns a list holding one frame, or the empty list when anything in the
    body raised. *)
Definition parse_response (response_json : json) : list (list product_row) :=
  try_except (parse_response_body response_json) (fun _ => []).

(** ** Python arithmetic: [ceil(a / b)] *)

Module PyNum.
Local Open Scope Z_scope.

(** Round the non-negative rational [num / den] to the nearest integer,
    ties to even. *)
Definition round_half_even (num den : Z) : Z :=
  let q := num / den in
  let r := num mod den in
  if 2 * r <? den then q
  else if den <? 2 * r then q + 1
  else if Z.even q then q else q + 1.

(** The binary exponent [e] of the double nearest to [a / b], for
    [0 < a] and [0 < b]: [2^52 <= a / (b * 2^e) < 2^53], not below the
    subnormal exponent. *)
Definition quotient_exponent (a b : Z) : Z :=
  let d := Z.log2 a - Z.log2 b in
  let lg := if (if 0 <=? d then b * 2 ^ d <=? a else b <=? a * 2 ^ (- d))
            then d else d - 1 in
  Z.max (lg - 52) (-1074).

(** [math.ceil(a / b)] for Python ints [a] and [0 < b]: true division
    gives the correctly rounded double [m * 2^e], or [OverflowError] when
    that double would not be finite; [ceil] of it is exact. *)
Definition ceil_truediv (a b : Z) : outcome Z :=
  if a =? 0 then Return 0
  else
    let e := quotient_exponent (Z.abs a) b in
    let m := if 0 <=? e
             then round_half_even (Z.abs a) (b * 2 ^ e)
             else round_half_even (Z.abs a * 2 ^ (- e)) b in
    if 0 <=? e then
      if 2 ^ 1024 <=? m * 2 ^ e then Raise OverflowError
      else Return (Z.sgn a * m * 2 ^ e)
    else Return (- ((- (Z.sgn a * m)) / 2 ^ (- e))).

(** The integer a Python number stands for in arithmetic; [bool] is a
    subclass of [int]. *)
Definition as_int (v : json) : outcome Z :=
  match v with
  | JNum n => Return n
  | JBool b => Return (if b then 1 else 0)
  | _ => Raise TypeError
  end.

(** [str(n)]. *)
Definition decimal (n : Z) : string :=
  DecimalString.NilZero.string_of_int (Z.to_int n).

End PyNum.

(** ** sqlite3: values, the two tables, statements *)

Module Sqlite.
Local Open Scope Z_scope.

Inductive value : Type :=
| Null
| Integer (n : Z)
| Text (s : string).

Definition value_eqb (a b : value) : bool :=
  match a, b with
  | Null, Null => true
  | Integer x, Integer y => Z.eqb x y
  | Text x, Text y => String.eqb x y
  | _, _ => false
  end.

(** Binding one [?] parameter.  NaN and [None] become NULL; an int must fit
    64 bits; a list or dict is not a supported type. *)
Definition bind_parameter (c : cell) : outcome value :=
  match c with
  | None => Return Null
  | Some JNull => Return Null
  | Some (JBool b) => Return (Integer (if b then 1 else 0))
  | Some (JNum n) =>
      if (- 2 ^ 63 <=? n) && (n <? 2 ^ 63) then Return (Integer n)
      else Raise OverflowError
  | Some (JStr s) => Return (Text s)
  | Some (JArr _) => Raise InterfaceError
  | Some (JObj _) => Raise InterfaceError
  end.

(** A column declared TEXT stores a number as its decimal text. *)
Definition text_affinity (v : value) : value :=
  match v with
  | Integer n => Text (PyNum.decimal n)
  | _ => v
  end.

(** products(product_code TEXT PRIMARY KEY, title, subtitle, category,
    image_url, url, created_at DATETIME DEFAULT CURRENT_TIMESTAMP). *)
Record products_record : Type := mkProduct {
  product_code : value;
  title : value;
  subtitle : value;
  category : value;
  image_url : value;
  url : value;
  created_at : value
}.

(** What a column declared REAL holds.  An integer is stored as the double
    nearest to it, which is again an integer; NULL stays NULL.  A text that
    spells a number is stored as that number (['100'] as [100.0]) and any
    other text as it is: [OfText s] stands for whichever of the two the
    engine makes of [s]; the conversion of a text is not computed here. *)
Inductive real : Type :=
| RealNull
| Double (z : Z)
| OfText (s : string).

(** The double nearest to the integer [n], ties to even: 53 significant
    bits are kept. *)
Definition nearest_double (n : Z) : Z :=
  let e := Z.max (Z.log2 (Z.abs n) - 52) 0 in
  Z.sgn n * PyNum.round_half_even (Z.abs n) (2 ^ e) * 2 ^ e.

Definition real_affinity (v : value) : real :=
  match v with
  | Null => RealNull
  | Integer n => Double (nearest_double n)
  | Text s => OfText s
  end.

(** price_history(id INTEGER PRIMARY KEY AUTOINCREMENT, product_code TEXT,
    price REAL, timestamp DATETIME). *)
Record price_record : Type := mkPrice {
  id : Z;
  ph_product_code : value;
  price : real;
  timestamp : value
}.

(** The file [nike_tracker.db]: both tables in rowid order, and the
    AUTOINCREMENT counter of price_history. *)
Record database : Type := mkDatabase {
  products : list products_record;
  price_history : list price_record;
  sqlite_sequence : Z
}.

Definition empty : database :=
  {| products := []; price_history := []; sqlite_sequence := 0 |}.

(** Two rows collide on the primary key when their codes are equal and not
    NULL (a TEXT primary key admits NULL, and NULLs never collide). *)
Definition has_code (k : value) (r : products_record) : bool :=
  match k with
  | Null => false
  | _ => value_eqb k (product_code r)
  end.

Inductive statement : Type :=
| InsertOrReplaceProduct (code ttl sub cat img link : cell)
| InsertPriceHistory (code amount stamp : cell).

(** INSERT OR REPLACE INTO products (product_code, title, subtitle,
    category, image_url, url) VALUES (?, ?, ?, ?, ?, ?): the colliding row
    is deleted, the new row is appended, and [created_at], which the
    statement does not list, takes its default CURRENT_TIMESTAMP. *)
Definition insert_or_replace_product (now : string)
           (code ttl sub cat img link : cell) (db : database)
  : outcome database :=
  c <- bind_parameter code ;;
  t <- bind_parameter ttl ;;
  s <- bind_parameter sub ;;
  g <- bind_parameter cat ;;
  i <- bind_parameter img ;;
  u <- bind_parameter link ;;
  let key := text_affinity c in
  let new_row :=
    {| product_code := key;
       title := text_affinity t;
       subtitle := text_affinity s;
       category := text_affinity g;
       image_url := text_affinity i;
       url := text_affinity u;
       created_at := Text now |} in
  Return {| products :=
              filter (fun r => negb (has_code key r)) (products db)
              ++ [new_row];
            price_history := price_history db;
            sqlite_sequence := sqlite_sequence db |}.

(** The rowid AUTOINCREMENT hands out: one more than the largest ever
    used. *)
Definition next_id (db : database) : Z :=
  fold_left Z.max (map id (price_history db)) (sqlite_sequence db) + 1.

(** INSERT INTO price_history (product_code, price, timestamp)
    VALUES (?, ?, ?). *)
Definition insert_price_history (code amount stamp : cell) (db : database)
  : outcome database :=
  c <- bind_parameter code ;;
  p <- bind_parameter amount ;;
  t <- bind_parameter stamp ;;
  let n := next_id db in
  Return {| products := products db;
            price_history :=
              price_history db
              ++ [ {| id := n;
                      ph_product_code := text_affinity c;
                      price := real_affinity p;
                      timestamp := t |} ];
            sqlite_sequence := n |}.

Definition run_statement (now : string) (s : statement) (db : database)
  : outcome database :=
  match s with
  | InsertOrReplaceProduct code ttl sub cat img link =>
      insert_or_replace_product now code ttl sub cat img link db
  | InsertPriceHistory code amount stamp =>
      insert_price_history code amount stamp db
  end.

(** What the engine does besides the data: the value of CURRENT_TIMESTAMP
    at the n-th call on the connection, and whether the engine refuses
    that call (locked file, I/O error). *)
Record engine : Type := mkEngine {
  current_timestamp : nat -> string;
  refuses : nat -> bool
}.

(** A connection with Python's implicit transaction: statements change
    [pending]; [commit] makes it [durable]; [rollback] drops it. *)
Record connection : Type := mkConnection {
  durable : database;
  pending : database;
  calls : nat
}.

Definition connect (db : database) : connection :=
  {| durable := db; pending := db; calls := 0 |}.

(** A computation on the connection that may raise. *)
Definition action (A : Type) := connection -> outcome A * connection.

Definition execute (eng : engine) (s : statement) : action unit :=
  fun conn =>
    let n := calls conn in
    if refuses eng n then
      (Raise OperationalError,
       {| durable := durable conn; pending := pending conn; calls := S n |})
    else
      match run_statement (current_timestamp eng n) s (pending conn) with
      | Raise e =>
          (Raise e,
           {| durable := durable conn; pending := pending conn;
              calls := S n |})
      | Return db' =>
          (Return tt,
           {| durable := durable conn; pending := db'; calls := S n |})
      end.

Definition commit (eng : engine) : action unit :=
  fun conn =>
    let n := calls conn in
    if refuses eng n then
      (Raise OperationalError,
       {| durable := durable conn; pending := pending conn; calls := S n |})
    else
      (Return tt,
       {| durable := pending conn; pending := pending conn; calls := S n |}).

Definition rollback (conn : connection) : connection :=
  {| durable := durable conn; pending := durable conn; calls := calls conn |}.

(** [conn.close()]: what stays in the file. *)
Definition close (conn : connection) : database := durable conn.

Definition ret {A} (a : A) : action A := fun conn => (Return a, conn).

Definition then_ {A B} (m : action A) (k : A -> action B) : action B :=
  fun conn =>
    match m conn with
    | (Return a, conn') => k a conn'
    | (Raise e, conn') => (Raise e, conn')
    end.

(** [for x in xs: body(x)]. *)
Fixpoint for_each {A} (xs : list A) (body : A -> action unit) : action unit :=
  match xs with
  | [] => ret tt
  | x :: rest => then_ (body x) (fun _ => for_each rest body)
  end.

End Sqlite.

(** ** [init_db] and [update_database] *)

(** A row of the aggregated frame: the eight parsed columns and the
    [category] column [fetch_nike_products] adds. *)
Record snapshot_row : Type := mkSnapshotRow {
  columns : product_row;
  category : string
}.

(** CREATE TABLE IF NOT EXISTS: a file that already holds the tables is left
    as it is. *)
Definition init_db (file : option Sqlite.database) : Sqlite.database :=
  match file with
  | Some db => db
  | None => Sqlite.empty
  end.

(** [df[list(columns_mapping.keys())]] renamed to the table's columns. *)
Record products_data_row : Type := mkProductsData {
  pd_product_code : cell;
  pd_title : cell;
  pd_subtitle : cell;
  pd_category : cell;
  pd_image_url : cell;
  pd_url : cell
}.

Definition products_data_of (row : snapshot_row) : products_data_row :=
  {| pd_product_code := productCode (columns row);
     pd_title := copy_title (columns row);
     pd_subtitle := copy_subTitle (columns row);
     pd_category := Some (JStr (category row));
     pd_image_url := colorwayImages_portraitURL (columns row);
     pd_url := pdpUrl_url (columns row) |}.

Definition upsert_statement (row : products_data_row) : Sqlite.statement :=
  Sqlite.InsertOrReplaceProduct
    (pd_product_code row) (pd_title row) (pd_subtitle row)
    (pd_category row) (pd_image_url row) (pd_url row).

Definition price_statement (timestamp : string) (row : snapshot_row)
  : Sqlite.statement :=
  Sqlite.InsertPriceHistory
    (productCode (columns row)) (prices_currentPrice (columns row))
    (Some (JStr timestamp)).

(** How a call of [update_database] ended. *)
Inductive update_status : Type :=
| NoData          (* nothing to write: only a warning is logged *)
| Updated         (* committed *)
| RolledBack (e : exn).

(** The body of the [try]: both loops, then the commit. *)
Definition update_database_body (eng : Sqlite.engine) (timestamp : string)
           (df : list snapshot_row) : Sqlite.action unit :=
  let products_data := map products_data_of df in
  Sqlite.then_
    (Sqlite.for_each products_data
       (fun row => Sqlite.execute eng (upsert_statement row)))
    (fun _ =>
       Sqlite.then_
         (Sqlite.for_each df
            (fun row => Sqlite.execute eng (price_statement timestamp row)))
         (fun _ => Sqlite.commit eng)).

(** [update_database(df)] on the file [db].  [timestamp] is the formatted
    [datetime.now()] read once before the [try]. *)
Definition update_database (eng : Sqlite.engine) (timestamp : string)
           (df : list snapshot_row) (db : Sqlite.database)
  : Sqlite.database * update_status :=
  match df with
  | [] => (db, NoData)
  | _ =>
      let conn := Sqlite.connect db in
      match update_database_body eng timestamp df conn with
      | (Return _, conn') => (Sqlite.close conn', Updated)
      | (Raise e, conn') => (Sqlite.close (Sqlite.rollback conn'), RolledBack e)
      end
  end.

(** ** HTTP sessions *)

(** A parsed page, as BeautifulSoup sees it: its tags in document order. *)
Record tag : Type := mkTag {
  tag_name : string;
  attrs : Py.dict string
}.

(** A response: [html] is [BeautifulSoup(response.text, "html.parser")],
    [json_body] is [response.json()]. *)
Record response : Type := mkResponse {
  html : list tag;
  json_body : outcome json
}.

(** [session.get]: the answer to the n-th request of the session, for the
    requested URL; [Raise] is a transport failure.  The headers are fixed by
    the call site and left out. *)
Definition session := nat -> string -> outcome response.

(** [soup.find(name, {attr: value})]. *)
Definition soup_find (soup : list tag) (name attr value : string)
  : option tag :=
  find (fun t => String.eqb (tag_name t) name
                 && match Py.dict_get attr (attrs t) with
                    | Some v => String.eqb v value
                    | None => false
                    end) soup.

(** What a worker does that can be observed from outside. *)
Inductive event : Type :=
| Get (url : string)          (* session.get(url, ...) *)
| Sleep                       (* time.sleep(random.uniform(1, 3)) *)
| ProgressBar (total : Z)     (* tqdm(total=total, initial=1, ...) *)
| ProgressUpdate.             (* pbar.update(1) *)

Definition is_get (e : event) : bool :=
  match e with Get _ => true | _ => false end.

(** ** String helpers of the script *)

(** [s.split(sep)] for a one-character separator. *)
Fixpoint split_on (sep : ascii) (s : string) : list string :=
  match s with
  | EmptyString => [""]
  | String c rest =>
      if Ascii.eqb c sep then "" :: split_on sep rest
      else match split_on sep rest with
           | h :: t => String c h :: t
           | [] => [String c ""]
           end
  end.

(** [s.lstrip("/")]. *)
Fixpoint lstrip_slash (s : string) : string :=
  match s with
  | String c rest => if Ascii.eqb c "/" then lstrip_slash rest else s
  | EmptyString => s
  end.

(** [" ".join(url.split("/")[-1].split("-")[:-1])]. *)
Definition category_of_url (url : string) : string :=
  String.concat " "
    (removelast (split_on "-" (List.last (split_on "/" url) ""))).

Definition CONSUMER_CHANNEL_ID : string :=
  "d9a5bc42-4b9c-4976-858a-f159cf99c647".

Definition construct_api_url (concept_ids path : string) : string :=
  "https://api.nike.com/discover/product_wall/v1"
  ++ "/marketplace/IN/language/en-GB"
  ++ "/consumerChannelId/" ++ CONSUMER_CHANNEL_ID
  ++ "?path=" ++ path
  ++ "&attributeIds=" ++ concept_ids
  ++ "&queryType=PRODUCTS&anchor=0&count=100".

Definition URLS : list string :=
  [ "https://www.nike.com/in/w/mens-shoes-nik1zy7ok";
    "https://www.nike.com/in/w/mens-clothing-6ymx6znik1";
    "https://www.nike.com/in/w/mens-accessories-equipment-awwpwznik1";
    "https://www.nike.com/in/w/womens-shoes-5e1x6zy7ok";
    "https://www.nike.com/in/w/womens-clothing-5e1x6z6ymx6";
    "https://www.nike.com/in/w/womens-accessories-equipment-5e1x6zawwpw";
    "https://www.nike.com/in/w/kids-shoes-v4dhzy7ok";
    "https://www.nike.com/in/w/kids-clothing-6ymx6zv4dh";
    "https://www.nike.com/in/w/kids-accessories-equipment-awwpwzv4dh" ].

(** ** The crawler *)

Section Crawler.

(** Python's [repr] of a list or dict, as an f-string prints it. *)
Variable container_repr : json -> string.

(** [parse_qs(urlparse(s).query)]. *)
Variable deeplink_query : string -> outcome (Py.dict (list string)).

(** [urlparse(s).path]. *)
Variable urlparse_path : string -> outcome string.

(** [f"{v}"]. *)
Definition fstring (v : json) : string :=
  match v with
  | JStr s => s
  | JNum n => PyNum.decimal n
  | JBool true => "True"
  | JBool false => "False"
  | JNull => "None"
  | _ => container_repr v
  end.

(** *** [extract_concept_ids] *)

Definition extract_concept_ids_body (sess : session) (url : string)
  : outcome (option string) :=
  response <- sess 0%nat url ;;
  let soup := html response in
  match soup_find soup "meta" "name" "branch:deeplink:$deeplink_path" with
  | None => Return None
  | Some meta_tag =>
      match Py.dict_get "content" (attrs meta_tag) with
      | None => Return None
      | Some "" => Return None
      | Some deeplink_path =>
          query_params <- deeplink_query deeplink_path ;;
          match Py.dict_get "conceptid" query_params with
          | None => Return None
          | Some values =>
              match values with
              | v :: _ => Return (Some v)
              | [] => Raise IndexError
              end
          end
      end
  end.

(** The whole function is one [try]; the handler prints and returns
    [None]. *)
Definition extract_concept_ids (sess : session) (url : string)
  : outcome (option string) :=
  Return (try_except (extract_concept_ids_body sess url) (fun _ => None)).

(** *** [fetch_nike_products] *)

Definition count : Z := 100.

(** [ceil(total_products / count) - 1]. *)
Definition total_pages_of (total_products : json) : outcome Z :=
  n <- PyNum.as_int total_products ;;
  c <- PyNum.ceil_truediv n count ;;
  Return (c - 1)%Z.

(** [data["pages"].get("next")]. *)
Definition next_page_of (data : json) : outcome json :=
  pages <- Py.getitem data "pages" ;;
  Py.get pages "next".

(** The [while next_page:] loop.  [n] numbers the session's requests;
    [None] means the loop is still running when [fuel] iterations are
    spent. *)
Fixpoint pagination (fuel : nat) (sess : session) (n : nat)
         (next_page : json) (all_products : list (list product_row))
         (trace : list event)
  : option (outcome (list (list product_row)) * list event) :=
  if Py.truthy next_page then
    match fuel with
    | O => None
    | S fuel' =>
        let next_url := ("https://api.nike.com" ++ fstring next_page)%string in
        let trace := trace ++ [Sleep; Get next_url] in
        match (response <- sess n next_url ;; json_body response) with
        | Raise e => Some (Raise e, trace)
        | Return data =>
            let new_products := parse_response data in
            let all_products := all_products ++ new_products in
            match next_page_of data with
            | Raise e => Some (Raise e, trace)
            | Return next_page' =>
                let trace :=
                  if Py.truthy next_page' then trace ++ [ProgressUpdate]
                  else trace in
                pagination fuel' sess (S n) next_page' all_products trace
            end
        end
    end
  else Some (Return all_products, trace).

(** [pd.concat(all_products, ignore_index=True)] followed by
    [df["category"] = category]. *)
Definition tag_category (category : string)
           (all_products : list (list product_row)) : list snapshot_row :=
  map (fun r => mkSnapshotRow r category)
      (List.concat all_products).

(** What precedes the loop inside the [try]. *)
Definition initial_page (sess : session) (n : nat) (url : string)
  : outcome (json * Z * json) :=
  initial_response <- sess n url ;;
  data <- json_body initial_response ;;
  pages <- Py.getitem data "pages" ;;
  total_products <- Py.getitem pages "totalResources" ;;
  total_pages <- total_pages_of total_products ;;
  next_page <- next_page_of data ;;
  Return (data, total_pages, next_page).

(** Returns the category's frame (empty after any exception) and the
    events of the call; [None] when the loop does not end within [fuel]
    iterations. *)
Definition fetch_nike_products (fuel : nat) (sess : session) (n : nat)
           (url category : string)
  : option (list snapshot_row * list event) :=
  match initial_page sess n url with
  | Raise _ => Some ([], [Get url])
  | Return (data, total_pages, next_page) =>
      let initial_products := parse_response data in
      match pagination fuel sess (S n) next_page initial_products
                       [Get url; ProgressBar total_pages] with
      | None => None
      | Some (Raise _, trace) => Some ([], trace)
      | Some (Return all_products, trace) =>
          match all_products with
          | [] => Some ([], trace)
          | _ => Some (tag_category category all_products, trace)
          end
      end
  end.

(** *** [process_single_url] *)

Definition extract_path_from_url (url : string) : outcome string :=
  path <- urlparse_path url ;;
  Return (lstrip_slash path).

(** One worker, with a session of its own.  [None]: the worker is still
    running after [fuel] pages; [Raise]: the exception the future
    carries. *)
Definition process_single_url (fuel : nat) (sess : session) (url : string)
  : option (outcome (list snapshot_row)) :=
  let category := category_of_url url in
  match extract_concept_ids sess url with
  | Raise e => Some (Raise e)
  | Return None => Some (Return [])
  | Return (Some "") => Some (Return [])
  | Return (Some concept_ids) =>
      match extract_path_from_url url with
      | Raise e => Some (Raise e)
      | Return path =>
          let api_url := construct_api_url concept_ids path in
          match fetch_nike_products fuel sess 1%nat api_url category with
          | None => None
          | Some (df, _) => Some (Return df)
          end
      end
  end.

(** *** The module body: fan-out, fan-in, persistence *)

(** The [as_completed] loop.  [network url] is the session of the worker
    for [url]; [completed] lists the URLs in the order their futures
    complete.  A future that raised is logged and skipped; an empty frame
    is not appended. *)
Fixpoint collect (fuel : nat) (network : string -> session)
         (completed : list string) (all_data : list (list snapshot_row))
  : option (list (list snapshot_row)) :=
  match completed with
  | [] => Some all_data
  | url :: rest =>
      match process_single_url fuel (network url) url with
      | None => None
      | Some (Raise _) => collect fuel network rest all_data
      | Some (Return df) =>
          match df with
          | [] => collect fuel network rest all_data
          | _ => collect fuel network rest (all_data ++ [df])
          end
      end
  end.

(** The run: [init_db()], the crawl, then [update_database] on the
    concatenated frames when there are any. *)
Definition crawler_run (fuel : nat) (network : string -> session)
           (completed : list string) (eng : Sqlite.engine)
           (timestamp : string) (file : option Sqlite.database)
  : option (Sqlite.database * update_status) :=
  let db := init_db file in
  match collect fuel network completed [] with
  | None => None
  | Some [] => Some (db, NoData)
  | Some all_data =>
      let final_df := List.concat all_data in
      Some (update_database eng timestamp final_df db)
  end.

End Crawler.

(** * The vocabulary of the properties *)

Unset Implicit Arguments.

(** ** Cursor chains and traces *)

Section CursorChain.

Variable container_repr : json -> string.

(** The URL the loop requests for a cursor. *)
Definition next_url (next_page : json) : string :=
  ("https://api.nike.com" ++ fstring container_repr next_page)%string.

(** The response omits "next": its "pages" object has no such key. *)
Definition omits_next (data : json) : Prop :=
  exists pages, Py.getitem data "pages" = Return (JObj pages)
                /\ Py.dict_get "next" pages = None.

(** The session answers the requests numbered [n], [n+1], ... with the
    payloads [pages], each reached through the cursor of the one before;
    every payload but the last carries a cursor that lets the loop go
    on. *)
Fixpoint serves (sess : session) (n : nat) (url : string)
         (pages : list json) : Prop :=
  match pages with
  | [] => True
  | data :: rest =>
      (exists r, sess n url = Return r /\ json_body r = Return data)
      /\ match rest with
         | [] => True
         | _ => exists next_page,
                  next_page_of data = Return next_page
                  /\ Py.truthy next_page = true
                  /\ serves sess (S n) (next_url next_page) rest
         end
  end.

End CursorChain.

(** The response carries no cursor the loop would follow: "next" is missing
    from its "pages" object, or holds a value Python takes for false (null,
    the empty string, 0, an empty list or object). *)
Definition cursor_unset (data : json) : Prop :=
  exists next_page,
    next_page_of data = Return next_page /\ Py.truthy next_page = false.

(** Python can turn the count that the "pages" object reports into a page
    total: "totalResources" is there, it is a number, and its quotient by
    the page size is a finite float. *)
Definition count_usable (pages : Py.dict json) : bool :=
  match Py.dict_get "totalResources" pages with
  | Some total => negb (raises (total_pages_of total))
  | None => false
  end.

(** The number of requests in a trace. *)
Definition gets (trace : list event) : nat :=
  List.length (filter is_get trace).

(** ** The reported count and the progress bar *)

Definition is_progress_bar (e : event) : bool :=
  match e with ProgressBar _ => true | _ => false end.

(** A payload with its reported count replaced; a payload without a "pages"
    object is left alone. *)
Definition with_total (total : json) (data : json) : json :=
  match data with
  | JObj items =>
      match Py.dict_get "pages" items with
      | Some (JObj pages) =>
          JObj (Py.dict_set "pages"
                  (JObj (Py.dict_set "totalResources" total pages)) items)
      | _ => data
      end
  | _ => data
  end.

(** The same session, reporting [total] in every payload. *)
Definition retotal (total : json) (sess : session) : session :=
  fun n url =>
    match sess n url with
    | Return r =>
        Return {| html := html r;
                  json_body := data <- json_body r ;;
                               Return (with_total total data) |}
    | Raise e => Raise e
    end.

(** What is left of a fetch when the progress bar is not looked at. *)
Definition without_progress_bar
           (result : option (list snapshot_row * list event))
  : option (list snapshot_row * list event) :=
  match result with
  | Some (df, trace) =>
      Some (df, filter (fun e => negb (is_progress_bar e)) trace)
  | None => None
  end.

(** The result of the loop, had it been handed a trace starting with
    [t0]. *)
Definition prepend (t0 : list event)
           (r : option (outcome (list (list product_row)) * list event))
  : option (outcome (list (list product_row)) * list event) :=
  match r with
  | Some (o, t) => Some (o, t0 ++ t)
  | None => None
  end.

(** The first payload and its cursor, when the payload has a "pages"
    object. *)
Definition first_page (sess : session) (n : nat) (url : string)
  : option (json * json) :=
  match sess n url with
  | Return r =>
      match json_body r with
      | Return (JObj items) =>
          match Py.dict_get "pages" items with
          | Some (JObj pages) =>
              Some (JObj items,
                    match Py.dict_get "next" pages with
                    | Some x => x
                    | None => JNull
                    end)
          | _ => None
          end
      | _ => None
      end
  | Raise _ => None
  end.

(** The end of [fetch_nike_products], after the loop. *)
Definition finish (category : string)
           (r : option (outcome (list (list product_row)) * list event))
  : option (list snapshot_row * list event) :=
  match r with
  | None => None
  | Some (Raise _, trace) => Some ([], trace)
  | Some (Return all_products, trace) =>
      match all_products with
      | [] => Some ([], trace)
      | _ => Some (tag_category category all_products, trace)
      end
  end.

(** ** The page total over the integers *)

Module PageTotal.
Local Open Scope Z_scope.

(** The ceiling of [a / b] over the integers. *)
Definition ceiling (a b : Z) : Z := - ((- a) / b).

End PageTotal.

(** ** Groupings and their first variants *)

Module Normalizer.

(** The "products" entry of a grouping; [None] when there is none. *)
Definition products_of (grouping : json) : json :=
  match grouping with
  | JObj items =>
      match Py.dict_get "products" items with
      | Some v => v
      | None => JNull
      end
  | _ => JNull
  end.

(** The grouping has a non-empty products list. *)
Definition has_products (grouping : json) : bool :=
  match products_of grouping with
  | JArr (_ :: _) => true
  | _ => false
  end.

(** The first variant of a grouping with products; nothing otherwise. *)
Definition representative (grouping : json) : list json :=
  match products_of grouping with
  | JArr (p :: _) => [p]
  | _ => []
  end.

(** The flat record [json_normalize] makes of a product. *)
Definition flat_record (product : json) : Py.dict json :=
  match product with
  | JObj items => Pandas.normalise_json_ordered items
  | _ => []
  end.

(** A grouping of the shape the catalogue API sends: an object whose
    "products" is absent, null, or a list whose first element (if any) is an
    object. *)
Definition well_shaped (grouping : json) : bool :=
  match grouping with
  | JObj items =>
      match Py.dict_get "products" items with
      | None | Some JNull | Some (JArr []) | Some (JArr (JObj _ :: _)) => true
      | _ => false
      end
  | _ => false
  end.



Definition records_of (groupings : list json) : list (Py.dict json) :=
  map flat_record (flat_map representative groupings).

End Normalizer.

(** ** The writes of a run *)

Module Transaction.
Import Sqlite.

(** The parameter is of a type sqlite3 accepts. *)
Definition binds (c : cell) : bool := negb (raises (bind_parameter c)).

Definition statement_binds (s : statement) : bool :=
  match s with
  | InsertOrReplaceProduct code ttl sub cat img link =>
      binds code && binds ttl && binds sub && binds cat && binds img
      && binds link
  | InsertPriceHistory code amount stamp =>
      binds code && binds amount && binds stamp
  end.

(** The value a bindable parameter is stored as. *)
Definition bound (c : cell) : value :=
  match bind_parameter c with
  | Return v => v
  | Raise _ => Null
  end.

(** The statements of one run, in the order the two loops issue them. *)
Definition writes (timestamp : string) (df : list snapshot_row)
  : list statement :=
  map upsert_statement (map products_data_of df)
  ++ map (price_statement timestamp) df.

(** The k-th write of a run fails: the engine refuses it, or one of its
    parameters cannot be bound. *)
Definition write_fails (eng : engine) (k : nat) (s : statement) : bool :=
  refuses eng k || negb (statement_binds s).

End Transaction.

(** ** What the two loops of a committed run do *)

Module Reconciler.

(** The [category] column of the frame; below, [category] is the column of
    the products table. *)
Local Abbreviation frame_category := category.

Import Sqlite Transaction.

(** Every value of the row that a statement binds is of a type sqlite3
    accepts. *)
Definition persistable (row : snapshot_row) : bool :=
  binds (productCode (columns row))
  && binds (copy_title (columns row))
  && binds (copy_subTitle (columns row))
  && binds (colorwayImages_portraitURL (columns row))
  && binds (pdpUrl_url (columns row))
  && binds (prices_currentPrice (columns row)).

(** The engine refuses no call. *)
Definition obliging (eng : engine) : Prop := forall n, refuses eng n = false.

(** The product code as the TEXT columns store it. *)
Definition stored_code (row : snapshot_row) : value :=
  text_affinity (bound (productCode (columns row))).

(** The products row an upsert of [row] writes at time [now]. *)
Definition record_of (now : string) (row : snapshot_row) : products_record :=
  {| product_code := stored_code row;
     title := text_affinity (bound (copy_title (columns row)));
     subtitle := text_affinity (bound (copy_subTitle (columns row)));
     category := Text (frame_category row);
     image_url :=
       text_affinity (bound (colorwayImages_portraitURL (columns row)));
     url := text_affinity (bound (pdpUrl_url (columns row)));
     created_at := Text now |}.

Definition upsert_effect (now : string) (row : snapshot_row) (db : database)
  : database :=
  {| products :=
       filter (fun r => negb (has_code (stored_code row) r)) (products db)
       ++ [record_of now row];
     price_history := price_history db;
     sqlite_sequence := sqlite_sequence db |}.

(** The price_history row the insert for [row] appends. *)
Definition observation_of (timestamp : string) (n : Z) (row : snapshot_row)
  : price_record :=
  {| id := n;
     ph_product_code := stored_code row;
     price := real_affinity (bound (prices_currentPrice (columns row)));
     Sqlite.timestamp := Text timestamp |}.

Definition price_effect (timestamp : string) (row : snapshot_row)
           (db : database) : database :=
  {| products := products db;
     price_history :=
       price_history db ++ [observation_of timestamp (next_id db) row];
     sqlite_sequence := next_id db |}.

(** The first loop, its statements numbered from [n]. *)
Fixpoint upsert_loop (eng : engine) (n : nat) (rows : list snapshot_row)
         (db : database) : database :=
  match rows with
  | [] => db
  | row :: rest =>
      upsert_loop eng (S n) rest
                  (upsert_effect (current_timestamp eng n) row db)
  end.

(** The second loop. *)
Fixpoint price_loop (timestamp : string) (rows : list snapshot_row)
         (db : database) : database :=
  match rows with
  | [] => db
  | row :: rest => price_loop timestamp rest (price_effect timestamp row db)
  end.

End Reconciler.

(** ** Observations of a product *)

Module Ledger.
Import Sqlite Transaction Reconciler.

(** The price_history rows of a product: WHERE product_code = k. *)
Definition observed (k : value) (history : list price_record)
  : list price_record :=
  filter (fun p => value_eqb k (ph_product_code p)) history.

(** The rows the second loop appends. *)
Fixpoint observations (timestamp : string) (rows : list snapshot_row)
         (db : database) : list price_record :=
  match rows with
  | [] => []
  | row :: rest =>
      observation_of timestamp (next_id db) row
      :: observations timestamp rest (price_effect timestamp row db)
  end.

End Ledger.

(** ** Landing pages without an identifier *)

Definition deeplink_tag (r : response) : option tag :=
  soup_find (html r) "meta" "name" "branch:deeplink:$deeplink_path".

Section Identifier.

Variable deeplink_query : string -> outcome (Py.dict (list string)).

(** The landing page came back, but without the data the identifier is read
    from: no metadata tag, a tag without content, or a deep link without a
    "conceptid" parameter. *)
Inductive lacks_identifier (sess : session) (url : string) : Prop :=
| tag_absent (r : response) :
    sess 0%nat url = Return r ->
    deeplink_tag r = None ->
    lacks_identifier sess url
| content_absent (r : response) (t : tag) :
    sess 0%nat url = Return r ->
    deeplink_tag r = Some t ->
    Py.dict_get "content" (attrs t) = None
    \/ Py.dict_get "content" (attrs t) = Some "" ->
    lacks_identifier sess url
| conceptid_absent (r : response) (t : tag) (deeplink_path : string)
                   (query_params : Py.dict (list string)) :
    sess 0%nat url = Return r ->
    deeplink_tag r = Some t ->
    Py.dict_get "content" (attrs t) = Some deeplink_path ->
    deeplink_query deeplink_path = Return query_params ->
    Py.dict_get "conceptid" query_params = None ->
    lacks_identifier sess url.

End Identifier.

(** ** Sample data *)

Module Sample.
Local Open Scope Z_scope.

(** Stand-ins for the library functions the crawler is parametrised by. *)
Definition repr (v : json) : string := "".

Definition query (deeplink_path : string) : outcome (Py.dict (list string)) :=
  if String.eqb deeplink_path "x-callback-url/product-wall?conceptid=123"
  then Return [("conceptid", ["123"])]
  else Return [].

Definition path (url : string) : outcome string :=
  Return "/in/w/mens-shoes-nik1zy7ok".

Definition shoes_url : string := "https://www.nike.com/in/w/mens-shoes-nik1zy7ok".
Definition kids_url : string := "https://www.nike.com/in/w/kids-shoes-v4dhzy7ok".

Definition api_url : string :=
  construct_api_url "123" "in/w/mens-shoes-nik1zy7ok".

Definition product (code name : string) (amount : Z) : json :=
  JObj [ ("productCode", JStr code);
         ("badgeLabel", JNull);
         ("copy", JObj [("title", JStr name); ("subTitle", JStr "Shoes")]);
         ("prices", JObj [("currency", JStr "INR");
                          ("currentPrice", JNum amount)]);
         ("pdpUrl", JObj [("url", JStr "https://www.nike.com/in/t/x")]);
         ("colorwayImages", JObj [("portraitURL", JStr "https://img/x.png")]) ].

(** The same product without a subtitle. *)
Definition product_without_subtitle (code name : string) (amount : Z) : json :=
  JObj [ ("productCode", JStr code);
         ("badgeLabel", JNull);
         ("copy", JObj [("title", JStr name)]);
         ("prices", JObj [("currency", JStr "INR");
                          ("currentPrice", JNum amount)]);
         ("pdpUrl", JObj [("url", JStr "https://www.nike.com/in/t/x")]);
         ("colorwayImages", JObj [("portraitURL", JStr "https://img/x.png")]) ].

Definition grouping (products : list json) : json :=
  JObj [("products", JArr products)].

(** Page one of two: 250 resources reported, a cursor to page two. *)
Definition first_pages : Py.dict json :=
  [("totalResources", JNum 250); ("next", JStr "/page2")].

Definition page1 : json :=
  JObj [ ("pages", JObj first_pages);
         ("productGroupings",
          JArr [grouping [product "A1" "Pegasus" 12995;
                          product "A2" "Pegasus" 12995]]) ].

(** Page two: still 250 resources reported, but no cursor. *)
Definition page2 : json :=
  JObj [ ("pages", JObj [("totalResources", JNum 250)]);
         ("productGroupings", JArr [grouping [product "B1" "Vomero" 14995]]) ].

Definition landing_page : list tag :=
  [ {| tag_name := "title"; attrs := [] |};
    {| tag_name := "meta";
       attrs := [("name", "branch:deeplink:$deeplink_path");
                 ("content", "x-callback-url/product-wall?conceptid=123")] |} ].

Definition bare_page : list tag := [ {| tag_name := "title"; attrs := [] |} ].

Definition answer (data : json) : outcome response :=
  Return {| html := []; json_body := Return data |}.

(** The session of the shoes worker: a landing page with the deep link, then
    the two API pages. *)
Definition shoes_session : session :=
  fun n url =>
    if String.eqb url shoes_url
    then Return {| html := landing_page; json_body := Raise JSONDecodeError |}
    else if String.eqb url api_url then answer page1
    else if String.eqb url "https://api.nike.com/page2" then answer page2
    else Raise RequestsError.

(** The session of the kids worker: a landing page without the tag. *)
Definition kids_session : session :=
  fun n url =>
    Return {| html := bare_page; json_body := Raise JSONDecodeError |}.

(** A session whose every request fails in transport. *)
Definition offline : session := fun n url => Raise RequestsError.

Definition network (url : string) : session :=
  if String.eqb url shoes_url then shoes_session else kids_session.

(** A single API page with two products and no cursor. *)
Definition only_page : json :=
  JObj [ ("pages", JObj [("totalResources", JNum 2)]);
         ("productGroupings",
          JArr [grouping [product "A1" "Pegasus" 12995];
                grouping [product "A2" "Vomero" 14995]]) ].

Definition one_page_session : session :=
  fun n url =>
    if String.eqb url shoes_url
    then Return {| html := landing_page; json_body := Raise JSONDecodeError |}
    else if String.eqb url api_url then answer only_page
    else Raise RequestsError.

Definition one_page_network (url : string) : session :=
  if String.eqb url shoes_url then one_page_session else kids_session.


(** A page none of whose products has a subtitle. *)
Definition payload_without_subtitle : json :=
  JObj [ ("productGroupings",
          JArr [grouping [product_without_subtitle "A1" "Cap" 1295]]) ].

(** A page where one product has a subtitle and the other has not. *)
Definition payload_mixed : Py.dict json :=
  [ ("productGroupings",
     JArr [grouping [product_without_subtitle "A1" "Cap" 1295];
           grouping [product "A2" "Pegasus" 12995]]) ].


(** A page whose cursor is there but empty; every request is answered with
    it. *)
Definition page_with_empty_cursor : json :=
  JObj [ ("pages", JObj [("totalResources", JNum 250); ("next", JStr "")]);
         ("productGroupings",
          JArr [grouping [product "A1" "Pegasus" 12995]]) ].

Definition empty_cursor_session : session :=
  fun n url => answer page_with_empty_cursor.

(** A page with a cursor to page two and a count too large for a float. *)
Definition page_with_huge_count : json :=
  JObj [ ("pages", JObj [("totalResources", JNum (10 ^ 400));
                         ("next", JStr "/page2")]);
         ("productGroupings",
          JArr [grouping [product "A1" "Pegasus" 12995]]) ].

Definition huge_count_session : session :=
  fun n url =>
    if String.eqb url api_url then answer page_with_huge_count
    else answer page2.

Definition row_of (code : string) (name : cell) (amount : Z) : snapshot_row :=
  {| columns :=
       {| productCode := Some (JStr code);
          badgeLabel := Some JNull;
          copy_title := name;
          copy_subTitle := Some (JStr "Shoes");
          prices_currency := Some (JStr "INR");
          prices_currentPrice := Some (JNum amount);
          pdpUrl_url := Some (JStr "https://www.nike.com/in/t/x");
          colorwayImages_portraitURL := Some (JStr "https://img/x.png") |};
     category := "mens shoes" |}.

Definition pegasus : snapshot_row := row_of "A1" (Some (JStr "Pegasus")) 12995.
Definition vomero : snapshot_row := row_of "B1" (Some (JStr "Vomero")) 14995.

(** A row whose product has no code. *)
Definition uncoded : snapshot_row :=
  {| columns :=
       {| productCode := None;
          badgeLabel := Some JNull;
          copy_title := Some (JStr "Gift card");
          copy_subTitle := Some (JStr "Gifts");
          prices_currency := Some (JStr "INR");
          prices_currentPrice := Some (JNum 1000);
          pdpUrl_url := Some (JStr "https://www.nike.com/in/t/gift");
          colorwayImages_portraitURL := Some (JStr "https://img/gift.png") |};
     category := "mens shoes" |}.

(** A row whose title is a list: sqlite3 cannot bind it. *)
Definition broken : snapshot_row := row_of "C1" (Some (JArr [JStr "x"])) 100.

Definition engine_at (now : string) : Sqlite.engine :=
  {| Sqlite.current_timestamp := fun _ => now;
     Sqlite.refuses := fun _ => false |}.

(** The file after an earlier run that saw product A1. *)
Definition earlier : Sqlite.database :=
  fst (update_database (engine_at "2025-01-01 00:00:00")
                       "2025-01-01 05:30:00" [pegasus] Sqlite.empty).

End Sample.

(** ** Claims as the specification words them *)

(** C1 as stated, read at the first response of a fetch: the fetch stops
    there, with no further request, exactly when that response omits
    "next", whatever count it reports. *)
Definition stops_exactly_where_next_is_omitted
           (container_repr : json -> string) (fuel : nat)
           (sess : session) (n : nat) (url category : string) : Prop :=
  forall r data df trace,
    sess n url = Return r ->
    json_body r = Return data ->
    fetch_nike_products container_repr fuel sess n url category
    = Some (df, trace) ->
    (gets trace = 1%nat <-> omits_next data).

(** C3 as stated: persisted in two successive runs, a record leaves exactly
    one products row with its product code, and price_history has gained
    two rows for it. *)
Definition upsert_is_idempotent
           (eng1 eng2 : Sqlite.engine) (timestamp1 timestamp2 : string)
           (row : snapshot_row) (db : Sqlite.database) : Prop :=
  let code := Reconciler.stored_code row in
  let db1 := fst (update_database eng1 timestamp1 [row] db) in
  let db2 := fst (update_database eng2 timestamp2 [row] db1) in
  List.length (filter (fun r => Sqlite.value_eqb code (Sqlite.product_code r))
                      (Sqlite.products db2)) = 1%nat
  /\ List.length (Ledger.observed code (Sqlite.price_history db2))
     = (List.length (Ledger.observed code (Sqlite.price_history db)) + 2)%nat.

(** C4 as stated: on a transport failure the resolver raises. *)
Definition raises_on_transport_failure
           (deeplink_query : string -> outcome (Py.dict (list string)))
           (sess : session) (url : string) : Prop :=
  (exists e, sess 0%nat url = Raise e) ->
  exists e, extract_concept_ids deeplink_query sess url = Raise e.

(** C6 as stated: the page total for the progress bar is the ceiling. *)
Definition page_total_is_ceiling (total : Z) : Prop :=
  total_pages_of (JNum total) = Return (PageTotal.ceiling total 100).


(** C8 as stated: a missing field costs no page its records. *)
Definition every_record_is_produced (payload : json) : Prop :=
  forall groupings,
    Py.getitem payload "productGroupings" = Return (JArr groupings) ->
    List.length (List.concat (parse_response payload))
    = List.length (filter Normalizer.has_products groupings).

(** ** What every run keeps of the file *)

Module Invariants.
Import Sqlite Transaction Reconciler.

(** [db'] has all the price_history rows of [db], unchanged and in place,
    followed by the rows added since. *)
Definition history_extends (db db' : database) : Prop :=
  exists added, price_history db' = price_history db ++ added.

(** Every product code of [db] still has a row in [db']. *)
Definition retains_products (db db' : database) : Prop :=
  forall r, In r (products db) ->
            exists r', In r' (products db') /\ product_code r' = product_code r.

(** The primary key of products: no two rows share a code that is not
    NULL. *)
Definition unique_codes (db : database) : Prop :=
  forall k, k <> Null ->
            (List.length (filter (has_code k) (products db)) <= 1)%nat.

(** The ids of price_history grow strictly along the table. *)
Definition ids_increasing (db : database) : Prop :=
  StronglySorted Z.lt (map id (price_history db)).

(** The row has no product code. *)
Definition null_coded (r : products_record) : bool :=
  match product_code r with
  | Null => true
  | _ => false
  end.

(** The rows of a snapshot that are stored under the code [k]. *)
Definition occurrences (k : value) (df : list snapshot_row)
  : list snapshot_row :=
  filter (fun row => value_eqb k (stored_code row)) df.

(** No write of the run fails and the engine accepts the commit. *)
Definition run_goes_through (eng : engine) (timestamp : string)
           (df : list snapshot_row) : Prop :=
  (forall k s, nth_error (writes timestamp df) k = Some s ->
               write_fails eng k s = false)
  /\ refuses eng (List.length (writes timestamp df)) = false.

End Invariants.

(** ** Workers, as the fan-in loop sees them *)

Section Workers.

Variable container_repr : json -> string.
Variable deeplink_query : string -> outcome (Py.dict (list string)).
Variable urlparse_path : string -> outcome string.

(** The worker for [url] is still running after [fuel] pages. *)
Definition hangs (fuel : nat) (network : string -> session) (url : string)
  : bool :=
  match process_single_url container_repr deeplink_query urlparse_path
                           fuel (network url) url with
  | None => true
  | Some _ => false
  end.

(** The frame the worker for [url] contributes, if it returned one with
    rows. *)
Definition frames_of (fuel : nat) (network : string -> session)
           (url : string) : list (list snapshot_row) :=
  match process_single_url container_repr deeplink_query urlparse_path
                           fuel (network url) url with
  | Some (Return (row :: rows)) => [row :: rows]
  | _ => []
  end.

(** The landing page of [url] gives no identifier: the request fails in
    transport, or the page lacks the data. *)
Definition undiscoverable (sess : session) (url : string) : Prop :=
  (exists e, sess 0%nat url = Raise e) \/ lacks_identifier deeplink_query sess url.

End Workers.

(** ** The shape of a fetch *)

Definition is_sleep (e : event) : bool :=
  match e with Sleep => true | _ => false end.



Section PageSteps.

Variable container_repr : json -> string.

(** One turn of the loop for the cursor [fst s]: the sleep, the request,
    and the bar update when [snd s] holds. *)
Definition page_step (s : json * bool) : list event :=
  Sleep :: Get (next_url container_repr (fst s))
        :: (if snd s then [ProgressUpdate] else []).

(** The request of the session numbered [n], for the cursor [next_page],
    fails: in transport, or because the body is not JSON. *)
Definition request_fails (sess : session) (n : nat) (next_page : json)
  : Prop :=
  exists e, (response <- sess n (next_url container_repr next_page) ;;
             json_body response) = Raise e.

End PageSteps.

(** The cursor the loop holds after the pages [pages], entered with
    [next_page]. *)
Definition final_cursor (next_page : json) (pages : list json) (final : json)
  : Prop :=
  match pages with
  | [] => final = next_page
  | _ => next_page_of (List.last pages JNull) = Return final
  end.

(** The "pages" object reports no count Python can compute with: the key is
    missing, or its value is not a number. *)
Definition lacks_total (pages : Py.dict json) : Prop :=
  match Py.dict_get "totalResources" pages with
  | None => True
  | Some total => exists e, PyNum.as_int total = Raise e
  end.

(** ** Strings without a separator *)

(** The character [c] does not occur in [s]. *)
Fixpoint free_of (c : ascii) (s : string) : bool :=
  match s with
  | EmptyString => true
  | String x rest => negb (Ascii.eqb x c) && free_of c rest
  end.

(** A word of a URL slug: it holds neither "-" nor "/". *)
Definition slug_word (s : string) : bool := free_of "-" s && free_of "/" s.

(** [k] slashes. *)
Fixpoint slashes (k : nat) : string :=
  match k with
  | O => ""
  | S k' => String "/" (slashes k')
  end.

Definition starts_with_slash (s : string) : bool :=
  match s with
  | String c _ => Ascii.eqb c "/"
  | EmptyString => false
  end.

(** ** More sample data *)

Module Scenes.
Local Open Scope Z_scope.

(** The first API page is served, every other request fails in
    transport. *)
Definition flaky_session : session :=
  fun n url =>
    if String.eqb url Sample.api_url then Sample.answer Sample.page1
    else Raise RequestsError.

(** A first page with products but no reported count. *)
Definition uncounted_pages : Py.dict json := [("next", JStr "/page2")].

Definition uncounted_page : json :=
  JObj [ ("pages", JObj uncounted_pages);
         ("productGroupings",
          JArr [Sample.grouping [Sample.product "A1" "Pegasus" 12995]]) ].

Definition uncounted_session : session :=
  fun n url => Sample.answer uncounted_page.





(** A payload whose second grouping is a string. *)
Definition payload_with_a_string : Py.dict json :=
  [ ("productGroupings",
     JArr [Sample.grouping [Sample.product "A1" "Pegasus" 12995];
           JStr "sponsored"]) ].

(** A snapshot row without a product code. *)
Definition nameless : snapshot_row :=
  {| columns :=
       {| productCode := None;
          badgeLabel := Some JNull;
          copy_title := Some (JStr "Gift card");
          copy_subTitle := None;
          prices_currency := Some (JStr "INR");
          prices_currentPrice := Some (JNum 1000);
          pdpUrl_url := Some (JStr "https://www.nike.com/in/t/gift");
          colorwayImages_portraitURL := None |};
     category := "mens accessories equipment" |}.

Definition february : Sqlite.engine := Sample.engine_at "2025-02-01 00:00:00".

End Scenes.

Module Endless.

(** A server that answers every request with the first sample page, which
    carries a cursor. *)
Definition session_ : session := fun n url => Sample.answer Sample.page1.

End Endless.

(** ** A server that never stops *)

(** Every request of the session is answered with the payload [data]. *)
Definition always_answers (sess : session) (data : json) : Prop :=
  forall n url, exists r, sess n url = Return r /\ json_body r = Return data.

(** * Properties *)

(** ** Dictionaries *)

Lemma dict_get_set_same {V} (k : string) (v : V) (d : Py.dict V) :
  Py.dict_get k (Py.dict_set k v d) = Some v.
Proof.
  induction d as [|[k' v'] d IH]; simpl.
  - now rewrite String.eqb_refl.
  - destruct (String.eqb k k') eqn:E; simpl; rewrite E; auto.
Qed.

Lemma dict_get_set_other {V} (k k' : string) (v : V) (d : Py.dict V) :
  k <> k' -> Py.dict_get k (Py.dict_set k' v d) = Py.dict_get k d.
Proof.
  intros Hk. induction d as [|[k0 v0] d IH]; simpl.
  - destruct (String.eqb k k') eqn:E; auto.
    apply String.eqb_eq in E. contradiction.
  - destruct (String.eqb k' k0) eqn:E; simpl.
    + apply String.eqb_eq in E. subst k0.
      destruct (String.eqb k k') eqn:E'; auto.
      apply String.eqb_eq in E'. contradiction.
    + now rewrite IH.
Qed.

(** ** The pagination loop *)

Section Pagination.

Variable container_repr : json -> string.

Local Abbreviation fstring := (fstring container_repr).
Local Abbreviation pagination := (pagination container_repr).
Local Abbreviation fetch_nike_products := (fetch_nike_products container_repr).
Local Abbreviation next_url := (next_url container_repr).
Local Abbreviation serves := (serves container_repr).

Lemma gets_app (t1 t2 : list event) : gets (t1 ++ t2) = (gets t1 + gets t2)%nat.
Proof. unfold gets. now rewrite filter_app, length_app. Qed.


Lemma pagination_step (fuel : nat) (sess : session) (n : nat)
      (next_page : json) (acc : list (list product_row))
      (trace : list event) (r : response) (data next_page' : json) :
  Py.truthy next_page = true ->
  sess n (next_url next_page) = Return r ->
  json_body r = Return data ->
  next_page_of data = Return next_page' ->
  pagination (S fuel) sess n next_page acc trace
  = pagination fuel sess (S n) next_page' (acc ++ parse_response data)
      (if Py.truthy next_page'
       then (trace ++ [Sleep; Get (next_url next_page)]) ++ [ProgressUpdate]
       else trace ++ [Sleep; Get (next_url next_page)]).
Proof.
  intros Ht Hs Hj Hn. unfold next_url in *.
  cbn -[String.append parse_response Py.truthy next_page_of].
  rewrite Ht, Hs.
  cbn -[String.append parse_response Py.truthy next_page_of].
  rewrite Hj, Hn. reflexivity.
Qed.

Lemma pagination_done (fuel : nat) (sess : session) (n : nat)
      (next_page : json) (acc : list (list product_row))
      (trace : list event) :
  Py.truthy next_page = false ->
  pagination fuel sess n next_page acc trace = Some (Return acc, trace).
Proof. intros Ht. destruct fuel; simpl; now rewrite Ht. Qed.


(** The same over pages that end with one whose cursor is unset, be it
    missing or falsy. *)
Lemma pagination_consumes_to_unset (sess : session) (pages : list json) :
  forall (fuel n : nat) (next_page : json)
         (acc : list (list product_row)) (trace : list event),
    pages <> [] ->
    Py.truthy next_page = true ->
    serves sess n (next_url next_page) pages ->
    cursor_unset (List.last pages JNull) ->
    (List.length pages <= fuel)%nat ->
    exists trace',
      pagination fuel sess n next_page acc trace
      = Some (Return (acc ++ flat_map parse_response pages), trace')
      /\ gets trace' = (gets trace + List.length pages)%nat.
Proof.
  induction pages as [|data rest IH]; intros fuel n np acc trace Hne Ht Hs Hl Hf.
  - contradiction.
  - destruct fuel as [|fuel]; [simpl in Hf; lia|].
    destruct Hs as ((r & Hr & Hj) & Hrest).
    destruct rest as [|data' rest'].
    + simpl in Hl. destruct Hl as (last_cursor & Hn & Hfalse).
      rewrite (pagination_step fuel sess n np acc trace r data _ Ht Hr Hj Hn).
      rewrite Hfalse. rewrite pagination_done by exact Hfalse.
      eexists. split.
      * simpl. now rewrite app_nil_r.
      * unfold gets. rewrite filter_app, length_app. simpl. lia.
    + destruct Hrest as (np' & Hn & Ht' & Hs').
      rewrite (pagination_step fuel sess n np acc trace r data _ Ht Hr Hj Hn).
      rewrite Ht'.
      destruct (IH fuel (S n) np' (acc ++ parse_response data)
                   ((trace ++ [Sleep; Get (next_url np)]) ++ [ProgressUpdate]))
        as (trace' & Heq & Hg).
      * discriminate.
      * exact Ht'.
      * exact Hs'.
      * exact Hl.
      * simpl in Hf |- *. lia.
      * exists trace'. split.
        -- rewrite Heq. simpl. now rewrite <- app_assoc.
        -- rewrite Hg. unfold gets. rewrite !filter_app, !length_app.
           simpl. lia.
Qed.

End Pagination.

(** ** [fetch_nike_products] stops at the first page without a cursor *)

Section FetchTermination.

Variable container_repr : json -> string.

Local Abbreviation fetch := (fetch_nike_products container_repr).
Local Abbreviation chain := (serves container_repr).

Lemma tag_category_nil (category : string) : tag_category category [] = [].
Proof. reflexivity. Qed.

(** What [fetch_nike_products] returns once the loop has returned. *)
Lemma fetch_after_loop (fuel : nat) (sess : session) (n : nat)
      (url category : string) (data : json) (total_pages : Z)
      (next_page : json) (all_products : list (list product_row))
      (trace : list event) :
  initial_page sess n url = Return (data, total_pages, next_page) ->
  pagination container_repr fuel sess (S n) next_page (parse_response data)
             [Get url; ProgressBar total_pages]
  = Some (Return all_products, trace) ->
  fetch fuel sess n url category
  = Some (tag_category category all_products, trace).
Proof.
  intros Hi Hp. unfold fetch_nike_products. rewrite Hi, Hp.
  destruct all_products; reflexivity.
Qed.

(** C1, as the code has it.  Let the session deliver the pages
    [data :: rest] along the cursor chain, every page but the last carrying
    a cursor the loop follows, and let the first page have a "pages"
    object.  If Python can turn the count reported there into a page total,
    then, whatever that count is, the fetch stops at the first page whose
    cursor is unset (missing or falsy): once the loop has [length rest]
    iterations at its disposal it returns the rows of all those pages after
    exactly one request per page.  If Python cannot, the fetch stops after
    the first request with no rows, whatever the cursor of that page. *)
Theorem fetch_stops_at_first_unset_cursor
        (sess : session) (n : nat) (url category : string)
        (data : json) (rest : list json)
        (pages : Py.dict json) (fuel : nat) :
  chain sess n url (data :: rest) ->
  Py.getitem data "pages" = Return (JObj pages) ->
  (count_usable pages = true ->
   cursor_unset (List.last (data :: rest) JNull) ->
   (List.length rest <= fuel)%nat ->
   exists trace,
     fetch fuel sess n url category
     = Some (tag_category category (flat_map parse_response (data :: rest)),
             trace)
     /\ gets trace = List.length (data :: rest))
  /\ (count_usable pages = false ->
      fetch fuel sess n url category = Some ([], [Get url])).
Proof.
  intros Hs Hp.
  destruct Hs as ((r & Hr & Hj) & Hrest).
  assert (Hfirst : initial_page sess n url
                   = (total_products <- Py.getitem (JObj pages)
                                                   "totalResources" ;;
                      total_pages <- total_pages_of total_products ;;
                      next_page <- next_page_of data ;;
                      Return (data, total_pages, next_page))).
  { unfold initial_page. rewrite Hr. cbn [bind]. rewrite Hj. cbn [bind].
    rewrite Hp. reflexivity. }
  unfold count_usable. split.
  - intros Hc Hl Hf.
    destruct (Py.dict_get "totalResources" pages) as [total|] eqn:Ht;
      [|discriminate Hc].
    destruct (total_pages_of total) as [total_pages|e] eqn:Htp;
      [|discriminate Hc].
    assert (Hinit : forall np, next_page_of data = Return np ->
              initial_page sess n url = Return (data, total_pages, np)).
    { intros np Hn. rewrite Hfirst. unfold Py.getitem. rewrite Ht.
      cbn [bind]. rewrite Htp. cbn [bind]. rewrite Hn. reflexivity. }
    destruct rest as [|data' rest'].
    + simpl in Hl. destruct Hl as (np & Hn & Hfalse).
      exists [Get url; ProgressBar total_pages]. split.
      * apply fetch_after_loop with (data := data)
                                    (total_pages := total_pages)
                                    (next_page := np).
        -- now apply Hinit.
        -- rewrite pagination_done by exact Hfalse.
           simpl. now rewrite app_nil_r.
      * reflexivity.
    + destruct Hrest as (np & Hn & Htr & Hs').
      destruct (pagination_consumes_to_unset
                  container_repr sess (data' :: rest') fuel
                  (S n) np (parse_response data)
                  [Get url; ProgressBar total_pages])
        as (trace' & Heq & Hg); try assumption.
      * discriminate.
      * exists trace'. split.
        -- apply fetch_after_loop with (data := data)
                                       (total_pages := total_pages)
                                       (next_page := np).
           ++ now apply Hinit.
           ++ exact Heq.
        -- rewrite Hg. reflexivity.
  - intros Hc. unfold fetch_nike_products. rewrite Hfirst.
    unfold Py.getitem.
    destruct (Py.dict_get "totalResources" pages) as [total|];
      [|reflexivity].
    cbn [bind].
    destruct (total_pages_of total) as [total_pages|e];
      [discriminate Hc|reflexivity].
Qed.

End FetchTermination.

(** ** The page total: [ceil(total_products / count) - 1] *)

Module PageTotalFacts.
Import PageTotal.
Local Open Scope Z_scope.

Lemma ceiling_unique (m p k : Z) :
  0 < p -> (k - 1) * p < m <= k * p -> ceiling m p = k.
Proof.
  intros Hp Hm. unfold ceiling.
  assert (H : (- m) / p = - k).
  { symmetry. apply Z.div_unique with (r := - m + k * p); lia. }
  lia.
Qed.

Lemma round_half_even_cases (num den : Z) :
  0 < den ->
  let m := PyNum.round_half_even num den in
  (m = num / den \/ m = num / den + 1)
  /\ (num mod den = 0 -> m = num / den).
Proof.
  intros Hd m. unfold m, PyNum.round_half_even.
  destruct (2 * (num mod den) <? den) eqn:E1.
  - split; auto.
  - apply Z.ltb_ge in E1. split.
    + destruct (den <? 2 * (num mod den)); [now right|].
      destruct (Z.even (num / den)); auto.
    + intros H0. rewrite H0 in E1. lia.
Qed.

(** Rounding the quotient to a double with at least seven fractional bits
    does not move its ceiling. *)
Lemma ceiling_of_rounded (a p : Z) :
  0 < a -> 128 <= p ->
  ceiling (PyNum.round_half_even (a * p) 100) p = ceiling a 100.
Proof.
  intros Ha Hp.
  destruct (round_half_even_cases (a * p) 100 ltac:(lia)) as [Hm Hz].
  set (m := PyNum.round_half_even (a * p) 100) in *.
  pose proof (Z.div_mod (a * p) 100 ltac:(lia)) as Hq.
  pose proof (Z.mod_pos_bound (a * p) 100 ltac:(lia)) as Hr.
  pose proof (Z.div_mod a 100 ltac:(lia)) as Ha'.
  pose proof (Z.mod_pos_bound a 100 ltac:(lia)) as Hf.
  set (q := (a * p) / 100) in *. set (r := (a * p) mod 100) in *.
  set (n := a / 100) in *. set (f := a mod 100) in *.
  assert (Hap : a * p = 100 * (n * p) + f * p) by (rewrite Ha' at 1; ring).
  destruct (Z.eq_dec f 0) as [Hf0|Hf0].
  - assert (Hr0 : r = 0) by (rewrite Hf0 in Hap; lia).
    specialize (Hz Hr0).
    rewrite Hf0 in Hap.
    rewrite (ceiling_unique m p n), (ceiling_unique a 100 n); lia.
  - assert (Hfp : p <= f * p <= 99 * p) by nia.
    rewrite (ceiling_unique m p (n + 1)), (ceiling_unique a 100 (n + 1));
      lia.
Qed.

Lemma quotient_exponent_small (a : Z) :
  0 < a < 2 ^ 52 -> -59 <= PyNum.quotient_exponent a 100 <= -7.
Proof.
  intros Ha. unfold PyNum.quotient_exponent.
  change (Z.log2 100) with 6.
  pose proof (Z.log2_nonneg a) as H0.
  assert (H1 : Z.log2 a < 52) by (apply Z.log2_lt_pow2; lia).
  destruct (if 0 <=? Z.log2 a - 6
            then 100 * 2 ^ (Z.log2 a - 6) <=? a
            else 100 <=? a * 2 ^ (- (Z.log2 a - 6))); lia.
Qed.

(** For counts below 2^52 the double arithmetic is exact. *)
Lemma ceil_truediv_exact (a : Z) :
  0 <= a < 2 ^ 52 -> PyNum.ceil_truediv a 100 = Return (ceiling a 100).
Proof.
  intros Ha. unfold PyNum.ceil_truediv.
  destruct (a =? 0) eqn:E0.
  - apply Z.eqb_eq in E0. subst a. reflexivity.
  - apply Z.eqb_neq in E0.
    assert (Hpos : 0 < a < 2 ^ 52) by lia.
    pose proof (quotient_exponent_small a Hpos) as He.
    rewrite Z.abs_eq by lia.
    set (e := PyNum.quotient_exponent a 100) in *.
    assert (E : (0 <=? e) = false) by (apply Z.leb_gt; lia).
    rewrite E. rewrite Z.sgn_pos by lia. rewrite Z.mul_1_l.
    f_equal. apply ceiling_of_rounded; [lia|].
    change 128 with (2 ^ 7). apply Z.pow_le_mono_r; lia.
Qed.

(** Nor does it move its floor, which is what the ceiling of a negative
    quotient comes to. *)
Lemma floor_of_rounded (b p : Z) :
  0 < b -> 128 <= p ->
  PyNum.round_half_even (b * p) 100 / p = b / 100.
Proof.
  intros Hb Hp.
  destruct (round_half_even_cases (b * p) 100 ltac:(lia)) as [Hm Hz].
  set (m := PyNum.round_half_even (b * p) 100) in *.
  pose proof (Z.div_mod (b * p) 100 ltac:(lia)) as Hq.
  pose proof (Z.mod_pos_bound (b * p) 100 ltac:(lia)) as Hr.
  pose proof (Z.div_mod b 100 ltac:(lia)) as Hb'.
  pose proof (Z.mod_pos_bound b 100 ltac:(lia)) as Hf.
  set (q := (b * p) / 100) in *. set (r := (b * p) mod 100) in *.
  set (n := b / 100) in *. set (f := b mod 100) in *.
  assert (Hbp : b * p = 100 * (n * p) + f * p) by (rewrite Hb' at 1; ring).
  destruct (Z.eq_dec f 0) as [Hf0|Hf0].
  - assert (Hr0 : r = 0) by (rewrite Hf0 in Hbp; lia).
    specialize (Hz Hr0). rewrite Hf0 in Hbp.
    symmetry. apply Z.div_unique with (r := 0); lia.
  - assert (Hfp : p <= f * p <= 99 * p) by nia.
    symmetry. apply Z.div_unique with (r := m - n * p); lia.
Qed.

(** The same for a negative count: [ceil] of the rounded negative quotient
    is the exact ceiling. *)
Lemma ceil_truediv_exact_negative (a : Z) :
  - 2 ^ 52 < a < 0 -> PyNum.ceil_truediv a 100 = Return (ceiling a 100).
Proof.
  intros Ha. unfold PyNum.ceil_truediv.
  assert (E0 : (a =? 0) = false) by (apply Z.eqb_neq; lia).
  rewrite E0.
  rewrite Z.abs_neq by lia.
  assert (Hpos : 0 < - a < 2 ^ 52) by lia.
  pose proof (quotient_exponent_small (- a) Hpos) as He.
  set (e := PyNum.quotient_exponent (- a) 100) in *.
  assert (E : (0 <=? e) = false) by (apply Z.leb_gt; lia).
  rewrite E. rewrite Z.sgn_neg by lia.
  replace (- (-1 * PyNum.round_half_even (- a * 2 ^ (- e)) 100))
    with (PyNum.round_half_even (- a * 2 ^ (- e)) 100) by lia.
  rewrite floor_of_rounded; [reflexivity|lia|].
  change 128 with (2 ^ 7). apply Z.pow_le_mono_r; lia.
Qed.

(** Whatever its sign, a count of magnitude below 2^52 is divided
    exactly. *)
Lemma ceil_truediv_exact_signed (a : Z) :
  - 2 ^ 52 < a < 2 ^ 52 -> PyNum.ceil_truediv a 100 = Return (ceiling a 100).
Proof.
  intros Ha. destruct (Z_lt_le_dec a 0) as [Hneg|Hpos].
  - apply ceil_truediv_exact_negative. lia.
  - apply ceil_truediv_exact. lia.
Qed.

End PageTotalFacts.

(** ** totalResources reaches the progress bar and nothing else *)

Lemma next_page_of_with_total (total data : json) :
  next_page_of (with_total total data) = next_page_of data.
Proof.
  unfold with_total. destruct data as [| | | | |items]; try reflexivity.
  destruct (Py.dict_get "pages" items) as [[| | | | |pages]|] eqn:E;
    try reflexivity.
  unfold next_page_of. simpl. rewrite dict_get_set_same, E. simpl.
  rewrite dict_get_set_other by discriminate. reflexivity.
Qed.

Lemma parse_response_with_total (total data : json) :
  parse_response (with_total total data) = parse_response data.
Proof.
  unfold with_total. destruct data as [| | | | |items]; try reflexivity.
  destruct (Py.dict_get "pages" items) as [[| | | | |pages]|] eqn:E;
    try reflexivity.
  unfold parse_response, parse_response_body. simpl.
  rewrite dict_get_set_other by discriminate. reflexivity.
Qed.

Section ProgressOnly.

Variable container_repr : json -> string.

Local Abbreviation fetch := (fetch_nike_products container_repr).
Local Abbreviation loop := (pagination container_repr).

(** The loop never reads the count. *)
Lemma pagination_retotal (total : json) (sess : session) (fuel : nat) :
  forall n next_page acc trace,
    loop fuel (retotal total sess) n next_page acc trace
    = loop fuel sess n next_page acc trace.
Proof.
  induction fuel as [|fuel IH]; intros n np acc trace.
  - reflexivity.
  - cbn -[String.append parse_response Py.truthy next_page_of].
    destruct (Py.truthy np); [|reflexivity].
    unfold retotal at 1.
    destruct (sess n _) as [r|e]; [|reflexivity].
    cbn -[String.append parse_response Py.truthy next_page_of].
    destruct (json_body r) as [data|e]; [|reflexivity].
    cbn -[String.append parse_response Py.truthy next_page_of].
    rewrite next_page_of_with_total, parse_response_with_total.
    destruct (next_page_of data) as [np'|e]; [|reflexivity].
    apply IH.
Qed.

(** The loop only appends to the trace it is given. *)
Lemma pagination_prepend (sess : session) (fuel : nat) :
  forall n next_page acc t0 trace,
    loop fuel sess n next_page acc (t0 ++ trace)
    = prepend t0 (loop fuel sess n next_page acc trace).
Proof.
  induction fuel as [|fuel IH]; intros n np acc t0 trace.
  - simpl. destruct (Py.truthy np); reflexivity.
  - cbn -[String.append parse_response Py.truthy next_page_of].
    destruct (Py.truthy np); [|reflexivity].
    destruct (sess n _) as [r|e];
      cbn -[String.append parse_response Py.truthy next_page_of].
    2: { unfold prepend. now rewrite <- app_assoc. }
    destruct (json_body r) as [data|e];
      cbn -[String.append parse_response Py.truthy next_page_of].
    2: { unfold prepend. now rewrite <- app_assoc. }
    destruct (next_page_of data) as [np'|e].
    2: { unfold prepend. now rewrite <- app_assoc. }
    destruct (Py.truthy np'); rewrite <- ?app_assoc; apply IH.
Qed.

(** No progress bar is created inside the loop. *)
Lemma pagination_no_progress_bar (sess : session) (fuel : nat) :
  forall n next_page acc trace o trace',
    loop fuel sess n next_page acc trace = Some (o, trace') ->
    filter is_progress_bar trace' = filter is_progress_bar trace.
Proof.
  induction fuel as [|fuel IH]; intros n np acc trace o trace'.
  - simpl. destruct (Py.truthy np); [discriminate|].
    intros H. now inversion H.
  - cbn -[String.append parse_response Py.truthy next_page_of].
    destruct (Py.truthy np); [|intros H; now inversion H].
    destruct (sess n _) as [r|e];
      cbn -[String.append parse_response Py.truthy next_page_of].
    2: { intros H; inversion H. rewrite filter_app. simpl. apply app_nil_r. }
    destruct (json_body r) as [data|e];
      cbn -[String.append parse_response Py.truthy next_page_of].
    2: { intros H; inversion H. rewrite filter_app. simpl. apply app_nil_r. }
    destruct (next_page_of data) as [np'|e].
    2: { intros H; inversion H. rewrite filter_app. simpl. apply app_nil_r. }
    intros H. apply IH in H. rewrite H.
    destruct (Py.truthy np'); rewrite !filter_app; simpl;
      now rewrite ?app_nil_r.
Qed.

End ProgressOnly.

Section ProgressOnlyFetch.

Variable container_repr : json -> string.

Local Abbreviation fetch := (fetch_nike_products container_repr).
Local Abbreviation loop := (pagination container_repr).

Lemma fetch_retotal (fuel : nat) (sess : session) (n : nat)
      (url category : string) (total : json) (p : Z) :
  total_pages_of total = Return p ->
  fetch fuel (retotal total sess) n url category
  = match first_page sess n url with
    | None => Some ([], [Get url])
    | Some (data, next_page) =>
        finish category
               (loop fuel sess (S n) next_page (parse_response data)
                     [Get url; ProgressBar p])
    end.
Proof.
  intros Hp. unfold fetch_nike_products, first_page, initial_page.
  unfold retotal at 1.
  destruct (sess n url) as [r|e]; [|reflexivity].
  cbn [bind json_body].
  destruct (json_body r) as [data|e]; [|reflexivity].
  cbn [bind].
  destruct data as [| | | | |items]; try reflexivity.
  destruct (Py.dict_get "pages" items) as [[| | | | |pages]|] eqn:E;
    try (unfold with_total; rewrite E; simpl; rewrite E; reflexivity).
  assert (Hg : Py.getitem (with_total total (JObj items)) "pages"
               = Return (JObj (Py.dict_set "totalResources" total pages))).
  { unfold with_total. rewrite E. unfold Py.getitem.
    now rewrite dict_get_set_same. }
  rewrite Hg. cbn [bind].
  unfold Py.getitem at 1. rewrite dict_get_set_same. cbn [bind].
  rewrite Hp. cbn [bind].
  rewrite next_page_of_with_total.
  assert (Hn : next_page_of (JObj items)
               = Return match Py.dict_get "next" pages with
                        | Some x => x
                        | None => JNull
                        end).
  { unfold next_page_of, Py.getitem. rewrite E. cbn [bind Py.get].
    destruct (Py.dict_get "next" pages); reflexivity. }
  rewrite Hn. cbn [bind].
  rewrite parse_response_with_total, pagination_retotal.
  reflexivity.
Qed.

Lemma finish_prepend (category : string) (t0 : list event)
      (r : option (outcome (list (list product_row)) * list event)) :
  finish category (prepend t0 r)
  = match finish category r with
    | Some (df, trace) => Some (df, t0 ++ trace)
    | None => None
    end.
Proof.
  destruct r as [[[all_products|e] trace]|]; simpl; try reflexivity.
  destruct all_products; reflexivity.
Qed.

Lemma finish_trace (category : string)
      (r : option (outcome (list (list product_row)) * list event))
      (df : list snapshot_row) (trace : list event) :
  finish category r = Some (df, trace) -> exists o, r = Some (o, trace).
Proof.
  destruct r as [[[all_products|e] t]|]; simpl; try discriminate.
  - destruct all_products; intros H; inversion H; eauto.
  - intros H; inversion H; eauto.
Qed.

(** C6, as the code has it.  For a reported count [total] that is an
    integer strictly between -2^52 and 2^52 the page total is the ceiling of
    [total / 100] minus one; the only progress bar a fetch creates carries
    that number; and reporting any other count (one Python can turn into a
    page total) changes neither the rows the fetch returns, nor whether it
    returns, nor any of its requests, sleeps and bar updates. *)
Theorem page_total_feeds_progress_bar_only
        (fuel : nat) (sess : session) (n : nat) (url category : string)
        (total : Z) (other : json) (other_pages : Z) :
  (- 2 ^ 52 < total < 2 ^ 52)%Z ->
  total_pages_of other = Return other_pages ->
  total_pages_of (JNum total)
  = Return (PageTotal.ceiling total 100 - 1)%Z
  /\ (forall df trace,
        fetch fuel (retotal (JNum total) sess) n url category
        = Some (df, trace) ->
        forall e, In e trace -> is_progress_bar e = true ->
                  e = ProgressBar (PageTotal.ceiling total 100 - 1)%Z)
  /\ without_progress_bar
       (fetch fuel (retotal (JNum total) sess) n url category)
     = without_progress_bar
         (fetch fuel (retotal other sess) n url category).
Proof.
  intros Hrange Hother.
  assert (Htotal : total_pages_of (JNum total)
                   = Return (PageTotal.ceiling total 100 - 1)%Z).
  { unfold total_pages_of, count. cbn [PyNum.as_int bind].
    rewrite PageTotalFacts.ceil_truediv_exact_signed by exact Hrange.
    reflexivity. }
  split; [exact Htotal|].
  rewrite (fetch_retotal fuel sess n url category _ _ Htotal).
  rewrite (fetch_retotal fuel sess n url category _ _ Hother).
  destruct (first_page sess n url) as [[data np]|].
  2: { split; [|reflexivity].
       intros df trace H e He Hb. inversion H; subst.
       destruct He as [<-|[]]. discriminate. }
  split.
  - intros df trace H e He Hb.
    apply finish_trace in H. destruct H as (o & H).
    apply pagination_no_progress_bar in H.
    assert (Hin : In e (filter is_progress_bar trace))
      by (apply filter_In; auto).
    rewrite H in Hin. simpl in Hin. destruct Hin as [<-|[]]. reflexivity.
  - change [Get url; ProgressBar (PageTotal.ceiling total 100 - 1)%Z]
      with ([Get url; ProgressBar (PageTotal.ceiling total 100 - 1)%Z] ++ []).
    change [Get url; ProgressBar other_pages]
      with ([Get url; ProgressBar other_pages] ++ []).
    rewrite !pagination_prepend, !finish_prepend.
    destruct (finish category _) as [[df trace]|]; reflexivity.
Qed.

End ProgressOnlyFetch.

(** ** [parse_response]: one row per grouping that has products *)

Module NormalizerFacts.
Import Normalizer.

Lemma first_variants_shaped (groupings : list json) :
  forallb well_shaped groupings = true ->
  first_variants groupings = Return (flat_map representative groupings).
Proof.
  induction groupings as [|g gs IH]; [reflexivity|].
  cbn [forallb]. intros H. apply andb_prop in H. destruct H as [Hg Hgs].
  specialize (IH Hgs). cbn [first_variants flat_map].
  unfold well_shaped in Hg. unfold representative, products_of.
  destruct g as [| | | | |items]; try discriminate.
  cbn [Py.get].
  destruct (Py.dict_get "products" items) as [[| | | |[|[| | | | |p] ps]|]|];
    try discriminate; cbn; rewrite IH; reflexivity.
Qed.

Lemma representative_is_dict (groupings : list json) :
  forallb well_shaped groupings = true ->
  Forall (fun p => Py.is_dict p = true) (flat_map representative groupings).
Proof.
  induction groupings as [|g gs IH]; [constructor|].
  cbn [forallb flat_map]. intros H. apply andb_prop in H.
  destruct H as [Hg Hgs]. apply Forall_app. split; [|auto].
  unfold well_shaped in Hg. unfold representative, products_of.
  destruct g as [| | | | |items]; try discriminate.
  destruct (Py.dict_get "products" items) as [[| | | |[|[| | | | |p] ps]|]|];
    try discriminate; repeat constructor.
Qed.

Lemma json_normalize_dicts (products : list json) :
  Forall (fun p => Py.is_dict p = true) products ->
  Pandas.json_normalize products = Return (map flat_record products).
Proof.
  induction 1 as [|p ps Hp _ IH]; [reflexivity|].
  destruct p; try discriminate. cbn. rewrite IH. reflexivity.
Qed.

(** What [parse_response] returns on a payload of well-shaped groupings. *)
Lemma parse_response_shaped (items : Py.dict json) (groupings : list json) :
  Py.dict_get "productGroupings" items = Some (JArr groupings) ->
  forallb well_shaped groupings = true ->
  parse_response (JObj items)
  = if forallb (fun c => Pandas.has_column c (records_of groupings))
               parse_columns
    then [map row_of_record (records_of groupings)]
    else [].
Proof.
  intros Hg Hs. unfold parse_response, parse_response_body.
  unfold Py.getitem. rewrite Hg. cbn [bind Py.iter].
  rewrite (first_variants_shaped _ Hs). cbn [bind].
  rewrite (json_normalize_dicts _ (representative_is_dict _ Hs)). cbn [bind].
  unfold select_parse_columns, records_of.
  destruct (forallb _ parse_columns); reflexivity.
Qed.




End NormalizerFacts.

(** Each selected column of a row holds what the record has under that
    label, NaN when it has nothing. *)
Lemma column_of_record (d : Py.dict json) (c : string) :
  In c parse_columns -> column c (row_of_record d) = Return (Py.dict_get c d).
Proof.
  intros H. cbn in H.
  repeat (destruct H as [<-|H]; [reflexivity|]). contradiction.
Qed.


(** C8, as the code has it.  On a payload of well-shaped groupings (objects
    whose "products" is absent, null, or a list whose first element, if any,
    is an object): when each of the eight selected columns occurs in at
    least one record of the page, every record is produced, its row holding
    in each selected column what the record has under that label, and NaN
    where the record lacks the field; when some column occurs in no record
    of the page, the page yields no frame at all. *)
Theorem parse_response_missing_fields
        (items : Py.dict json) (groupings : list json) :
  Py.dict_get "productGroupings" items = Some (JArr groupings) ->
  forallb Normalizer.well_shaped groupings = true ->
  let records := Normalizer.records_of groupings in
  (forallb (fun c => Pandas.has_column c records) parse_columns = true ->
   parse_response (JObj items) = [map row_of_record records]
   /\ forall d c, In d records -> In c parse_columns ->
                  In (row_of_record d)
                     (List.concat (parse_response (JObj items)))
                  /\ column c (row_of_record d) = Return (Py.dict_get c d)
                  /\ (Py.dict_get c d = None ->
                      column c (row_of_record d) = Return None))
  /\ (forallb (fun c => Pandas.has_column c records) parse_columns = false ->
      parse_response (JObj items) = []).
Proof.
  intros Hg Hs records.
  rewrite (NormalizerFacts.parse_response_shaped items groupings Hg Hs).
  fold records. split; intros Hc; rewrite Hc; [|reflexivity].
  split; [reflexivity|].
  intros d c Hd Hin. split; [|split].
  - cbn [List.concat]. rewrite app_nil_r. now apply in_map.
  - now apply column_of_record.
  - intros Hnone. rewrite column_of_record by exact Hin. now rewrite Hnone.
Qed.

(** ** The REAL column of price_history *)

Module RealFacts.
Import Sqlite.
Local Open Scope Z_scope.

(** An integer price of magnitude below 2^53 is held as it is. *)
Lemma nearest_double_exact (n : Z) :
  Z.abs n < 2 ^ 53 -> nearest_double n = n.
Proof.
  intros Hn. unfold nearest_double.
  assert (Hlog : Z.log2 (Z.abs n) < 53).
  { destruct (Z.eq_dec (Z.abs n) 0) as [H0|H0].
    - rewrite H0. reflexivity.
    - apply Z.log2_lt_pow2; lia. }
  rewrite Z.max_r by lia.
  unfold PyNum.round_half_even.
  change (2 ^ 0) with 1. rewrite Z.div_1_r, Z.mod_1_r.
  cbn [Z.mul Z.ltb Z.compare]. lia.
Qed.

(** Beyond that the low bits are rounded away, ties to even. *)
Example nearest_double_rounds :
  nearest_double (2 ^ 53 + 1) = 2 ^ 53
  /\ nearest_double (2 ^ 53 + 3) = 2 ^ 53 + 4.
Proof. split; vm_compute; reflexivity. Qed.

End RealFacts.

(** ** [update_database]: the transaction *)

Module TransactionFacts.
Import Sqlite Transaction.

Lemma binds_bound (c : cell) :
  binds c = true -> bind_parameter c = Return (bound c).
Proof.
  unfold binds, bound. destruct (bind_parameter c); [reflexivity|discriminate].
Qed.

Lemma not_binds_raises (c : cell) :
  binds c = false -> exists e, bind_parameter c = Raise e.
Proof.
  unfold binds. destruct (bind_parameter c) as [v|e]; [discriminate|eauto].
Qed.

(** Bind the next parameter, or leave with the exception it raises. *)
Ltac bind_next c :=
  let E := fresh "E" in
  let x := fresh "x" in
  destruct (binds c) eqn:E;
  [ rewrite (binds_bound _ E); cbn [bind]
  | destruct (not_binds_raises _ E) as (x & ->); cbn [bind];
    eexists; reflexivity ].

Lemma run_statement_raises (now : string) (s : statement) (db : database) :
  statement_binds s = false -> exists e, run_statement now s db = Raise e.
Proof.
  destruct s as [a b c d e f|a b c]; cbn [statement_binds run_statement];
    unfold insert_or_replace_product, insert_price_history; intros H.
  - bind_next a. bind_next b. bind_next c. bind_next d. bind_next e.
    bind_next f.
    discriminate H.
  - bind_next a. bind_next b. bind_next c.
    discriminate H.
Qed.

(** A statement only ever touches the pending state, and every call is
    counted. *)
Lemma execute_frame (eng : engine) (s : statement) (conn : connection) :
  durable (snd (execute eng s conn)) = durable conn
  /\ calls (snd (execute eng s conn)) = S (calls conn).
Proof.
  unfold execute. destruct (refuses eng (calls conn)); [split; reflexivity|].
  destruct (run_statement _ s (pending conn)); split; reflexivity.
Qed.

Lemma execute_fails (eng : engine) (s : statement) (conn : connection) :
  write_fails eng (calls conn) s = true ->
  exists e, fst (execute eng s conn) = Raise e.
Proof.
  unfold write_fails, execute. intros H.
  destruct (refuses eng (calls conn)); [simpl; eauto|].
  cbn [orb] in H. apply negb_true_iff in H.
  destruct (run_statement_raises (current_timestamp eng (calls conn)) s
                                 (pending conn) H) as (e & ->).
  simpl; eauto.
Qed.

Lemma for_each_map {A B} (f : A -> B) (xs : list A) (body : B -> action unit) :
  for_each (map f xs) body = for_each xs (fun x => body (f x)).
Proof.
  induction xs as [|x xs IH]; [reflexivity|]. cbn. now rewrite IH.
Qed.

Lemma for_each_durable (eng : engine) (stmts : list statement) :
  forall conn,
    durable (snd (for_each stmts (execute eng) conn)) = durable conn.
Proof.
  induction stmts as [|s rest IH]; intros conn; [reflexivity|].
  cbn [for_each]. unfold then_.
  pose proof (execute_frame eng s conn) as [Hd _].
  destruct (execute eng s conn) as [[[]|e] conn1]; cbn [snd] in *.
  - now rewrite IH.
  - exact Hd.
Qed.

(** If some statement of the list fails, the loop raises. *)
Lemma for_each_fails (eng : engine) (stmts : list statement) :
  forall conn k s,
    nth_error stmts k = Some s ->
    write_fails eng (calls conn + k) s = true ->
    exists e, fst (for_each stmts (execute eng) conn) = Raise e.
Proof.
  induction stmts as [|s0 rest IH]; intros conn k s Hk Hf.
  - destruct k; discriminate.
  - cbn [for_each]. unfold then_.
    pose proof (execute_frame eng s0 conn) as [_ Hc].
    destruct k as [|k].
    + inversion Hk; subst s0. rewrite Nat.add_0_r in Hf.
      destruct (execute_fails eng s conn Hf) as (e & He).
      destruct (execute eng s conn) as [[[]|e'] conn1]; cbn [fst] in *;
        [discriminate|eauto].
    + destruct (execute eng s0 conn) as [[[]|e'] conn1]; cbn [fst snd] in *;
        [|eauto].
      apply (IH conn1 k s Hk). rewrite Hc.
      now rewrite Nat.add_succ_comm.
Qed.

Lemma for_each_app {A} (xs ys : list A) (body : A -> action unit)
      (conn : connection) :
  for_each (xs ++ ys) body conn
  = match for_each xs body conn with
    | (Return _, conn') => for_each ys body conn'
    | (Raise e, conn') => (Raise e, conn')
    end.
Proof.
  revert conn. induction xs as [|x xs IH]; intros conn; [reflexivity|].
  cbn [app for_each]. unfold then_.
  destruct (body x conn) as [[[]|e] conn1]; [apply IH|reflexivity].
Qed.

(** The body of [update_database] runs the writes, then commits. *)
Lemma body_as_writes (eng : engine) (timestamp : string)
      (df : list snapshot_row) (conn : connection) :
  update_database_body eng timestamp df conn
  = match for_each (writes timestamp df) (execute eng) conn with
    | (Return _, conn') => commit eng conn'
    | (Raise e, conn') => (Raise e, conn')
    end.
Proof.
  unfold update_database_body, writes, then_.
  rewrite for_each_app, !for_each_map. cbv beta.
  destruct (for_each df _ conn) as [[[]|e] conn1]; [|reflexivity].
  destruct (for_each df _ conn1) as [[[]|e] conn2]; reflexivity.
Qed.

(** A run that raised leaves the file as it was. *)
Lemma rolled_back_unchanged (eng : engine) (timestamp : string)
      (df : list snapshot_row) (db db' : database) (e : exn) :
  update_database eng timestamp df db = (db', RolledBack e) -> db' = db.
Proof.
  unfold update_database. destruct df as [|row rest]; [discriminate|].
  rewrite body_as_writes.
  pose proof (for_each_durable eng (writes timestamp (row :: rest))
                               (connect db)) as Hd.
  destruct (for_each _ _ (connect db)) as [[[]|e'] conn']; cbn [snd] in Hd.
  - unfold commit. destruct (refuses eng (calls conn')); intros H;
      inversion H; subst. exact Hd.
  - intros H; inversion H; subst. exact Hd.
Qed.

End TransactionFacts.

(** C2.  If any write of a run fails, be it a product upsert or a price
    insert, refused by the engine or rejected for a parameter that cannot be
    bound, the run is rolled back and the file is exactly what it was before
    the run: no row of the run is kept, and every row of earlier runs is
    still there. *)
Theorem failed_run_leaves_database_unchanged
        (eng : Sqlite.engine) (timestamp : string) (df : list snapshot_row)
        (db : Sqlite.database) (k : nat) (s : Sqlite.statement) :
  nth_error (Transaction.writes timestamp df) k = Some s ->
  Transaction.write_fails eng k s = true ->
  exists e, update_database eng timestamp df db = (db, RolledBack e).
Proof.
  intros Hk Hf.
  destruct (TransactionFacts.for_each_fails eng (Transaction.writes timestamp df)
              (Sqlite.connect db) k s Hk Hf) as (e & He).
  destruct (update_database eng timestamp df db) as [db' st] eqn:E.
  assert (Hst : st = RolledBack e).
  { unfold update_database in E. destruct df as [|row rest].
    - destruct k; discriminate.
    - rewrite TransactionFacts.body_as_writes in E.
      destruct (Sqlite.for_each _ _ (Sqlite.connect db)) as [[[]|e'] conn'];
        cbn [fst] in He; [discriminate|].
      inversion He; subst. now inversion E. }
  subst st. exists e.
  now rewrite (TransactionFacts.rolled_back_unchanged eng timestamp df db db' e E).
Qed.

(** ** [update_database]: what a run that commits leaves in the file *)

Module ReconcilerFacts.
Import Sqlite Transaction TransactionFacts Reconciler.

Lemma run_upsert (now : string) (row : snapshot_row) (db : database) :
  persistable row = true ->
  run_statement now (upsert_statement (products_data_of row)) db
  = Return (upsert_effect now row db).
Proof.
  unfold persistable. intros H.
  repeat (apply andb_prop in H; destruct H as [H ?]).
  cbn [upsert_statement products_data_of run_statement pd_product_code
       pd_title pd_subtitle pd_category pd_image_url pd_url].
  unfold insert_or_replace_product.
  repeat (rewrite binds_bound by assumption; cbn [bind]).
  cbn [bind_parameter bind].
  repeat (rewrite binds_bound by assumption; cbn [bind]).
  reflexivity.
Qed.

Lemma run_price (now timestamp : string) (row : snapshot_row)
      (db : database) :
  persistable row = true ->
  run_statement now (price_statement timestamp row) db
  = Return (price_effect timestamp row db).
Proof.
  unfold persistable. intros H.
  repeat (apply andb_prop in H; destruct H as [H ?]).
  cbn [price_statement run_statement]. unfold insert_price_history.
  repeat (rewrite binds_bound by assumption; cbn [bind]).
  reflexivity.
Qed.

Lemma upsert_loop_runs (eng : engine) (rows : list snapshot_row) :
  obliging eng ->
  forallb persistable rows = true ->
  forall conn,
    for_each rows
             (fun row => execute eng (upsert_statement (products_data_of row)))
             conn
    = (Return tt,
       {| durable := durable conn;
          pending := upsert_loop eng (calls conn) rows (pending conn);
          calls := calls conn + List.length rows |}).
Proof.
  intros Ho. induction rows as [|row rest IH]; intros Hp conn.
  - cbn. rewrite Nat.add_0_r. now destruct conn.
  - cbn [forallb] in Hp. apply andb_prop in Hp. destruct Hp as [Hrow Hrest].
    cbn [for_each upsert_loop]. unfold then_, execute at 1.
    rewrite Ho, (run_upsert _ row _ Hrow). rewrite (IH Hrest).
    cbn [durable pending calls List.length].
    now rewrite Nat.add_succ_r.
Qed.

Lemma price_loop_runs (eng : engine) (timestamp : string)
      (rows : list snapshot_row) :
  obliging eng ->
  forallb persistable rows = true ->
  forall conn,
    for_each rows (fun row => execute eng (price_statement timestamp row)) conn
    = (Return tt,
       {| durable := durable conn;
          pending := price_loop timestamp rows (pending conn);
          calls := calls conn + List.length rows |}).
Proof.
  intros Ho. induction rows as [|row rest IH]; intros Hp conn.
  - cbn. rewrite Nat.add_0_r. now destruct conn.
  - cbn [forallb] in Hp. apply andb_prop in Hp. destruct Hp as [Hrow Hrest].
    cbn [for_each price_loop]. unfold then_, execute at 1.
    rewrite Ho, (run_price _ timestamp row _ Hrow). rewrite (IH Hrest).
    cbn [durable pending calls List.length].
    now rewrite Nat.add_succ_r.
Qed.

(** A run on persistable rows, with an obliging engine, commits both
    loops. *)
Lemma update_database_commits (eng : engine) (timestamp : string)
      (df : list snapshot_row) (db : database) :
  obliging eng ->
  forallb persistable df = true ->
  df <> [] ->
  update_database eng timestamp df db
  = (price_loop timestamp df (upsert_loop eng 0 df db), Updated).
Proof.
  intros Ho Hp Hne. unfold update_database.
  destruct df as [|row rest]; [contradiction|].
  unfold update_database_body, then_.
  rewrite for_each_map.
  rewrite (upsert_loop_runs eng (row :: rest) Ho Hp).
  rewrite (price_loop_runs eng timestamp (row :: rest) Ho Hp).
  unfold commit. rewrite Ho. reflexivity.
Qed.

End ReconcilerFacts.

(** ** [update_database]: the two tables after a committed run *)

Module LedgerFacts.
Import Sqlite Transaction TransactionFacts Reconciler ReconcilerFacts Ledger.

Lemma value_eqb_eq (a b : value) : value_eqb a b = true <-> a = b.
Proof.
  destruct a, b; simpl; split; intros H; try discriminate; try reflexivity.
  - apply Z.eqb_eq in H. now subst.
  - inversion H. apply Z.eqb_refl.
  - apply String.eqb_eq in H. now subst.
  - inversion H. apply String.eqb_refl.
Qed.

Lemma value_eqb_refl (a : value) : value_eqb a a = true.
Proof. now apply value_eqb_eq. Qed.

Lemma value_eqb_neq (a b : value) : a <> b -> value_eqb a b = false.
Proof.
  intros H. destruct (value_eqb a b) eqn:E; [|reflexivity].
  apply value_eqb_eq in E. contradiction.
Qed.

Lemma has_code_eqb (k : value) (r : products_record) :
  k <> Null -> has_code k r = value_eqb k (product_code r).
Proof. destruct k; [contradiction|reflexivity|reflexivity]. Qed.

(** *** The products table through the first loop *)

Lemma filter_disjoint {A} (f g : A -> bool) (l : list A) :
  (forall x, f x = true -> g x = false) ->
  filter f (filter (fun x => negb (g x)) l) = filter f l.
Proof.
  intros H. induction l as [|x l IH]; [reflexivity|]. cbn [filter].
  destruct (g x) eqn:Eg; cbn [negb filter].
  - destruct (f x) eqn:Ef; [|exact IH].
    rewrite (H x Ef) in Eg. discriminate.
  - now rewrite IH.
Qed.

Lemma filter_complement {A} (f : A -> bool) (l : list A) :
  filter f (filter (fun x => negb (f x)) l) = [].
Proof.
  induction l as [|x l IH]; [reflexivity|]. cbn [filter].
  destruct (f x) eqn:Ef; cbn [negb filter]; [exact IH|].
  now rewrite Ef.
Qed.

Lemma upsert_effect_same (now : string) (row : snapshot_row) (db : database) :
  stored_code row <> Null ->
  filter (has_code (stored_code row)) (products (upsert_effect now row db))
  = [record_of now row].
Proof.
  intros Hk. cbn [upsert_effect products]. rewrite filter_app.
  rewrite filter_complement. cbn [filter app].
  rewrite has_code_eqb by exact Hk. cbn [record_of product_code].
  now rewrite value_eqb_refl.
Qed.

Lemma upsert_effect_other (k : value) (now : string) (row : snapshot_row)
      (db : database) :
  k <> Null -> stored_code row <> k ->
  filter (has_code k) (products (upsert_effect now row db))
  = filter (has_code k) (products db).
Proof.
  intros Hk Hne. cbn [upsert_effect products]. rewrite filter_app.
  rewrite filter_disjoint.
  - cbn [filter]. rewrite has_code_eqb by exact Hk.
    cbn [record_of product_code].
    rewrite value_eqb_neq by congruence. apply app_nil_r.
  - intros x Hx. rewrite has_code_eqb in Hx by exact Hk.
    apply value_eqb_eq in Hx.
    destruct (stored_code row) eqn:Es; [reflexivity| |];
      cbn [has_code]; apply value_eqb_neq; congruence.
Qed.

Lemma upsert_loop_untouched (k : value) (eng : engine)
      (rows : list snapshot_row) :
  k <> Null ->
  Forall (fun row => stored_code row <> k) rows ->
  forall n db,
    filter (has_code k) (products (upsert_loop eng n rows db))
    = filter (has_code k) (products db).
Proof.
  intros Hk. induction 1 as [|row rest Hrow _ IH]; intros n db.
  - reflexivity.
  - cbn [upsert_loop]. rewrite IH. now apply upsert_effect_other.
Qed.

(** After the loop, the product has the row its last upsert wrote. *)
Lemma upsert_loop_last (eng : engine) (row : snapshot_row)
      (before after : list snapshot_row) :
  stored_code row <> Null ->
  Forall (fun other => stored_code other <> stored_code row) after ->
  forall n db,
    filter (has_code (stored_code row))
           (products (upsert_loop eng n (before ++ row :: after) db))
    = [record_of (current_timestamp eng (n + List.length before)) row].
Proof.
  intros Hk Hafter. induction before as [|b before IH]; intros n db.
  - cbn [app upsert_loop List.length]. rewrite Nat.add_0_r.
    rewrite (upsert_loop_untouched _ eng after Hk Hafter).
    now apply upsert_effect_same.
  - cbn [app upsert_loop List.length]. rewrite IH.
    now rewrite Nat.add_succ_r.
Qed.

Lemma upsert_loop_history (eng : engine) (rows : list snapshot_row) :
  forall n db,
    price_history (upsert_loop eng n rows db) = price_history db.
Proof.
  induction rows as [|row rest IH]; intros n db; [reflexivity|].
  cbn [upsert_loop]. now rewrite IH.
Qed.

(** *** The price_history table through the second loop *)

Lemma price_loop_products (timestamp : string) (rows : list snapshot_row) :
  forall db, products (price_loop timestamp rows db) = products db.
Proof.
  induction rows as [|row rest IH]; intros db; [reflexivity|].
  cbn [price_loop]. now rewrite IH.
Qed.

Lemma price_loop_history (timestamp : string) (rows : list snapshot_row) :
  forall db,
    price_history (price_loop timestamp rows db)
    = price_history db ++ observations timestamp rows db.
Proof.
  induction rows as [|row rest IH]; intros db.
  - cbn. now rewrite app_nil_r.
  - cbn [price_loop observations]. rewrite IH.
    cbn [price_effect price_history]. now rewrite <- app_assoc.
Qed.




Lemma observed_none (k : value) (timestamp : string)
      (rows : list snapshot_row) :
  Forall (fun row => stored_code row <> k) rows ->
  forall db, observed k (observations timestamp rows db) = [].
Proof.
  induction 1 as [|row rest Hrow _ IH]; intros db; [reflexivity|].
  unfold observed in *. cbn [observations filter observation_of ph_product_code].
  rewrite value_eqb_neq by congruence. apply IH.
Qed.

(** A code carried by exactly one row of the snapshot gains exactly one
    observation. *)
Lemma observed_once (timestamp : string) (row : snapshot_row)
      (before after : list snapshot_row) :
  Forall (fun other => stored_code other <> stored_code row) before ->
  Forall (fun other => stored_code other <> stored_code row) after ->
  forall db,
    List.length
      (observed (stored_code row)
                (observations timestamp (before ++ row :: after) db))
    = 1%nat.
Proof.
  intros Hb Ha. induction Hb as [|b before Hrow _ IH]; intros db.
  - unfold observed.
    cbn [app observations filter observation_of ph_product_code].
    rewrite value_eqb_refl. cbn [List.length]. f_equal.
    fold (observed (stored_code row)
            (observations timestamp after (price_effect timestamp row db))).
    now rewrite (observed_none _ timestamp after Ha).
  - unfold observed in *.
    cbn [app observations filter observation_of ph_product_code].
    rewrite value_eqb_neq by congruence. apply IH.
Qed.

End LedgerFacts.


(** C3.  Persist a record in two successive runs, each time in a snapshot
    where no other row carries its code.  After each run the products table
    holds exactly one row for the code, and price_history has gained exactly
    one row for it per run: one after the first run, two after the
    second. *)
Theorem upsert_is_idempotent_history_grows
        (eng1 eng2 : Sqlite.engine) (timestamp1 timestamp2 : string)
        (row : snapshot_row)
        (before1 after1 before2 after2 : list snapshot_row)
        (db : Sqlite.database) :
  let code := Reconciler.stored_code row in
  let others := fun other => Reconciler.stored_code other <> code in
  let db1 := fst (update_database eng1 timestamp1
                                  (before1 ++ row :: after1) db) in
  let db2 := fst (update_database eng2 timestamp2
                                  (before2 ++ row :: after2) db1) in
  code <> Sqlite.Null ->
  Reconciler.obliging eng1 ->
  Reconciler.obliging eng2 ->
  forallb Reconciler.persistable (before1 ++ row :: after1) = true ->
  forallb Reconciler.persistable (before2 ++ row :: after2) = true ->
  Forall others before1 -> Forall others after1 ->
  Forall others before2 -> Forall others after2 ->
  List.length (filter (Sqlite.has_code code) (Sqlite.products db1)) = 1%nat
  /\ List.length (filter (Sqlite.has_code code) (Sqlite.products db2)) = 1%nat
  /\ List.length (Ledger.observed code (Sqlite.price_history db1))
     = (List.length (Ledger.observed code (Sqlite.price_history db)) + 1)%nat
  /\ List.length (Ledger.observed code (Sqlite.price_history db2))
     = (List.length (Ledger.observed code (Sqlite.price_history db)) + 2)%nat.
Proof.
  intros code others db1 db2 Hk Ho1 Ho2 Hp1 Hp2 Hb1 Ha1 Hb2 Ha2.
  assert (Hne : forall b a, b ++ row :: a <> [])
    by (intros [|? ?] a; discriminate).
  assert (E1 : db1 = Reconciler.price_loop timestamp1 (before1 ++ row :: after1)
                       (Reconciler.upsert_loop eng1 0
                          (before1 ++ row :: after1) db)).
  { unfold db1. now rewrite (ReconcilerFacts.update_database_commits
                               eng1 timestamp1 _ db Ho1 Hp1 (Hne _ _)). }
  assert (E2 : db2 = Reconciler.price_loop timestamp2 (before2 ++ row :: after2)
                       (Reconciler.upsert_loop eng2 0
                          (before2 ++ row :: after2) db1)).
  { unfold db2. now rewrite (ReconcilerFacts.update_database_commits
                               eng2 timestamp2 _ db1 Ho2 Hp2 (Hne _ _)). }
  assert (H1 : List.length (Ledger.observed code (Sqlite.price_history db1))
               = (List.length (Ledger.observed code (Sqlite.price_history db))
                  + 1)%nat).
  { rewrite E1, LedgerFacts.price_loop_history, LedgerFacts.upsert_loop_history.
    unfold Ledger.observed. rewrite filter_app, length_app. f_equal.
    apply (LedgerFacts.observed_once timestamp1 row before1 after1 Hb1 Ha1). }
  repeat split.
  - rewrite E1, LedgerFacts.price_loop_products.
    now rewrite (LedgerFacts.upsert_loop_last eng1 row before1 after1 Hk Ha1).
  - rewrite E2, LedgerFacts.price_loop_products.
    now rewrite (LedgerFacts.upsert_loop_last eng2 row before2 after2 Hk Ha2).
  - exact H1.
  - rewrite E2, LedgerFacts.price_loop_history, LedgerFacts.upsert_loop_history.
    unfold Ledger.observed. rewrite filter_app, length_app.
    fold (Ledger.observed code (Sqlite.price_history db1)). rewrite H1.
    fold (Ledger.observed code
            (Ledger.observations timestamp2 (before2 ++ row :: after2)
               (Reconciler.upsert_loop eng2 0 (before2 ++ row :: after2) db1))).
    rewrite (LedgerFacts.observed_once timestamp2 row before2 after2 Hb2 Ha2).
    unfold Ledger.observed. lia.
Qed.

(** C10.  When a product that is already in the products table is observed
    again, the run leaves a single row for its code: the row its last upsert
    wrote, all of whose columns come from the snapshot and whose
    [created_at] is the engine's clock at that statement.  The earlier row,
    and with it the time of the first observation, is gone. *)
Theorem upsert_resets_created_at
        (eng : Sqlite.engine) (timestamp : string) (row : snapshot_row)
        (before after : list snapshot_row) (db : Sqlite.database)
        (old : Sqlite.products_record) :
  let code := Reconciler.stored_code row in
  let now := Sqlite.current_timestamp eng (List.length before) in
  let db' := fst (update_database eng timestamp (before ++ row :: after) db) in
  code <> Sqlite.Null ->
  Reconciler.obliging eng ->
  forallb Reconciler.persistable (before ++ row :: after) = true ->
  Forall (fun other => Reconciler.stored_code other <> code) after ->
  In old (Sqlite.products db) ->
  Sqlite.product_code old = code ->
  filter (Sqlite.has_code code) (Sqlite.products db')
  = [Reconciler.record_of now row]
  /\ (Sqlite.created_at old <> Sqlite.Text now ->
      ~ In old (Sqlite.products db')).
Proof.
  intros code now db' Hk Ho Hp Ha Hold Hcode.
  assert (Hne : before ++ row :: after <> [])
    by (destruct before; discriminate).
  assert (Hrows : filter (Sqlite.has_code code) (Sqlite.products db')
                  = [Reconciler.record_of now row]).
  { unfold db'.
    rewrite (ReconcilerFacts.update_database_commits eng timestamp _ db Ho Hp Hne).
    cbn [fst]. rewrite LedgerFacts.price_loop_products.
    now rewrite (LedgerFacts.upsert_loop_last eng row before after Hk Ha). }
  split; [exact Hrows|].
  intros Hcreated Hin.
  assert (Hf : In old (filter (Sqlite.has_code code) (Sqlite.products db'))).
  { apply filter_In. split; [exact Hin|].
    rewrite LedgerFacts.has_code_eqb by exact Hk.
    rewrite Hcode. apply LedgerFacts.value_eqb_refl. }
  rewrite Hrows in Hf. destruct Hf as [<-|[]].
  apply Hcreated. reflexivity.
Qed.

(** ** Discovery and the fan-in loop *)

Section Discovery.

Variable container_repr : json -> string.
Variable deeplink_query : string -> outcome (Py.dict (list string)).
Variable urlparse_path : string -> outcome string.

Local Abbreviation discover := (extract_concept_ids deeplink_query).
Local Abbreviation worker :=
  (process_single_url container_repr deeplink_query urlparse_path).
Local Abbreviation gather :=
  (collect container_repr deeplink_query urlparse_path).
Local Abbreviation no_identifier := (lacks_identifier deeplink_query).

Lemma lacks_identifier_None (sess : session) (url : string) :
  no_identifier sess url -> discover sess url = Return None.
Proof.
  unfold extract_concept_ids, extract_concept_ids_body.
  intros [r Hr Ht|r t Hr Ht [Hc|Hc]|r t p q Hr Ht Hc Hq Hn];
    unfold deeplink_tag in Ht;
    rewrite Hr; cbn [bind]; rewrite Ht; try rewrite Hc; try reflexivity.
  destruct p as [|c p]; [reflexivity|].
  rewrite Hq. cbn [bind]. rewrite Hn. reflexivity.
Qed.

Lemma transport_failure_None (sess : session) (url : string) (e : exn) :
  sess 0%nat url = Raise e -> discover sess url = Return None.
Proof.
  intros H. unfold extract_concept_ids, extract_concept_ids_body.
  rewrite H. reflexivity.
Qed.

Lemma worker_without_identifier (fuel : nat) (sess : session) (url : string) :
  discover sess url = Return None -> worker fuel sess url = Some (Return []).
Proof. intros H. unfold process_single_url. now rewrite H. Qed.

(** A category whose worker returns the empty frame leaves the aggregate as
    if it had not been configured. *)
Lemma gather_without (fuel : nat) (network : string -> session)
      (url : string) :
  worker fuel (network url) url = Some (Return []) ->
  forall completed all_data,
    gather fuel network completed all_data
    = gather fuel network
             (filter (fun u => negb (String.eqb u url)) completed) all_data.
Proof.
  intros Hw. induction completed as [|u rest IH]; intros all_data.
  - reflexivity.
  - cbn [filter]. destruct (String.eqb u url) eqn:E; cbn [negb].
    + apply String.eqb_eq in E. subst u. cbn [collect]. rewrite Hw. apply IH.
    + cbn [collect].
      destruct (worker fuel (network u) u) as [[[|row df]|e]|];
        try reflexivity; apply IH.
Qed.

Lemma gather_keeps (fuel : nat) (network : string -> session) :
  forall completed all_data result,
    gather fuel network completed all_data = Some result ->
    forall df, In df all_data -> In df result.
Proof.
  induction completed as [|u rest IH]; intros all_data result H df Hin.
  - inversion H; subst. exact Hin.
  - cbn [collect] in H.
    destruct (worker fuel (network u) u) as [[[|row rows]|e]|];
      try discriminate; try (eapply IH; eassumption).
    eapply IH; [eassumption|]. apply in_or_app. now left.
Qed.

(** Every worker that returned rows has its frame in the aggregate. *)
Lemma gather_includes (fuel : nat) (network : string -> session) :
  forall completed all_data result,
    gather fuel network completed all_data = Some result ->
    forall u df,
      In u completed ->
      worker fuel (network u) u = Some (Return df) ->
      df <> [] ->
      In df result.
Proof.
  induction completed as [|u0 rest IH]; intros all_data result H u df Hu Hw Hne.
  - contradiction.
  - cbn [collect] in H. destruct Hu as [->|Hu].
    + rewrite Hw in H. destruct df as [|row rows]; [contradiction|].
      eapply gather_keeps; [eassumption|]. apply in_or_app. right. now left.
    + destruct (worker fuel (network u0) u0) as [[[|row rows]|e]|];
        try discriminate; eapply IH; eassumption.
Qed.

(** C4, as the code has it.  [extract_concept_ids] never raises: with the
    metadata missing it returns [None], and on a transport failure it
    returns [None] as well. *)
Theorem discovery_never_raises (sess : session) (url : string) :
  raises (discover sess url) = false
  /\ (no_identifier sess url -> discover sess url = Return None)
  /\ (forall e, sess 0%nat url = Raise e -> discover sess url = Return None).
Proof.
  split; [reflexivity|]. split.
  - apply lacks_identifier_None.
  - apply transport_failure_None.
Qed.

(** C5.  A category whose landing page lacks the identifier: discovery
    returns [None]; its worker returns the empty frame without a single API
    request; the aggregate is what it would be without that category; and
    every other worker that returned rows has them in the aggregate. *)
Theorem category_without_identifier_is_skipped
        (fuel : nat) (network : string -> session) (url : string)
        (completed : list string) :
  no_identifier (network url) url ->
  discover (network url) url = Return None
  /\ worker fuel (network url) url = Some (Return [])
  /\ gather fuel network completed []
     = gather fuel network
              (filter (fun u => negb (String.eqb u url)) completed) []
  /\ (forall result other df,
        gather fuel network completed [] = Some result ->
        In other completed ->
        worker fuel (network other) other = Some (Return df) ->
        df <> [] ->
        In df result).
Proof.
  intros H. pose proof (lacks_identifier_None _ _ H) as Hd.
  pose proof (worker_without_identifier fuel _ _ Hd) as Hw.
  repeat split; try assumption.
  - now apply gather_without.
  - intros result other df Hg Hin Ho Hne.
    eapply gather_includes; eassumption.
Qed.

End Discovery.

(** * Concrete runs *)

(** ** The claims that fail as stated *)

(** C1 fails twice over.  A first page whose "next" is the empty string
    ends the fetch although it does not omit the field; and a first page
    that reports a count too large for a float ends the fetch after one
    request although it carries a cursor to page two: termination does
    depend on the count. *)
Lemma first_page_stops_with_next_present :
  ~ stops_exactly_where_next_is_omitted
      Sample.repr 5 Sample.empty_cursor_session 1 Sample.api_url "mens shoes"
  /\ ~ stops_exactly_where_next_is_omitted
        Sample.repr 5 Sample.huge_count_session 1 Sample.api_url "mens shoes".
Proof.
  split; intros H.
  - destruct (fetch_nike_products Sample.repr 5 Sample.empty_cursor_session 1
                                  Sample.api_url "mens shoes")
      as [[df trace]|] eqn:E; [|vm_compute in E; discriminate E].
    specialize (H _ _ df trace eq_refl eq_refl E).
    vm_compute in E. inversion E; subst trace.
    destruct H as [H _]. destruct (H eq_refl) as (pages & Hp & Hn).
    inversion Hp; subst pages. discriminate Hn.
  - assert (E : fetch_nike_products Sample.repr 5 Sample.huge_count_session 1
                                    Sample.api_url "mens shoes"
                = Some ([], [Get Sample.api_url]))
      by (vm_compute; reflexivity).
    specialize (H _ _ _ _ eq_refl eq_refl E).
    destruct H as [H _]. destruct (H eq_refl) as (pages & Hp & Hn).
    inversion Hp; subst pages. discriminate Hn.
Qed.

(** C3 fails for a record without a product code: NULL keys never collide,
    so the second run adds a second products row for it. *)
Lemma uncoded_record_is_stored_twice :
  ~ upsert_is_idempotent (Sample.engine_at "2025-01-01 00:00:00")
                         (Sample.engine_at "2025-01-02 00:00:00")
                         "2025-01-01 05:30:00" "2025-01-02 05:30:00"
                         Sample.uncoded Sqlite.empty.
Proof.
  unfold upsert_is_idempotent. intros [H _]. vm_compute in H. discriminate H.
Qed.

(** C4 fails: with the network down the resolver returns [None]. *)
Lemma transport_failure_is_swallowed :
  ~ raises_on_transport_failure Sample.query Sample.offline Sample.shoes_url.
Proof.
  intros H. destruct H as [e He].
  - exists RequestsError. reflexivity.
  - discriminate He.
Qed.

(** C6 fails: for 250 resources the bar is created with total 2, not 3. *)
Lemma page_total_of_250_is_not_the_ceiling : ~ page_total_is_ceiling 250.
Proof. unfold page_total_is_ceiling. vm_compute. discriminate. Qed.

(** Nor is the corrected formula exact for every count: past the precision
    of a float the quotient is rounded before [ceil] sees it, and for
    10^17 + 1 resources the total is one less again. *)
Example page_total_beyond_float_precision :
  total_pages_of (JNum (10 ^ 17 + 1))
  = Return (PageTotal.ceiling (10 ^ 17 + 1) 100 - 2)%Z.
Proof. vm_compute. reflexivity. Qed.


(** C8 fails: a page on which no product has a subtitle yields no row. *)
Lemma page_without_subtitle_is_dropped :
  ~ every_record_is_produced Sample.payload_without_subtitle.
Proof.
  intros H. specialize (H _ eq_refl). vm_compute in H. discriminate.
Qed.

(** ** The theorems at work *)

(** C1 on two pages: 250 resources are reported, which would make three
    pages, but page two has no cursor; the fetch returns after two
    requests. *)
Lemma fetch_stops_after_two_pages :
  exists trace,
    fetch_nike_products Sample.repr 1 Sample.shoes_session 1
                        Sample.api_url "mens shoes"
    = Some (tag_category "mens shoes"
              (flat_map parse_response [Sample.page1; Sample.page2]),
            trace)
    /\ gets trace = 2%nat.
Proof.
  destruct (fetch_stops_at_first_unset_cursor
              Sample.repr Sample.shoes_session 1 Sample.api_url "mens shoes"
              Sample.page1 [Sample.page2] Sample.first_pages 1) as [H _].
  - split.
    + eexists. split; reflexivity.
    + exists (JStr "/page2"). split; [reflexivity|]. split; [reflexivity|].
      split; [|exact I]. eexists. split; reflexivity.
  - reflexivity.
  - apply H.
    + vm_compute. reflexivity.
    + exists JNull. split; reflexivity.
    + simpl. lia.
Defined.

(** C2 on a snapshot whose second row cannot be bound: the file keeps the
    one product of the earlier run and nothing else. *)
Lemma broken_row_rolls_back_the_run :
  exists e,
    update_database (Sample.engine_at "2025-02-01 00:00:00")
                    "2025-02-01 05:30:00"
                    [Sample.vomero; Sample.broken] Sample.earlier
    = (Sample.earlier, RolledBack e).
Proof.
  apply (failed_run_leaves_database_unchanged
           (Sample.engine_at "2025-02-01 00:00:00") "2025-02-01 05:30:00"
           [Sample.vomero; Sample.broken] Sample.earlier 1
           (upsert_statement (products_data_of Sample.broken))).
  - reflexivity.
  - vm_compute. reflexivity.
Defined.

(** C3 on an empty file: product A1 persisted twice. *)
Lemma pegasus_twice :
  let db1 := fst (update_database (Sample.engine_at "2025-01-01 00:00:00")
                                  "2025-01-01 05:30:00"
                                  [Sample.pegasus] Sqlite.empty) in
  let db2 := fst (update_database (Sample.engine_at "2025-01-02 00:00:00")
                                  "2025-01-02 05:30:00"
                                  [Sample.pegasus] db1) in
  List.length (filter (Sqlite.has_code (Sqlite.Text "A1"))
                      (Sqlite.products db1)) = 1%nat
  /\ List.length (filter (Sqlite.has_code (Sqlite.Text "A1"))
                         (Sqlite.products db2)) = 1%nat
  /\ List.length (Ledger.observed (Sqlite.Text "A1")
                                  (Sqlite.price_history db1)) = 1%nat
  /\ List.length (Ledger.observed (Sqlite.Text "A1")
                                  (Sqlite.price_history db2)) = 2%nat.
Proof.
  apply (upsert_is_idempotent_history_grows
           (Sample.engine_at "2025-01-01 00:00:00")
           (Sample.engine_at "2025-01-02 00:00:00")
           "2025-01-01 05:30:00" "2025-01-02 05:30:00"
           Sample.pegasus [] [] [] [] Sqlite.empty).
  - discriminate.
  - intros n. reflexivity.
  - intros n. reflexivity.
  - reflexivity.
  - reflexivity.
  - constructor.
  - constructor.
  - constructor.
  - constructor.
Defined.

(** C4 with the network down. *)
Lemma offline_discovery_returns_None :
  extract_concept_ids Sample.query Sample.offline Sample.shoes_url
  = Return None.
Proof.
  destruct (discovery_never_raises Sample.query Sample.offline
                                   Sample.shoes_url) as (_ & _ & H).
  apply (H RequestsError). reflexivity.
Defined.

(** C5 on two categories: the kids page has no tag, the shoes page has
    one. *)
Lemma kids_category_is_skipped :
  extract_concept_ids Sample.query (Sample.network Sample.kids_url)
                      Sample.kids_url = Return None
  /\ process_single_url Sample.repr Sample.query Sample.path 5
                        (Sample.network Sample.kids_url) Sample.kids_url
     = Some (Return [])
  /\ collect Sample.repr Sample.query Sample.path 5 Sample.network
             [Sample.kids_url; Sample.shoes_url] []
     = collect Sample.repr Sample.query Sample.path 5 Sample.network
               [Sample.shoes_url] [].
Proof.
  destruct (category_without_identifier_is_skipped
              Sample.repr Sample.query Sample.path 5 Sample.network
              Sample.kids_url [Sample.kids_url; Sample.shoes_url])
    as (H1 & H2 & H3 & _).
  - apply tag_absent
      with (r := {| html := Sample.bare_page;
                    json_body := Raise JSONDecodeError |});
      reflexivity.
  - split; [exact H1|]. split; [exact H2|]. exact H3.
Defined.

(** C6 on the two-page session: 250 resources give a bar of total 2, and
    with 1000 reported instead the fetch is the same but for the bar. *)
Lemma bar_total_for_250 :
  total_pages_of (JNum 250) = Return 2%Z
  /\ without_progress_bar
       (fetch_nike_products Sample.repr 5
          (retotal (JNum 250) Sample.shoes_session) 1 Sample.api_url
          "mens shoes")
     = without_progress_bar
         (fetch_nike_products Sample.repr 5
            (retotal (JNum 1000) Sample.shoes_session) 1 Sample.api_url
            "mens shoes").
Proof.
  destruct (page_total_feeds_progress_bar_only
              Sample.repr 5 Sample.shoes_session 1 Sample.api_url "mens shoes"
              250 (JNum 1000) 9) as (H1 & _ & H3).
  - lia.
  - vm_compute. reflexivity.
  - split; [exact H1|exact H3].
Defined.


(** C8 on a page where one of two products has no subtitle: both rows are
    produced, the first with NaN for the subtitle. *)
Lemma mixed_page_keeps_both_rows :
  List.map copy_subTitle
           (List.concat (parse_response (JObj Sample.payload_mixed)))
  = [None; Some (JStr "Shoes")].
Proof.
  destruct (parse_response_missing_fields
              Sample.payload_mixed
              [Sample.grouping
                 [Sample.product_without_subtitle "A1" "Cap" 1295];
               Sample.grouping [Sample.product "A2" "Pegasus" 12995]])
    as [H _].
  - reflexivity.
  - reflexivity.
  - destruct (H eq_refl) as [-> _]. reflexivity.
Defined.


(** C10 on the file of the earlier run: product A1, first seen on
    2025-01-01, is seen again on 2025-02-01. *)
Lemma pegasus_created_at_is_reset :
  map Sqlite.created_at
      (filter (Sqlite.has_code (Sqlite.Text "A1"))
              (Sqlite.products
                 (fst (update_database
                         (Sample.engine_at "2025-02-01 00:00:00")
                         "2025-02-01 05:30:00"
                         [Sample.pegasus] Sample.earlier))))
  = [Sqlite.Text "2025-02-01 00:00:00"].
Proof.
  destruct (upsert_resets_created_at
              (Sample.engine_at "2025-02-01 00:00:00") "2025-02-01 05:30:00"
              Sample.pegasus [] [] Sample.earlier
              (Reconciler.record_of "2025-01-01 00:00:00" Sample.pegasus))
    as [H _].
  - discriminate.
  - intros n. reflexivity.
  - reflexivity.
  - constructor.
  - left. reflexivity.
  - reflexivity.
  - change (Sqlite.Text "A1") with (Reconciler.stored_code Sample.pegasus).
    cbn [app] in H. rewrite H. reflexivity.
Defined.

(** The end-to-end scenario: two categories, one with identifier "123" and
    one page of two products, one without identifier.  The file ends with
    two products of the first category and two observations with the same
    timestamp. *)
Example end_to_end_scenario :
  match crawler_run Sample.repr Sample.query Sample.path 0
                    Sample.one_page_network
                    [Sample.kids_url; Sample.shoes_url]
                    (Sample.engine_at "2025-01-01 00:00:00")
                    "2025-01-01 05:30:00" None with
  | Some (db, Updated) =>
      map Sqlite.product_code (Sqlite.products db)
      = [Sqlite.Text "A1"; Sqlite.Text "A2"]
      /\ map Sqlite.category (Sqlite.products db)
         = [Sqlite.Text "mens shoes"; Sqlite.Text "mens shoes"]
      /\ map Sqlite.timestamp (Sqlite.price_history db)
         = [Sqlite.Text "2025-01-01 05:30:00";
            Sqlite.Text "2025-01-01 05:30:00"]
  | _ => False
  end.
Proof. vm_compute. repeat split; reflexivity. Qed.

(** * Further properties of the crawler *)

(** ** Invariants of [update_database] *)

Module RunFacts.
Import Sqlite Transaction TransactionFacts Reconciler ReconcilerFacts Ledger
       LedgerFacts Invariants.

(** The two shapes a statement that went through gives the file. *)
Lemma run_statement_inv (now : string) (s : statement) (db db' : database) :
  run_statement now s db = Return db' ->
  (exists new_row,
     db' = {| products :=
                filter (fun r => negb (has_code (product_code new_row) r))
                       (products db) ++ [new_row];
              price_history := price_history db;
              sqlite_sequence := sqlite_sequence db |})
  \/ (exists rec,
        id rec = next_id db
        /\ db' = {| products := products db;
                    price_history := price_history db ++ [rec];
                    sqlite_sequence := next_id db |}).
Proof.
  destruct s as [a b c d e f|a b c]; cbn [run_statement];
    unfold insert_or_replace_product, insert_price_history;
    repeat match goal with
           | |- context [bind (bind_parameter ?x) _] =>
               destruct (bind_parameter x); cbn [bind]
           end;
    intros H; try discriminate H; inversion H.
  - left.
    match type of H with
    | Return {| products := _ ++ [?row]; price_history := _;
                sqlite_sequence := _ |} = _ => exists row
    end. reflexivity.
  - right.
    match type of H with
    | Return {| products := _; price_history := _ ++ [?rec];
                sqlite_sequence := _ |} = _ => exists rec
    end. split; reflexivity.
Qed.

(** A property of the pending state that every statement keeps is kept by
    the loop over any statements. *)
Lemma for_each_invariant (P : database -> Prop) (eng : engine) :
  (forall now s db db', P db -> run_statement now s db = Return db' -> P db') ->
  forall stmts conn,
    P (pending conn) ->
    P (pending (snd (for_each stmts (execute eng) conn))).
Proof.
  intros Hstep. induction stmts as [|s rest IH]; intros conn HP.
  - exact HP.
  - cbn [for_each]. unfold then_, execute at 1.
    destruct (refuses eng (calls conn)); [exact HP|].
    destruct (run_statement _ s (pending conn)) as [db'|e] eqn:E.
    + apply IH. cbn [pending]. eapply Hstep; eassumption.
    + exact HP.
Qed.

(** A property every statement keeps is kept by every run, committed or
    rolled back. *)
Lemma update_database_invariant (P : database -> Prop) (eng : engine)
      (timestamp : string) (df : list snapshot_row) (db : database) :
  (forall now s d d', P d -> run_statement now s d = Return d' -> P d') ->
  P db ->
  P (fst (update_database eng timestamp df db)).
Proof.
  intros Hstep HP. unfold update_database.
  destruct df as [|row rest]; [exact HP|].
  rewrite body_as_writes.
  pose proof (for_each_durable eng (writes timestamp (row :: rest))
                               (connect db)) as Hd.
  pose proof (for_each_invariant P eng Hstep (writes timestamp (row :: rest))
                                 (connect db) HP) as Hp.
  destruct (for_each _ _ (connect db)) as [[[]|e] conn']; cbn [snd fst] in *.
  - unfold commit. destruct (refuses eng (calls conn')); cbn.
    + rewrite Hd. exact HP.
    + exact Hp.
  - cbn. rewrite Hd. exact HP.
Qed.

Lemma has_code_true (k : value) (r : products_record) :
  has_code k r = true -> k = product_code r.
Proof.
  destruct k; cbn [has_code]; try discriminate; intros H;
    now apply value_eqb_eq in H.
Qed.

Lemma fold_max_bounds (l : list Z) :
  forall a, (a <= fold_left Z.max l a)%Z
            /\ Forall (fun x => (x <= fold_left Z.max l a)%Z) l.
Proof.
  induction l as [|x l IH]; intros a; cbn [fold_left].
  - split; [lia|constructor].
  - destruct (IH (Z.max a x)) as [H1 H2]. split; [lia|].
    constructor; [lia|exact H2].
Qed.

Lemma sorted_snoc (l : list Z) (y : Z) :
  StronglySorted Z.lt l ->
  Forall (fun x => (x < y)%Z) l ->
  StronglySorted Z.lt (l ++ [y]).
Proof.
  induction 1 as [|x l Hs IH Hx]; intros Hy; cbn [app].
  - constructor; constructor.
  - inversion Hy; subst. constructor; [now apply IH|].
    apply Forall_app. split; [exact Hx|]. constructor; [assumption|constructor].
Qed.

Lemma filter_length_le {A} (f : A -> bool) (l : list A) :
  (List.length (filter f l) <= List.length l)%nat.
Proof.
  induction l as [|x l IH]; cbn [filter]; [lia|].
  destruct (f x); cbn [List.length]; lia.
Qed.

Lemma filter_filter_le {A} (f g : A -> bool) (l : list A) :
  (List.length (filter f (filter g l)) <= List.length (filter f l))%nat.
Proof.
  induction l as [|x l IH]; cbn [filter]; [lia|].
  destruct (g x), (f x) eqn:Ef; cbn [filter List.length]; try rewrite Ef;
    cbn [List.length]; lia.
Qed.

Lemma run_statement_returns (now : string) (s : statement) (db : database) :
  statement_binds s = true -> exists db', run_statement now s db = Return db'.
Proof.
  destruct s as [a b c d e f|a b c]; cbn [statement_binds run_statement];
    unfold insert_or_replace_product, insert_price_history; intros H;
    repeat (apply andb_prop in H; destruct H as [H ?]);
    repeat (rewrite binds_bound by assumption; cbn [bind]);
    eexists; reflexivity.
Qed.

(** When no statement of the list fails, the loop goes through and has
    made one call per statement. *)
Lemma for_each_goes_through (eng : engine) (stmts : list statement) :
  forall conn,
    (forall k s, nth_error stmts k = Some s ->
                 write_fails eng (calls conn + k) s = false) ->
    exists conn',
      for_each stmts (execute eng) conn = (Return tt, conn')
      /\ calls conn' = calls conn + List.length stmts.
Proof.
  induction stmts as [|s0 rest IH]; intros conn Hok.
  - exists conn. split; [reflexivity|]. cbn. now rewrite Nat.add_0_r.
  - pose proof (Hok 0 s0 eq_refl) as H0. rewrite Nat.add_0_r in H0.
    unfold write_fails in H0. apply orb_false_iff in H0.
    destruct H0 as [Hr Hb]. apply negb_false_iff in Hb.
    destruct (run_statement_returns (current_timestamp eng (calls conn)) s0
                                    (pending conn) Hb) as (db1 & Hrun).
    cbn [for_each]. unfold then_, execute at 1. rewrite Hr, Hrun.
    destruct (IH {| durable := durable conn; pending := db1;
                    calls := S (calls conn) |}) as (conn' & Hf & Hc).
    + intros k s Hk. cbn [calls]. rewrite Nat.add_succ_comm.
      now apply (Hok (S k) s).
    + exists conn'. split; [exact Hf|]. rewrite Hc. cbn [calls List.length].
      now rewrite Nat.add_succ_r.
Qed.

Lemma for_each_returned_calls (eng : engine) (stmts : list statement) :
  forall conn u conn',
    for_each stmts (execute eng) conn = (Return u, conn') ->
    calls conn' = calls conn + List.length stmts.
Proof.
  induction stmts as [|s0 rest IH]; intros conn u conn' H.
  - inversion H; subst. cbn. now rewrite Nat.add_0_r.
  - cbn [for_each] in H. unfold then_ in H.
    pose proof (execute_frame eng s0 conn) as [_ Hc].
    destruct (execute eng s0 conn) as [[[]|e] conn1]; [|discriminate].
    cbn [snd] in Hc. apply IH in H. rewrite H, Hc. cbn [List.length].
    now rewrite Nat.add_succ_r.
Qed.

Lemma observed_occurrences (k : value) (timestamp : string)
      (rows : list snapshot_row) :
  forall db,
    List.length (observed k (observations timestamp rows db))
    = List.length (occurrences k rows).
Proof.
  unfold observed, occurrences.
  induction rows as [|row rest IH]; intros db; [reflexivity|].
  cbn [observations filter observation_of ph_product_code].
  destruct (value_eqb k (stored_code row)); cbn [List.length];
    now rewrite IH.
Qed.

Lemma null_coded_upsert (now : string) (row : snapshot_row) (db : database) :
  List.length (filter null_coded (products (upsert_effect now row db)))
  = List.length (filter null_coded (products db))
    + List.length (occurrences Null [row]).
Proof.
  cbn [upsert_effect products]. rewrite filter_app, length_app.
  rewrite filter_disjoint.
  - f_equal. unfold occurrences, null_coded. cbn [filter record_of product_code].
    destruct (stored_code row); reflexivity.
  - intros x Hx. unfold null_coded in Hx.
    destruct (product_code x) eqn:E; try discriminate.
    destruct (stored_code row); cbn [has_code]; [reflexivity| |];
      rewrite E; reflexivity.
Qed.

Lemma null_coded_upsert_loop (eng : engine) (rows : list snapshot_row) :
  forall n db,
    List.length (filter null_coded (products (upsert_loop eng n rows db)))
    = List.length (filter null_coded (products db))
      + List.length (occurrences Null rows).
Proof.
  induction rows as [|row rest IH]; intros n db.
  - cbn. now rewrite Nat.add_0_r.
  - cbn [upsert_loop]. rewrite IH, null_coded_upsert.
    unfold occurrences. cbn [filter].
    destruct (value_eqb Null (stored_code row)); cbn [List.length]; lia.
Qed.

(** A statement that goes through keeps the price_history rows of
    [db0]. *)
Lemma statement_extends_history (db0 : database) (now : string)
      (s : statement) (d d' : database) :
  history_extends db0 d -> run_statement now s d = Return d' ->
  history_extends db0 d'.
Proof.
  intros [added Hd] Hrun.
  destruct (run_statement_inv now s d d' Hrun)
    as [[new_row ->]|[rec [_ ->]]]; cbn [price_history].
  - exists added. exact Hd.
  - exists (added ++ [rec]). rewrite Hd. now rewrite app_assoc.
Qed.

(** A statement that goes through keeps a row for every code of [db0]. *)
Lemma statement_retains_products (db0 : database) (now : string)
      (s : statement) (d d' : database) :
  retains_products db0 d -> run_statement now s d = Return d' ->
  retains_products db0 d'.
Proof.
  intros Hd Hrun r Hr. destruct (Hd r Hr) as (r' & Hin & Hc).
  destruct (run_statement_inv now s d d' Hrun)
    as [[new_row ->]|[rec [_ ->]]]; cbn [products].
  - destruct (has_code (product_code new_row) r') eqn:E.
    + exists new_row. split; [apply in_or_app; right; now left|].
      apply has_code_true in E. congruence.
    + exists r'. split; [|exact Hc]. apply in_or_app. left.
      apply filter_In. split; [exact Hin|]. now rewrite E.
  - exists r'. split; assumption.
Qed.

Lemma history_extends_refl (db : database) : history_extends db db.
Proof. exists []. now rewrite app_nil_r. Qed.

Lemma retains_products_refl (db : database) : retains_products db db.
Proof. intros r Hr. exists r. split; [exact Hr|reflexivity]. Qed.

End RunFacts.

(** X1.  price_history is append-only: after any call of [update_database],
    committed or rolled back, the table still starts with the rows it had,
    unchanged and in the same order. *)
Theorem price_history_is_append_only
        (eng : Sqlite.engine) (timestamp : string) (df : list snapshot_row)
        (db : Sqlite.database) :
  Invariants.history_extends db (fst (update_database eng timestamp df db)).
Proof.
  apply (RunFacts.update_database_invariant (Invariants.history_extends db)).
  - intros now s d d'. apply RunFacts.statement_extends_history.
  - apply RunFacts.history_extends_refl.
Qed.

(** X2.  No product is ever removed: every product code in the products
    table before a call of [update_database] has a row after it. *)
Theorem products_are_never_removed
        (eng : Sqlite.engine) (timestamp : string) (df : list snapshot_row)
        (db : Sqlite.database) :
  Invariants.retains_products db (fst (update_database eng timestamp df db)).
Proof.
  apply (RunFacts.update_database_invariant (Invariants.retains_products db)).
  - intros now s d d'. apply RunFacts.statement_retains_products.
  - apply RunFacts.retains_products_refl.
Qed.

(** X3.  The primary key holds across runs: if no two products rows share a
    code that is not NULL before a call of [update_database], none do after
    it. *)
Theorem primary_key_is_preserved
        (eng : Sqlite.engine) (timestamp : string) (df : list snapshot_row)
        (db : Sqlite.database) :
  Invariants.unique_codes db ->
  Invariants.unique_codes (fst (update_database eng timestamp df db)).
Proof.
  apply (RunFacts.update_database_invariant Invariants.unique_codes).
  intros now s d d' Hd Hrun k Hk.
  destruct (RunFacts.run_statement_inv now s d d' Hrun)
    as [[new_row ->]|[rec [_ ->]]]; cbn [Sqlite.products]; [|now apply Hd].
  rewrite filter_app, length_app. cbn [filter].
  destruct (Sqlite.has_code k new_row) eqn:E; cbn [List.length].
  - apply RunFacts.has_code_true in E. subst k.
    rewrite LedgerFacts.filter_complement. cbn. lia.
  - pose proof (RunFacts.filter_filter_le (Sqlite.has_code k)
                  (fun r => negb (Sqlite.has_code
                                    (Sqlite.product_code new_row) r))
                  (Sqlite.products d)).
    specialize (Hd k Hk). lia.
Qed.

(** X4.  The ids of price_history stay strictly increasing along the table
    (hence distinct) across any call of [update_database]. *)
Theorem price_ids_stay_increasing
        (eng : Sqlite.engine) (timestamp : string) (df : list snapshot_row)
        (db : Sqlite.database) :
  Invariants.ids_increasing db ->
  Invariants.ids_increasing (fst (update_database eng timestamp df db)).
Proof.
  apply (RunFacts.update_database_invariant Invariants.ids_increasing).
  intros now s d d' Hd Hrun.
  destruct (RunFacts.run_statement_inv now s d d' Hrun)
    as [[new_row ->]|[rec [Hid ->]]]; unfold Invariants.ids_increasing in *;
    cbn [Sqlite.price_history]; [exact Hd|].
  rewrite map_app. cbn [map]. apply RunFacts.sorted_snoc; [exact Hd|].
  rewrite Hid. unfold Sqlite.next_id.
  destruct (RunFacts.fold_max_bounds (map Sqlite.id (Sqlite.price_history d))
                                     (Sqlite.sqlite_sequence d)) as [_ H].
  eapply Forall_impl; [|exact H]. cbn. intros x Hx. lia.
Qed.

(** X5.  A call of [update_database] commits exactly when the snapshot is
    not empty, none of its writes fails (no upsert and no price insert is
    refused by the engine or has a parameter that cannot be bound) and the
    engine accepts the commit. *)
Theorem update_commits_iff_every_write_succeeds
        (eng : Sqlite.engine) (timestamp : string) (df : list snapshot_row)
        (db : Sqlite.database) :
  snd (update_database eng timestamp df db) = Updated
  <-> df <> [] /\ Invariants.run_goes_through eng timestamp df.
Proof.
  unfold update_database, Invariants.run_goes_through.
  destruct df as [|row rest].
  - split; [discriminate|]. intros [H _]. contradiction.
  - rewrite TransactionFacts.body_as_writes.
    set (stmts := Transaction.writes timestamp (row :: rest)). split.
    + intros H. split; [discriminate|].
      destruct (Sqlite.for_each stmts (Sqlite.execute eng)
                                (Sqlite.connect db))
        as [[[]|e] conn'] eqn:E; [|discriminate H].
      pose proof (RunFacts.for_each_returned_calls eng stmts _ _ _ E) as Hc.
      cbn [Sqlite.connect Sqlite.calls] in Hc. split.
      * intros k s Hk. destruct (Transaction.write_fails eng k s) eqn:F;
          [|reflexivity].
        destruct (TransactionFacts.for_each_fails eng stmts
                    (Sqlite.connect db) k s Hk F) as (e & He).
        rewrite E in He. discriminate He.
      * unfold Sqlite.commit in H. rewrite Hc in H. cbn [Nat.add] in H.
        destruct (Sqlite.refuses eng (List.length stmts));
          [discriminate H|reflexivity].
    + intros [_ [Hok Hcommit]].
      destruct (RunFacts.for_each_goes_through eng stmts (Sqlite.connect db)
                  Hok) as (conn' & -> & Hc).
      cbn [Sqlite.connect Sqlite.calls Nat.add] in Hc.
      unfold Sqlite.commit. rewrite Hc, Hcommit. reflexivity.
Qed.

(** X6.  A committed run adds to price_history, for every product code, as
    many rows as the snapshot has rows with that code: a product listed
    twice in one snapshot gets two observations. *)
Theorem observations_match_occurrences
        (eng : Sqlite.engine) (timestamp : string) (df : list snapshot_row)
        (db : Sqlite.database) (k : Sqlite.value) :
  Reconciler.obliging eng ->
  forallb Reconciler.persistable df = true ->
  List.length (Ledger.observed k
                 (Sqlite.price_history
                    (fst (update_database eng timestamp df db))))
  = (List.length (Ledger.observed k (Sqlite.price_history db))
     + List.length (Invariants.occurrences k df))%nat.
Proof.
  intros Ho Hp. destruct df as [|row rest].
  - cbn. now rewrite Nat.add_0_r.
  - rewrite (ReconcilerFacts.update_database_commits eng timestamp _ db Ho Hp)
      by discriminate.
    cbn [fst].
    rewrite LedgerFacts.price_loop_history, LedgerFacts.upsert_loop_history.
    unfold Ledger.observed at 1. rewrite filter_app, length_app. f_equal.
    apply RunFacts.observed_occurrences.
Qed.

(** X7.  Rows without a product code are never merged: a committed run adds
    one products row with a NULL code for every snapshot row that has no
    product code, and keeps those that were there. *)
Theorem rows_without_code_accumulate
        (eng : Sqlite.engine) (timestamp : string) (df : list snapshot_row)
        (db : Sqlite.database) :
  Reconciler.obliging eng ->
  forallb Reconciler.persistable df = true ->
  List.length (filter Invariants.null_coded
                      (Sqlite.products
                         (fst (update_database eng timestamp df db))))
  = (List.length (filter Invariants.null_coded (Sqlite.products db))
     + List.length (Invariants.occurrences Sqlite.Null df))%nat.
Proof.
  intros Ho Hp. destruct df as [|row rest].
  - cbn. now rewrite Nat.add_0_r.
  - rewrite (ReconcilerFacts.update_database_commits eng timestamp _ db Ho Hp)
      by discriminate.
    cbn [fst]. rewrite LedgerFacts.price_loop_products.
    apply RunFacts.null_coded_upsert_loop.
Qed.


(** ** The fan-in loop *)

Section FanIn.

Variable container_repr : json -> string.
Variable deeplink_query : string -> outcome (Py.dict (list string)).
Variable urlparse_path : string -> outcome string.

Local Abbreviation worker :=
  (process_single_url container_repr deeplink_query urlparse_path).
Local Abbreviation gather :=
  (collect container_repr deeplink_query urlparse_path).
Local Abbreviation stuck :=
  (hangs container_repr deeplink_query urlparse_path).
Local Abbreviation frames :=
  (frames_of container_repr deeplink_query urlparse_path).
Local Abbreviation run :=
  (crawler_run container_repr deeplink_query urlparse_path).

(** When every worker returns, the aggregate holds the non-empty frames in
    completion order. *)
Lemma gather_frames (fuel : nat) (network : string -> session) :
  forall completed all_data,
    existsb (stuck fuel network) completed = false ->
    gather fuel network completed all_data
    = Some (all_data ++ flat_map (frames fuel network) completed).
Proof.
  induction completed as [|u rest IH]; intros all_data H.
  - cbn. now rewrite app_nil_r.
  - cbn [existsb] in H. apply orb_false_iff in H. destruct H as [Hu Hrest].
    cbn [collect flat_map]. unfold hangs in Hu. unfold frames_of at 1.
    destruct (worker fuel (network u) u) as [[[|row rows]|e]|];
      try discriminate; rewrite (IH _ Hrest); try reflexivity.
    now rewrite <- app_assoc.
Qed.

(** When some worker does not return, neither does the loop. *)
Lemma gather_stuck (fuel : nat) (network : string -> session) :
  forall completed all_data,
    existsb (stuck fuel network) completed = true ->
    gather fuel network completed all_data = None.
Proof.
  induction completed as [|u rest IH]; intros all_data H; [discriminate|].
  cbn [existsb] in H. cbn [collect]. unfold hangs in H at 1.
  destruct (worker fuel (network u) u) as [[[|row rows]|e]|];
    try reflexivity; cbn [orb] in H; now apply IH.
Qed.

Lemma existsb_permutation {A} (f : A -> bool) (l l' : list A) :
  Permutation l l' -> existsb f l = existsb f l'.
Proof.
  intros H. induction H; cbn [existsb].
  - reflexivity.
  - now rewrite IHPermutation.
  - destruct (f x), (f y); reflexivity.
  - congruence.
Qed.

Lemma concat_permutation {A} (l l' : list (list A)) :
  Permutation l l' -> Permutation (List.concat l) (List.concat l').
Proof.
  intros H. induction H; cbn [List.concat].
  - constructor.
  - now apply Permutation_app_head.
  - rewrite !app_assoc. apply Permutation_app_tail. apply Permutation_app_comm.
  - eapply Permutation_trans; eassumption.
Qed.

(** A worker whose landing page gives no identifier returns the empty
    frame. *)
Lemma undiscoverable_worker (fuel : nat) (sess : session) (url : string) :
  undiscoverable deeplink_query sess url ->
  worker fuel sess url = Some (Return []).
Proof.
  intros [[e He]|H]; apply worker_without_identifier.
  - now apply transport_failure_None with (e := e).
  - now apply lacks_identifier_None.
Qed.

(** X8.  The order in which the futures complete does not matter to what is
    collected: for two completion orders of the same categories, either the
    loop ends in neither, or it ends in both with the same frames, and hence
    the same snapshot rows, up to their order. *)
Theorem completion_order_is_immaterial
        (fuel : nat) (network : string -> session)
        (completed completed' : list string) :
  Permutation completed completed' ->
  match gather fuel network completed [], gather fuel network completed' []
  with
  | Some all_data, Some all_data' =>
      Permutation all_data all_data'
      /\ Permutation (List.concat all_data) (List.concat all_data')
  | None, None => True
  | _, _ => False
  end.
Proof.
  intros H.
  pose proof (existsb_permutation (stuck fuel network) _ _ H) as He.
  destruct (existsb (stuck fuel network) completed) eqn:E.
  - rewrite (gather_stuck fuel network completed [] E).
    rewrite (gather_stuck fuel network completed' [] (eq_sym He)). exact I.
  - rewrite (gather_frames fuel network completed [] E).
    rewrite (gather_frames fuel network completed' [] (eq_sym He)).
    cbn [app].
    assert (Hp : Permutation (flat_map (frames fuel network) completed)
                             (flat_map (frames fuel network) completed'))
      by now apply Permutation_flat_map.
    split; [exact Hp|now apply concat_permutation].
Qed.

(** X9.  When no landing page gives an identifier (the request fails in
    transport, or the page lacks the tag, its content or the conceptid
    parameter), the run collects nothing and performs no write:
    the file is what [init_db] left. *)
Theorem nothing_discovered_nothing_written
        (fuel : nat) (network : string -> session) (completed : list string)
        (eng : Sqlite.engine) (timestamp : string)
        (file : option Sqlite.database) :
  (forall u, In u completed -> undiscoverable deeplink_query (network u) u) ->
  run fuel network completed eng timestamp file = Some (init_db file, NoData).
Proof.
  intros H. unfold crawler_run.
  assert (Hg : forall all_data,
             gather fuel network completed all_data = Some all_data).
  { induction completed as [|u rest IH]; intros all_data; [reflexivity|].
    cbn [collect].
    rewrite (undiscoverable_worker fuel (network u) u (H u (or_introl eq_refl))).
    apply IH. intros v Hv. apply H. now right. }
  now rewrite Hg.
Qed.

(** X20.  A run of the crawler on an existing file loses nothing of it:
    whatever the network answers and whether the run commits, is rolled
    back or collects nothing, every price_history row of the file is still
    there, unchanged and in place, and every product code still has a
    row. *)
Theorem crawler_run_keeps_the_file
        (fuel : nat) (network : string -> session) (completed : list string)
        (eng : Sqlite.engine) (timestamp : string)
        (db db' : Sqlite.database) (status : update_status) :
  run fuel network completed eng timestamp (Some db) = Some (db', status) ->
  Invariants.history_extends db db' /\ Invariants.retains_products db db'.
Proof.
  unfold crawler_run. cbn [init_db].
  destruct (gather fuel network completed []) as [[|df rest]|];
    [| |discriminate]; intros H; inversion H.
  - split.
    + apply RunFacts.history_extends_refl.
    + apply RunFacts.retains_products_refl.
  - assert (Hboth : (fun d => Invariants.history_extends db d
                              /\ Invariants.retains_products db d)
                      (fst (update_database eng timestamp
                              (List.concat (df :: rest)) db))).
    { apply RunFacts.update_database_invariant.
      - intros now s d d' [He Hr] Hrun. split.
        + exact (RunFacts.statement_extends_history db now s d d' He Hrun).
        + exact (RunFacts.statement_retains_products db now s d d' Hr Hrun).
      - split.
        + apply RunFacts.history_extends_refl.
        + apply RunFacts.retains_products_refl. }
    cbn [List.concat] in Hboth. rewrite H1 in Hboth. exact Hboth.
Qed.

End FanIn.


(** ** More on [fetch_nike_products] *)

Section FetchShape.

Variable container_repr : json -> string.

Local Abbreviation fetch := (fetch_nike_products container_repr).
Local Abbreviation loop := (pagination container_repr).
Local Abbreviation step := (page_step container_repr).
Local Abbreviation cursor_url := (next_url container_repr).
Local Abbreviation chain := (serves container_repr).
Local Abbreviation fails := (request_fails container_repr).

Lemma prepend_Some (t0 : list event)
      (r : option (outcome (list (list product_row)) * list event))
      (o : outcome (list (list product_row))) (t : list event) :
  prepend t0 r = Some (o, t) -> exists t1, r = Some (o, t1) /\ t = t0 ++ t1.
Proof.
  destruct r as [[o1 t1]|]; cbn; [|discriminate].
  intros H. inversion H; subst. eauto.
Qed.

Lemma pagination_from_nil (sess : session) (fuel n : nat) (next_page : json)
      (acc : list (list product_row)) (trace : list event) :
  loop fuel sess n next_page acc trace
  = prepend trace (loop fuel sess n next_page acc []).
Proof.
  rewrite <- (app_nil_r trace) at 1. apply pagination_prepend.
Qed.

(** The loop appends one step per turn, each for a cursor that is set. *)
Lemma pagination_steps (sess : session) (fuel : nat) :
  forall n next_page acc o t,
    loop fuel sess n next_page acc [] = Some (o, t) ->
    exists steps,
      t = flat_map step steps
      /\ Forall (fun s => Py.truthy (fst s) = true) steps.
Proof.
  induction fuel as [|fuel IH]; intros n np acc o t.
  - cbn. destruct (Py.truthy np); [discriminate|].
    intros H. inversion H. exists []. split; [reflexivity|constructor].
  - cbn -[String.append parse_response Py.truthy next_page_of].
    destruct (Py.truthy np) eqn:Enp.
    2: { intros H. inversion H. exists []. split; [reflexivity|constructor]. }
    assert (Hone : forall o', Some (o', [Sleep; Get (cursor_url np)])
                              = Some (o, t) ->
                   exists steps, t = flat_map step steps
                     /\ Forall (fun s => Py.truthy (fst s) = true) steps).
    { intros o' H. inversion H. exists [(np, false)].
      split; [reflexivity|]. constructor; [exact Enp|constructor]. }
    fold (cursor_url np).
    destruct (sess n (cursor_url np)) as [r|e];
      cbn -[String.append parse_response Py.truthy next_page_of];
      [|apply Hone].
    destruct (json_body r) as [data|e];
      cbn -[String.append parse_response Py.truthy next_page_of];
      [|apply Hone].
    destruct (next_page_of data) as [np'|e]; [|apply Hone].
    intros H. rewrite pagination_from_nil in H.
    apply prepend_Some in H. destruct H as (t1 & Hloop & Ht).
    assert (Hpre : t = step (np, Py.truthy np') ++ t1).
    { rewrite Ht. unfold page_step.
      destruct (Py.truthy np'); reflexivity. }
    clear Ht. revert Hpre Hloop. intros -> Hloop.
    destruct (IH _ _ _ _ _ Hloop) as (steps & -> & Hall).
    exists ((np, Py.truthy np') :: steps). split; [reflexivity|].
    constructor; [exact Enp|exact Hall].
Qed.

(** X10.  The trace of every fetch that returns has one shape: the initial
    request alone when the first page could not be used; otherwise the
    initial request, the creation of the bar, and then, for each turn of the
    loop, a sleep, a request to https://api.nike.com followed by the cursor
    (which is set), and at most one bar update.  No request of the loop is
    made without a sleep just before it. *)
Theorem fetch_trace_shape
        (fuel : nat) (sess : session) (n : nat) (url category : string)
        (df : list snapshot_row) (trace : list event) :
  fetch fuel sess n url category = Some (df, trace) ->
  (trace = [Get url] /\ df = [])
  \/ exists total_pages steps,
       trace = Get url :: ProgressBar total_pages :: flat_map step steps
       /\ Forall (fun s => Py.truthy (fst s) = true) steps.
Proof.
  unfold fetch_nike_products.
  destruct (initial_page sess n url) as [[[data tp] np]|e].
  2: { intros H. inversion H. left. split; reflexivity. }
  rewrite pagination_from_nil.
  destruct (loop fuel sess (S n) np (parse_response data) [])
    as [[o t1]|] eqn:E; cbn [prepend]; [|discriminate].
  destruct (pagination_steps sess fuel _ _ _ _ _ E) as (steps & -> & Hall).
  intros H. right. exists tp, steps. split; [|exact Hall].
  destruct o as [[|f fs]|e]; inversion H; reflexivity.
Qed.

(** Every row of a fetched frame carries the category it was fetched
    for. *)
Lemma fetch_tags (fuel : nat) (sess : session) (n : nat)
      (url name : string) (df : list snapshot_row) (trace : list event) :
  fetch fuel sess n url name = Some (df, trace) ->
  forall row, In row df -> category row = name.
Proof.
  unfold fetch_nike_products.
  destruct (initial_page sess n url) as [[[data tp] np]|e].
  2: { intros H. inversion H. contradiction. }
  destruct (loop fuel sess (S n) np (parse_response data) _)
    as [[[[|f fs]|e] t1]|]; intros H; inversion H; try contradiction.
  intros row Hin. unfold tag_category in Hin. apply in_map_iff in Hin.
  destruct Hin as (r & <- & _). reflexivity.
Qed.

(** The first page, when it is served and reports a count. *)
Lemma initial_page_served (sess : session) (n : nat) (url : string)
      (r : response) (data : json) (pages : Py.dict json)
      (total total_pages : Z) (next_page : json) :
  sess n url = Return r ->
  json_body r = Return data ->
  Py.getitem data "pages" = Return (JObj pages) ->
  Py.dict_get "totalResources" pages = Some (JNum total) ->
  total_pages_of (JNum total) = Return total_pages ->
  next_page_of data = Return next_page ->
  initial_page sess n url = Return (data, total_pages, next_page).
Proof.
  intros Hr Hj Hp Ht Htp Hn. unfold initial_page.
  rewrite Hr. cbn [bind]. rewrite Hj. cbn [bind]. rewrite Hp. cbn [bind].
  unfold Py.getitem at 1. rewrite Ht. cbn [bind].
  rewrite Htp. cbn [bind]. rewrite Hn. reflexivity.
Qed.

Lemma pagination_fail_step (fuel : nat) (sess : session) (n : nat)
      (next_page : json) (acc : list (list product_row))
      (trace : list event) :
  Py.truthy next_page = true ->
  fails sess n next_page ->
  exists e,
    loop (S fuel) sess n next_page acc trace
    = Some (Raise e, trace ++ [Sleep; Get (cursor_url next_page)]).
Proof.
  intros Ht [e He]. unfold next_url in *.
  cbn -[String.append parse_response Py.truthy next_page_of].
  rewrite Ht.
  destruct (sess n _) as [r|e'];
    cbn -[String.append parse_response Py.truthy next_page_of] in He |- *.
  - rewrite He. eexists. reflexivity.
  - eexists. reflexivity.
Qed.

(** Pages served along the chain, then a request that fails: the loop
    raises, having made one request per page and the failed one. *)
Lemma pagination_aborts (sess : session) (pages : list json) :
  forall (fuel n : nat) (next_page : json)
         (acc : list (list product_row)) (trace : list event) (final : json),
    Py.truthy next_page = true ->
    chain sess n (cursor_url next_page) pages ->
    final_cursor next_page pages final ->
    Py.truthy final = true ->
    fails sess (n + List.length pages) final ->
    (List.length pages < fuel)%nat ->
    exists e trace',
      loop fuel sess n next_page acc trace = Some (Raise e, trace')
      /\ gets trace' = (gets trace + List.length pages + 1)%nat.
Proof.
  induction pages as [|data rest IH];
    intros fuel n np acc trace final Ht Hs Hfin Htf Hfail Hfuel;
    (destruct fuel as [|fuel]; [cbn in Hfuel; lia|]).
  - cbn in Hfin. subst final. cbn [List.length] in Hfail.
    rewrite Nat.add_0_r in Hfail.
    destruct (pagination_fail_step fuel sess n np acc trace Ht Hfail)
      as (e & He).
    exists e. eexists. split; [exact He|].
    unfold gets. rewrite filter_app, length_app. cbn. lia.
  - destruct Hs as ((r & Hr & Hj) & Hrest).
    cbn [List.length] in Hfail, Hfuel. rewrite Nat.add_succ_r in Hfail.
    destruct rest as [|data' rest'].
    + cbn in Hfin.
      rewrite (pagination_step container_repr fuel sess n np acc trace r data
                 final Ht Hr Hj Hfin). rewrite Htf.
      destruct (IH fuel (S n) final (acc ++ parse_response data)
                   ((trace ++ [Sleep; Get (cursor_url np)])
                      ++ [ProgressUpdate]) final)
        as (e & trace' & Heq & Hg); try assumption; try reflexivity.
      * cbn [List.length] in *. lia.
      * exists e, trace'. split; [exact Heq|]. rewrite Hg.
        unfold gets. rewrite !filter_app, !length_app. cbn. lia.
    + destruct Hrest as (np' & Hn & Ht' & Hs').
      rewrite (pagination_step container_repr fuel sess n np acc trace r data
                 np' Ht Hr Hj Hn). rewrite Ht'.
      destruct (IH fuel (S n) np' (acc ++ parse_response data)
                   ((trace ++ [Sleep; Get (cursor_url np)])
                      ++ [ProgressUpdate]) final)
        as (e & trace' & Heq & Hg); try assumption.
      * cbn [List.length] in *. lia.
      * exists e, trace'. split; [exact Heq|]. rewrite Hg.
        unfold gets. rewrite !filter_app, !length_app. cbn. lia.
Qed.

(** X11.  A request that fails in the middle of the pagination costs the
    category everything: when the pages [data :: rest] were served along the
    cursor chain and the request for the next cursor fails (in transport, or
    with a body that is not JSON), the fetch returns the empty frame, not
    the rows of the pages it had already parsed. *)
Theorem failed_page_discards_the_category
        (sess : session) (n : nat) (url category : string)
        (data : json) (rest : list json) (final : json)
        (pages : Py.dict json) (total total_pages : Z) (fuel : nat) :
  chain sess n url (data :: rest) ->
  next_page_of (List.last (data :: rest) JNull) = Return final ->
  Py.truthy final = true ->
  fails sess (n + List.length (data :: rest)) final ->
  Py.getitem data "pages" = Return (JObj pages) ->
  Py.dict_get "totalResources" pages = Some (JNum total) ->
  total_pages_of (JNum total) = Return total_pages ->
  (List.length rest < fuel)%nat ->
  exists trace,
    fetch fuel sess n url category = Some ([], trace)
    /\ gets trace = (List.length (data :: rest) + 1)%nat.
Proof.
  intros Hs Hfin Htf Hfail Hp Ht Htp Hfuel.
  destruct Hs as ((r & Hr & Hj) & Hrest).
  cbn [List.length] in Hfail. rewrite Nat.add_succ_r in Hfail.
  assert (Hloop : exists np,
             next_page_of data = Return np
             /\ Py.truthy np = true
             /\ chain sess (S n) (cursor_url np) rest
             /\ final_cursor np rest final).
  { destruct rest as [|data' rest'].
    - exists final. cbn in Hfin. split; [exact Hfin|]. split; [exact Htf|].
      split; [exact I|reflexivity].
    - destruct Hrest as (np & Hn & Htr & Hs').
      exists np. split; [exact Hn|]. split; [exact Htr|].
      split; [exact Hs'|exact Hfin]. }
  destruct Hloop as (np & Hn & Htr & Hs' & Hfc).
  pose proof (initial_page_served sess n url r data pages total total_pages np
                Hr Hj Hp Ht Htp Hn) as Hinit.
  destruct (pagination_aborts sess rest fuel (S n) np (parse_response data)
              [Get url; ProgressBar total_pages] final Htr Hs' Hfc Htf Hfail
              Hfuel) as (e & trace' & Heq & Hg).
  exists trace'. split.
  - unfold fetch_nike_products. rewrite Hinit, Heq. reflexivity.
  - rewrite Hg. cbn. lia.
Qed.

(** X12.  Without a count the first page is thrown away: when the "pages"
    object of the first response has no totalResources, or one that is not
    a number, the fetch returns the empty frame after that single request,
    whatever products the page lists. *)
Theorem fetch_needs_the_reported_count
        (fuel : nat) (sess : session) (n : nat) (url category : string)
        (r : response) (data : json) (pages : Py.dict json) :
  sess n url = Return r ->
  json_body r = Return data ->
  Py.getitem data "pages" = Return (JObj pages) ->
  lacks_total pages ->
  fetch fuel sess n url category = Some ([], [Get url]).
Proof.
  intros Hr Hj Hp Hl. unfold fetch_nike_products, initial_page.
  rewrite Hr. cbn [bind]. rewrite Hj. cbn [bind]. rewrite Hp. cbn [bind].
  unfold lacks_total in Hl. unfold Py.getitem at 1.
  destruct (Py.dict_get "totalResources" pages) as [total|]; [|reflexivity].
  destruct Hl as [e He]. cbn [bind]. unfold total_pages_of. rewrite He.
  reflexivity.
Qed.



End FetchShape.


(** ** The categories of the snapshot *)

Section SnapshotCategories.

Variable container_repr : json -> string.
Variable deeplink_query : string -> outcome (Py.dict (list string)).
Variable urlparse_path : string -> outcome string.

Local Abbreviation worker :=
  (process_single_url container_repr deeplink_query urlparse_path).
Local Abbreviation gather :=
  (collect container_repr deeplink_query urlparse_path).

Lemma worker_tags (fuel : nat) (sess : session) (url : string)
      (df : list snapshot_row) :
  worker fuel sess url = Some (Return df) ->
  forall row, In row df -> category row = category_of_url url.
Proof.
  unfold process_single_url.
  destruct (extract_concept_ids deeplink_query sess url) as [[[|c s]|]|e];
    try (intros H; inversion H; contradiction).
  destruct (extract_path_from_url urlparse_path url) as [path|e];
    [|discriminate].
  destruct (fetch_nike_products container_repr fuel sess 1 _ _)
    as [[df' trace]|] eqn:E; [|discriminate].
  intros H. inversion H; subst.
  exact (fetch_tags container_repr fuel sess 1 _ _ df trace E).
Qed.

(** X14.  Every row of the aggregated snapshot carries the category name
    derived from the URL of one of the categories that completed. *)
Theorem snapshot_rows_carry_a_configured_category
        (fuel : nat) (network : string -> session) (completed : list string)
        (all_data : list (list snapshot_row)) :
  gather fuel network completed [] = Some all_data ->
  forall row, In row (List.concat all_data) ->
              exists url, In url completed
                          /\ category row = category_of_url url.
Proof.
  intros Hg row Hrow.
  destruct (existsb (hangs container_repr deeplink_query urlparse_path
                           fuel network) completed) eqn:E.
  - rewrite (gather_stuck container_repr deeplink_query urlparse_path
               fuel network completed [] E) in Hg. discriminate.
  - rewrite (gather_frames container_repr deeplink_query urlparse_path
               fuel network completed [] E) in Hg.
    inversion Hg; subst. cbn [app] in Hrow.
    apply in_concat in Hrow. destruct Hrow as (df & Hdf & Hin).
    apply in_flat_map in Hdf. destruct Hdf as (url & Hurl & Hframe).
    exists url. split; [exact Hurl|].
    unfold frames_of in Hframe.
    destruct (worker fuel (network url) url) as [[[|r rs]|e]|] eqn:Ew;
      try contradiction.
    destruct Hframe as [<-|[]].
    exact (worker_tags fuel (network url) url _ Ew row Hin).
Qed.

End SnapshotCategories.

(** ** More on [parse_response] *)

Lemma first_variants_not_a_dict (groupings : list json) (g : json) :
  In g groupings -> Py.is_dict g = false ->
  exists e, first_variants groupings = Raise e.
Proof.
  intros Hin Hg. induction groupings as [|g0 rest IH]; [contradiction|].
  cbn [first_variants]. destruct Hin as [->|Hin].
  - destruct g; try discriminate; cbn; eauto.
  - destruct (IH Hin) as (e & He).
    destruct (Py.get g0 "products") as [p|e0]; cbn [bind]; [|eauto].
    destruct (Py.truthy p); [|eauto].
    destruct (Py.first p) as [x|e1]; cbn [bind]; [|eauto].
    rewrite He. cbn [bind]. eauto.
Qed.

(** X15.  [parse_response] returns either no frame or exactly one frame
    that has at least one row: it never returns an empty frame. *)
Theorem parse_response_frame_is_never_empty (response_json : json) :
  parse_response response_json = []
  \/ exists row rows, parse_response response_json = [row :: rows].
Proof.
  unfold parse_response, parse_response_body.
  destruct (Py.getitem response_json "productGroupings") as [g|e];
    cbn [bind try_except]; [|now left].
  destruct (Py.iter g) as [items|e]; cbn [bind try_except]; [|now left].
  destruct (first_variants items) as [firsts|e];
    cbn [bind try_except]; [|now left].
  destruct (Pandas.json_normalize firsts) as [df|e];
    cbn [bind try_except]; [|now left].
  unfold select_parse_columns.
  destruct df as [|d df]; [now left|].
  destruct (forallb _ parse_columns); cbn [bind try_except]; [|now left].
  right. eexists. eexists. reflexivity.
Qed.

(** X16.  One grouping that is not an object costs the page all its rows:
    the comprehension raises on it, and [parse_response] returns no
    frame. *)
Theorem malformed_grouping_drops_the_page
        (items : Py.dict json) (groupings : list json) (g : json) :
  Py.dict_get "productGroupings" items = Some (JArr groupings) ->
  In g groupings ->
  Py.is_dict g = false ->
  parse_response (JObj items) = [].
Proof.
  intros Hg Hin Hd. unfold parse_response, parse_response_body.
  unfold Py.getitem. rewrite Hg. cbn [bind Py.iter].
  destruct (first_variants_not_a_dict groupings g Hin Hd) as (e & ->).
  reflexivity.
Qed.

(** ** The string helpers *)

Module Slug.

Lemma split_on_nonempty (sep : ascii) (s : string) : split_on sep s <> [].
Proof.
  destruct s as [|c s]; cbn; [discriminate|].
  destruct (Ascii.eqb c sep); [discriminate|].
  destruct (split_on sep s); discriminate.
Qed.

Lemma split_on_free (sep : ascii) (s : string) :
  free_of sep s = true -> split_on sep s = [s].
Proof.
  induction s as [|c s IH]; [reflexivity|]. cbn [free_of split_on].
  intros H. apply andb_prop in H. destruct H as [Hc Hs].
  apply negb_true_iff in Hc. rewrite Hc, (IH Hs). reflexivity.
Qed.

Lemma split_on_app (sep : ascii) (p s : string) :
  split_on sep (p ++ String sep s) = split_on sep p ++ split_on sep s.
Proof.
  induction p as [|c p IH]; cbn [String.append split_on].
  - now rewrite Ascii.eqb_refl.
  - destruct (Ascii.eqb c sep); [now rewrite IH|].
    rewrite IH. pose proof (split_on_nonempty sep p) as Hne.
    destruct (split_on sep p) as [|h t]; [contradiction|reflexivity].
Qed.

Lemma split_on_join (sep : ascii) (parts : list string) :
  parts <> [] ->
  forallb (free_of sep) parts = true ->
  split_on sep (String.concat (String sep "") parts) = parts.
Proof.
  induction parts as [|x rest IH]; intros Hne Hf; [contradiction|].
  cbn [forallb] in Hf. apply andb_prop in Hf. destruct Hf as [Hx Hrest].
  destruct rest as [|y rest'].
  - cbn. now apply split_on_free.
  - change (String.concat (String sep "") (x :: y :: rest'))
      with (x ++ String sep (String.concat (String sep "") (y :: rest')))%string.
    rewrite split_on_app, (split_on_free sep x Hx), IH;
      [reflexivity|discriminate|exact Hrest].
Qed.

Lemma free_of_app (c : ascii) (a b : string) :
  free_of c (a ++ b) = free_of c a && free_of c b.
Proof.
  induction a as [|x a IH]; [reflexivity|].
  cbn [String.append free_of]. rewrite IH. now rewrite andb_assoc.
Qed.

Lemma free_of_concat (c sep : ascii) (parts : list string) :
  Ascii.eqb sep c = false ->
  forallb (free_of c) parts = true ->
  free_of c (String.concat (String sep "") parts) = true.
Proof.
  intros Hsep. induction parts as [|x rest IH]; [reflexivity|].
  cbn [forallb]. intros H. apply andb_prop in H. destruct H as [Hx Hrest].
  destruct rest as [|y rest']; [exact Hx|].
  change (String.concat (String sep "") (x :: y :: rest'))
    with (x ++ String sep (String.concat (String sep "") (y :: rest')))%string.
  rewrite free_of_app, Hx. cbn [free_of andb]. rewrite Hsep. cbn [negb andb].
  now apply IH.
Qed.

Lemma last_app_nonempty {A} (l1 l2 : list A) (d : A) :
  l2 <> [] -> List.last (l1 ++ l2) d = List.last l2 d.
Proof.
  intros Hne. induction l1 as [|x l1 IH]; [reflexivity|].
  cbn [app]. destruct (l1 ++ l2) eqn:E.
  - destruct l1; [cbn in E; contradiction|discriminate].
  - cbn [List.last]. exact IH.
Qed.

Lemma forallb_slug (words : list string) :
  forallb slug_word words = true ->
  forallb (free_of "-") words = true /\ forallb (free_of "/") words = true.
Proof.
  induction words as [|w ws IH]; [split; reflexivity|].
  cbn [forallb]. intros H. apply andb_prop in H. destruct H as [Hw Hws].
  unfold slug_word in Hw. apply andb_prop in Hw. destruct Hw as [H1 H2].
  destruct (IH Hws) as [I1 I2]. rewrite H1, H2, I1, I2. split; reflexivity.
Qed.

Lemma lstrip_slash_spec (path : string) :
  exists k, path = (slashes k ++ lstrip_slash path)%string
            /\ starts_with_slash (lstrip_slash path) = false.
Proof.
  induction path as [|c path IH].
  - exists 0. split; reflexivity.
  - cbn [lstrip_slash]. destruct (Ascii.eqb c "/") eqn:E.
    + destruct IH as (k & Hk & Hs). apply Ascii.eqb_eq in E. subst c.
      exists (S k). split; [|exact Hs]. cbn [slashes String.append].
      now rewrite <- Hk.
    + exists 0. split; [reflexivity|]. cbn. exact E.
Qed.

End Slug.

(** X17.  The category name is read off the last path segment of the URL:
    for a URL ending in a slug of words joined by "-" and followed by an id,
    it is the words joined by spaces, the id being dropped.  In particular a
    last segment without any "-" gives the empty name. *)
Theorem category_is_the_slug_without_its_id
        (prefix : string) (words : list string) (id : string) :
  forallb slug_word (words ++ [id]) = true ->
  category_of_url (prefix ++ "/" ++ String.concat "-" (words ++ [id]))
  = String.concat " " words.
Proof.
  intros H. destruct (Slug.forallb_slug _ H) as [Hdash Hslash].
  unfold category_of_url.
  change (prefix ++ "/" ++ String.concat "-" (words ++ [id]))%string
    with (prefix ++ String "/" (String.concat "-" (words ++ [id])))%string.
  rewrite Slug.split_on_app.
  rewrite (Slug.split_on_free "/" (String.concat "-" (words ++ [id])))
    by (apply Slug.free_of_concat; [reflexivity|exact Hslash]).
  rewrite Slug.last_app_nonempty by discriminate. cbn [List.last].
  rewrite Slug.split_on_join;
    [|destruct words; discriminate|exact Hdash].
  now rewrite removelast_last.
Qed.

(** X18.  [extract_path_from_url] strips exactly the leading slashes of the
    URL's path: the path is the result preceded by some slashes, and the
    result does not start with one. *)
Theorem extracted_path_has_no_leading_slash
        (urlparse_path : string -> outcome string) (url path : string) :
  urlparse_path url = Return path ->
  exists stripped k,
    extract_path_from_url urlparse_path url = Return stripped
    /\ path = (slashes k ++ stripped)%string
    /\ starts_with_slash stripped = false.
Proof.
  intros H. unfold extract_path_from_url. rewrite H. cbn [bind].
  destruct (Slug.lstrip_slash_spec path) as (k & Hk & Hs).
  exists (lstrip_slash path), k. split; [reflexivity|]. split; assumption.
Qed.

(** X19.  [extract_concept_ids] returns an identifier exactly when the
    landing page came back, its deep-link tag has a non-empty content, and
    the query of that content has a "conceptid" parameter; the identifier
    is the first value of that parameter. *)
Theorem discovery_returns_the_first_conceptid
        (deeplink_query : string -> outcome (Py.dict (list string)))
        (sess : session) (url v : string) :
  extract_concept_ids deeplink_query sess url = Return (Some v)
  <-> exists r t content query_params others,
        sess 0%nat url = Return r
        /\ deeplink_tag r = Some t
        /\ Py.dict_get "content" (attrs t) = Some content
        /\ content <> ""
        /\ deeplink_query content = Return query_params
        /\ Py.dict_get "conceptid" query_params = Some (v :: others).
Proof.
  unfold extract_concept_ids, extract_concept_ids_body, deeplink_tag. split.
  - destruct (sess 0%nat url) as [r|e] eqn:Er; cbn [bind try_except];
      [|discriminate].
    destruct (soup_find (html r) _ _ _) as [t|] eqn:Et; [|discriminate].
    destruct (Py.dict_get "content" (attrs t)) as [[|c content]|] eqn:Ect;
      try discriminate.
    destruct (deeplink_query (String c content)) as [q|e] eqn:Eq;
      cbn [bind try_except]; [|discriminate].
    destruct (Py.dict_get "conceptid" q) as [[|v0 others]|] eqn:Ec;
      cbn [try_except]; try discriminate.
    intros H. inversion H; subst.
    exists r, t, (String c content), q, others.
    split; [reflexivity|]. split; [exact Et|]. split; [exact Ect|].
    split; [discriminate|]. split; [exact Eq|exact Ec].
  - intros (r & t & content & q & others & Hr & Ht & Hc & Hne & Hq & Hid).
    rewrite Hr. cbn [bind]. rewrite Ht, Hc.
    destruct content as [|c content]; [contradiction|].
    rewrite Hq. cbn [bind]. rewrite Hid. reflexivity.
Qed.


(** ** The further properties at work *)

(** X3 on the file of the earlier run. *)
Lemma primary_key_after_second_run :
  Invariants.unique_codes
    (fst (update_database Scenes.february "2025-02-01 05:30:00"
                          [Sample.pegasus; Sample.vomero] Sample.earlier)).
Proof.
  apply (primary_key_is_preserved Scenes.february "2025-02-01 05:30:00"
           [Sample.pegasus; Sample.vomero] Sample.earlier).
  intros k Hk. cbn.
  destruct (Sqlite.has_code k _); cbn; lia.
Defined.

(** X4 on the file of the earlier run. *)
Lemma price_ids_after_second_run :
  Invariants.ids_increasing
    (fst (update_database Scenes.february "2025-02-01 05:30:00"
                          [Sample.pegasus; Sample.vomero] Sample.earlier)).
Proof.
  apply (price_ids_stay_increasing Scenes.february "2025-02-01 05:30:00"
           [Sample.pegasus; Sample.vomero] Sample.earlier).
  unfold Invariants.ids_increasing. cbn. repeat constructor.
Defined.

(** X6: product A1 listed twice in one snapshot, on a file that has one
    observation of it. *)
Lemma listed_twice_observed_twice :
  List.length
    (Ledger.observed (Sqlite.Text "A1")
       (Sqlite.price_history
          (fst (update_database Scenes.february "2025-02-01 05:30:00"
                                [Sample.pegasus; Sample.pegasus]
                                Sample.earlier))))
  = 3%nat.
Proof.
  rewrite (observations_match_occurrences
             Scenes.february "2025-02-01 05:30:00"
             [Sample.pegasus; Sample.pegasus] Sample.earlier
             (Sqlite.Text "A1")).
  - reflexivity.
  - intros n. reflexivity.
  - reflexivity.
Defined.

(** X7: two rows without a code, on an empty file. *)
Lemma two_nameless_rows_two_products :
  List.length
    (filter Invariants.null_coded
            (Sqlite.products
               (fst (update_database Scenes.february "2025-02-01 05:30:00"
                                     [Scenes.nameless; Scenes.nameless]
                                     Sqlite.empty))))
  = 2%nat.
Proof.
  rewrite (rows_without_code_accumulate
             Scenes.february "2025-02-01 05:30:00"
             [Scenes.nameless; Scenes.nameless] Sqlite.empty).
  - reflexivity.
  - intros n. reflexivity.
  - reflexivity.
Defined.

(** X8 on the two sample categories, completing in either order. *)
Lemma kids_first_or_shoes_first :
  match collect Sample.repr Sample.query Sample.path 5 Sample.network
                [Sample.kids_url; Sample.shoes_url] [],
        collect Sample.repr Sample.query Sample.path 5 Sample.network
                [Sample.shoes_url; Sample.kids_url] []
  with
  | Some all_data, Some all_data' =>
      Permutation all_data all_data'
      /\ Permutation (List.concat all_data) (List.concat all_data')
  | None, None => True
  | _, _ => False
  end.
Proof.
  apply (completion_order_is_immaterial
           Sample.repr Sample.query Sample.path 5 Sample.network
           [Sample.kids_url; Sample.shoes_url]
           [Sample.shoes_url; Sample.kids_url]).
  apply perm_swap.
Defined.

(** X9 with the network down for every configured category. *)
Lemma offline_run_writes_nothing :
  crawler_run Sample.repr Sample.query Sample.path 5
              (fun _ => Sample.offline) URLS Scenes.february
              "2025-02-01 05:30:00" (Some Sample.earlier)
  = Some (Sample.earlier, NoData).
Proof.
  apply (nothing_discovered_nothing_written
           Sample.repr Sample.query Sample.path 5
           (fun _ => Sample.offline) URLS Scenes.february
           "2025-02-01 05:30:00" (Some Sample.earlier)).
  intros u _. left. exists RequestsError. reflexivity.
Defined.

(** X20 on the two sample categories and the file of the earlier run. *)
Lemma second_crawl_keeps_the_first :
  exists db' status,
    crawler_run Sample.repr Sample.query Sample.path 5 Sample.network
                [Sample.kids_url; Sample.shoes_url] Scenes.february
                "2025-02-01 05:30:00" (Some Sample.earlier)
    = Some (db', status)
    /\ Invariants.history_extends Sample.earlier db'
    /\ Invariants.retains_products Sample.earlier db'.
Proof.
  pose proof (crawler_run_keeps_the_file
                Sample.repr Sample.query Sample.path 5 Sample.network
                [Sample.kids_url; Sample.shoes_url] Scenes.february
                "2025-02-01 05:30:00" Sample.earlier) as H.
  destruct (crawler_run Sample.repr Sample.query Sample.path 5 Sample.network
                        [Sample.kids_url; Sample.shoes_url] Scenes.february
                        "2025-02-01 05:30:00" (Some Sample.earlier))
    as [[db' status]|] eqn:E; [|vm_compute in E; discriminate E].
  exists db', status. split; [reflexivity|]. apply (H db' status eq_refl).
Defined.

(** X10 on the two-page session. *)
Lemma two_page_fetch_has_the_shape :
  exists df trace,
    fetch_nike_products Sample.repr 5 Sample.shoes_session 1 Sample.api_url
                        "mens shoes" = Some (df, trace)
    /\ ((trace = [Get Sample.api_url] /\ df = [])
        \/ exists total_pages steps,
             trace = Get Sample.api_url :: ProgressBar total_pages
                       :: flat_map (page_step Sample.repr) steps
             /\ Forall (fun s => Py.truthy (fst s) = true) steps).
Proof.
  pose proof (fetch_trace_shape Sample.repr 5 Sample.shoes_session 1
                                Sample.api_url "mens shoes") as H.
  destruct (fetch_nike_products Sample.repr 5 Sample.shoes_session 1
                                Sample.api_url "mens shoes")
    as [[df trace]|] eqn:E; [|vm_compute in E; discriminate E].
  exists df, trace. split; [reflexivity|]. apply (H df trace eq_refl).
Defined.

(** X11: page one is served, the request for page two fails. *)
Lemma flaky_fetch_returns_nothing :
  exists trace,
    fetch_nike_products Sample.repr 5 Scenes.flaky_session 1 Sample.api_url
                        "mens shoes" = Some ([], trace)
    /\ gets trace = 2%nat.
Proof.
  apply (failed_page_discards_the_category
           Sample.repr Scenes.flaky_session 1 Sample.api_url "mens shoes"
           Sample.page1 [] (JStr "/page2") Sample.first_pages 250 2 5).
  - split; [|exact I]. eexists. split; reflexivity.
  - reflexivity.
  - reflexivity.
  - exists RequestsError. reflexivity.
  - reflexivity.
  - reflexivity.
  - vm_compute. reflexivity.
  - cbn. lia.
Defined.

(** X12: a first page with a product but no reported count. *)
Lemma uncounted_fetch_returns_nothing :
  fetch_nike_products Sample.repr 5 Scenes.uncounted_session 1 Sample.api_url
                      "mens shoes"
  = Some ([], [Get Sample.api_url]).
Proof.
  apply (fetch_needs_the_reported_count
           Sample.repr 5 Scenes.uncounted_session 1 Sample.api_url
           "mens shoes"
           {| html := []; json_body := Return Scenes.uncounted_page |}
           Scenes.uncounted_page Scenes.uncounted_pages).
  - reflexivity.
  - reflexivity.
  - reflexivity.
  - exact I.
Defined.


(** X14 on the two sample categories. *)
Lemma sample_rows_are_shoes :
  exists all_data,
    collect Sample.repr Sample.query Sample.path 5 Sample.network
            [Sample.kids_url; Sample.shoes_url] [] = Some all_data
    /\ forall row, In row (List.concat all_data) ->
         exists url, In url [Sample.kids_url; Sample.shoes_url]
                     /\ category row = category_of_url url.
Proof.
  pose proof (snapshot_rows_carry_a_configured_category
                Sample.repr Sample.query Sample.path 5 Sample.network
                [Sample.kids_url; Sample.shoes_url]) as H.
  destruct (collect Sample.repr Sample.query Sample.path 5 Sample.network
                    [Sample.kids_url; Sample.shoes_url] [])
    as [all_data|] eqn:E; [|vm_compute in E; discriminate E].
  exists all_data. split; [reflexivity|]. apply (H all_data eq_refl).
Defined.

(** X16 on a payload whose second grouping is a string. *)
Lemma string_grouping_drops_the_page :
  parse_response (JObj Scenes.payload_with_a_string) = [].
Proof.
  apply (malformed_grouping_drops_the_page
           Scenes.payload_with_a_string
           [Sample.grouping [Sample.product "A1" "Pegasus" 12995];
            JStr "sponsored"]
           (JStr "sponsored")).
  - reflexivity.
  - right. left. reflexivity.
  - reflexivity.
Defined.

(** X17 on the first configured URL. *)
Lemma mens_shoes_category :
  category_of_url
    ("https://www.nike.com/in/w" ++ "/"
       ++ String.concat "-" (["mens"; "shoes"] ++ ["nik1zy7ok"]))
  = "mens shoes".
Proof.
  apply (category_is_the_slug_without_its_id
           "https://www.nike.com/in/w" ["mens"; "shoes"] "nik1zy7ok").
  reflexivity.
Defined.

(** X18 on the path of the first configured URL. *)
Lemma mens_shoes_path :
  exists stripped k,
    extract_path_from_url Sample.path Sample.shoes_url = Return stripped
    /\ "/in/w/mens-shoes-nik1zy7ok" = (slashes k ++ stripped)%string
    /\ starts_with_slash stripped = false.
Proof.
  apply (extracted_path_has_no_leading_slash
           Sample.path Sample.shoes_url "/in/w/mens-shoes-nik1zy7ok").
  reflexivity.
Defined.


(** ** More on the products table *)

Module Upserts.
Import Sqlite Transaction Reconciler Ledger LedgerFacts Invariants.

Lemma no_occurrence (k : value) (df : list snapshot_row) :
  occurrences k df = [] -> Forall (fun o => stored_code o <> k) df.
Proof.
  unfold occurrences. induction df as [|x rest IH]; [constructor|].
  cbn [filter]. destruct (value_eqb k (stored_code x)) eqn:E; [discriminate|].
  intros H. constructor; [|now apply IH].
  intros Heq. rewrite Heq, value_eqb_refl in E. discriminate.
Qed.

Lemma occurrence_free (k : value) (df : list snapshot_row) :
  Forall (fun o => stored_code o <> k) df -> occurrences k df = [].
Proof.
  unfold occurrences. induction 1 as [|x rest Hx _ IH]; [reflexivity|].
  cbn [filter]. rewrite value_eqb_neq by congruence. exact IH.
Qed.

(** A code that occurs in the snapshot has a last occurrence. *)
Lemma last_occurrence (k : value) (df : list snapshot_row) :
  occurrences k df <> [] ->
  exists before last after,
    df = before ++ last :: after
    /\ stored_code last = k
    /\ Forall (fun o => stored_code o <> k) after.
Proof.
  induction df as [|x rest IH]; [intros H; now contradiction H|].
  intros H. destruct (occurrences k rest) as [|y ys] eqn:E.
  - exists [], x, rest. split; [reflexivity|].
    unfold occurrences in H, E. cbn [filter] in H.
    destruct (value_eqb k (stored_code x)) eqn:Ex.
    + apply value_eqb_eq in Ex. split; [now symmetry|].
      now apply no_occurrence.
    + rewrite E in H. now contradiction H.
  - destruct IH as (before & last & after & -> & Hk & Ha); [discriminate|].
    exists (x :: before), last, after. split; [reflexivity|]. split; assumption.
Qed.

End Upserts.

(** X21.  A committed run does not touch the products it has not seen: the
    rows of a code that no row of the snapshot carries are after the run
    what they were before it, [created_at] included. *)
Theorem unseen_products_are_untouched
        (eng : Sqlite.engine) (timestamp : string) (df : list snapshot_row)
        (db : Sqlite.database) (k : Sqlite.value) :
  k <> Sqlite.Null ->
  Reconciler.obliging eng ->
  forallb Reconciler.persistable df = true ->
  Invariants.occurrences k df = [] ->
  filter (Sqlite.has_code k)
         (Sqlite.products (fst (update_database eng timestamp df db)))
  = filter (Sqlite.has_code k) (Sqlite.products db).
Proof.
  intros Hk Ho Hp Hnone. destruct df as [|row rest]; [reflexivity|].
  rewrite (ReconcilerFacts.update_database_commits eng timestamp _ db Ho Hp)
    by discriminate.
  cbn [fst]. rewrite LedgerFacts.price_loop_products.
  apply LedgerFacts.upsert_loop_untouched; [exact Hk|].
  now apply Upserts.no_occurrence.
Qed.

(** X22.  Last writer wins: after a committed run, a code carried by some
    row of the snapshot has exactly one products row, the one written for
    the last snapshot row with that code, whatever the table held before
    and however often the code occurs in the snapshot. *)
Theorem last_occurrence_wins
        (eng : Sqlite.engine) (timestamp : string) (df : list snapshot_row)
        (db : Sqlite.database) (k : Sqlite.value) :
  k <> Sqlite.Null ->
  Reconciler.obliging eng ->
  forallb Reconciler.persistable df = true ->
  Invariants.occurrences k df <> [] ->
  exists before last after,
    df = before ++ last :: after
    /\ Reconciler.stored_code last = k
    /\ Invariants.occurrences k after = []
    /\ filter (Sqlite.has_code k)
              (Sqlite.products (fst (update_database eng timestamp df db)))
       = [Reconciler.record_of
            (Sqlite.current_timestamp eng (List.length before)) last].
Proof.
  intros Hk Ho Hp Hsome.
  destruct (Upserts.last_occurrence k df Hsome)
    as (before & last & after & Hdf & Hlast & Hafter).
  exists before, last, after. split; [exact Hdf|]. split; [exact Hlast|].
  split.
  - now apply Upserts.occurrence_free.
  - subst df k.
    rewrite (ReconcilerFacts.update_database_commits eng timestamp _ db Ho Hp)
      by (destruct before; discriminate).
    cbn [fst]. rewrite LedgerFacts.price_loop_products.
    now rewrite (LedgerFacts.upsert_loop_last eng last before after Hk Hafter).
Qed.

(** ** Workers that raise, workers that never return *)

Section WorkerFaults.

Variable container_repr : json -> string.
Variable deeplink_query : string -> outcome (Py.dict (list string)).
Variable urlparse_path : string -> outcome string.

Local Abbreviation worker :=
  (process_single_url container_repr deeplink_query urlparse_path).
Local Abbreviation fetch := (fetch_nike_products container_repr).
Local Abbreviation loop := (pagination container_repr).

(** X23.  The only exception a worker lets through is the one of
    [urlparse]: [process_single_url] raises exactly when the landing page
    gave a non-empty identifier and parsing the URL for its path raises;
    no failure of the network or of a response makes it raise. *)
Theorem worker_raises_only_for_urlparse
        (fuel : nat) (sess : session) (url : string) (e : exn) :
  worker fuel sess url = Some (Raise e)
  <-> (exists concept_ids,
         extract_concept_ids deeplink_query sess url
         = Return (Some concept_ids)
         /\ concept_ids <> "")
      /\ urlparse_path url = Raise e.
Proof.
  unfold process_single_url, extract_path_from_url. split.
  - destruct (extract_concept_ids deeplink_query sess url)
      as [[[|c s]|]|e0] eqn:Ed; try discriminate.
    destruct (urlparse_path url) as [path|e1]; cbn [bind].
    + destruct (fetch fuel sess 1 _ _) as [[df trace]|]; discriminate.
    + intros H. inversion H; subst. split; [|reflexivity].
      exists (String c s). split; [reflexivity|discriminate].
  - intros [(v & Hv & Hne) Hu]. rewrite Hv.
    destruct v as [|c s]; [contradiction|].
    rewrite Hu. reflexivity.
Qed.

Lemma pagination_endless (sess : session) (data next_page : json) :
  always_answers sess data ->
  next_page_of data = Return next_page ->
  Py.truthy next_page = true ->
  forall fuel n acc trace, loop fuel sess n next_page acc trace = None.
Proof.
  intros Ha Hn Ht. induction fuel as [|fuel IH]; intros n acc trace.
  - cbn. now rewrite Ht.
  - destruct (Ha n (next_url container_repr next_page)) as (r & Hr & Hj).
    rewrite (pagination_step container_repr fuel sess n next_page acc trace
               r data next_page Ht Hr Hj Hn).
    apply IH.
Qed.

(** X24.  The loop has no bound of its own: against a server that answers
    every request with a page carrying a cursor, the fetch is still running
    after any number of pages. *)
Theorem endless_cursor_never_returns
        (sess : session) (data next_page : json) (pages : Py.dict json)
        (total total_pages : Z) (n : nat) (url category : string) :
  always_answers sess data ->
  next_page_of data = Return next_page ->
  Py.truthy next_page = true ->
  Py.getitem data "pages" = Return (JObj pages) ->
  Py.dict_get "totalResources" pages = Some (JNum total) ->
  total_pages_of (JNum total) = Return total_pages ->
  forall fuel, fetch fuel sess n url category = None.
Proof.
  intros Ha Hn Ht Hp Htot Htp fuel.
  destruct (Ha n url) as (r & Hr & Hj).
  unfold fetch_nike_products.
  rewrite (initial_page_served sess n url r data pages total total_pages
             next_page Hr Hj Hp Htot Htp Hn).
  now rewrite (pagination_endless sess data next_page Ha Hn Ht).
Qed.

End WorkerFaults.


(** X21: product A1 of the earlier run, in a run that only sees B1. *)
Lemma pegasus_untouched_by_vomero_run :
  filter (Sqlite.has_code (Sqlite.Text "A1"))
         (Sqlite.products
            (fst (update_database Scenes.february "2025-02-01 05:30:00"
                                  [Sample.vomero] Sample.earlier)))
  = filter (Sqlite.has_code (Sqlite.Text "A1"))
           (Sqlite.products Sample.earlier).
Proof.
  apply (unseen_products_are_untouched
           Scenes.february "2025-02-01 05:30:00" [Sample.vomero]
           Sample.earlier (Sqlite.Text "A1")).
  - discriminate.
  - intros n. reflexivity.
  - reflexivity.
  - reflexivity.
Defined.

(** X22: product A1 listed first and last in one snapshot. *)
Lemma pegasus_listed_twice_keeps_one_row :
  exists before last after,
    [Sample.pegasus; Sample.vomero; Sample.pegasus] = before ++ last :: after
    /\ Reconciler.stored_code last = Sqlite.Text "A1"
    /\ Invariants.occurrences (Sqlite.Text "A1") after = []
    /\ filter (Sqlite.has_code (Sqlite.Text "A1"))
              (Sqlite.products
                 (fst (update_database
                         Scenes.february "2025-02-01 05:30:00"
                         [Sample.pegasus; Sample.vomero; Sample.pegasus]
                         Sample.earlier)))
       = [Reconciler.record_of
            (Sqlite.current_timestamp Scenes.february (List.length before))
            last].
Proof.
  apply (last_occurrence_wins
           Scenes.february "2025-02-01 05:30:00"
           [Sample.pegasus; Sample.vomero; Sample.pegasus] Sample.earlier
           (Sqlite.Text "A1")).
  - discriminate.
  - intros n. reflexivity.
  - reflexivity.
  - discriminate.
Defined.

(** X24: a thousand pages are not enough against the endless server. *)
Lemma endless_server_outlasts_a_thousand_pages :
  fetch_nike_products Sample.repr 1000 Endless.session_ 1 Sample.api_url
                      "mens shoes"
  = None.
Proof.
  apply (endless_cursor_never_returns
           Sample.repr Endless.session_ Sample.page1 (JStr "/page2")
           Sample.first_pages 250 2 1 Sample.api_url "mens shoes").
  - intros n url. eexists. split; reflexivity.
  - reflexivity.
  - reflexivity.
  - reflexivity.
  - reflexivity.
  - vm_compute. reflexivity.
Defined.
